(** * Blogging backend: content lifecycle and engagement counters

    A shallow embedding of the Express/Mongoose handlers of the blog backend
    (the blog, comment and admin controllers, the admin middleware, and the
    two Mongoose schemas with their validators and pre-save hooks), followed
    by the properties of the moderation state machine, the comment thread
    model, the engagement counters and the deletion cascade, and of the
    list, statistics and account routes.

    Conventions of the embedding.
    - The collections are finite maps from ObjectIds (natural numbers) to
      documents; the key is the document's [_id]. A new ObjectId is an id
      outside the collection.
    - A JavaScript string is a sequence of code units; only code units below
      256 are represented (Rocq's [string]). Lengths, prefixes and
      concatenation do not depend on the width of a unit.
    - [req.body] fields are [option]s: [None] is [undefined].
    - Dates are natural numbers (milliseconds); the clock reading of a request
      is an argument of its handler.
    - A handler is a computation over the store that may leave early by
      sending a response ([reply]) or by throwing ([throw]); the handler's
      [try]/[catch] turns a throw into its 500 response. Writes made before a
      throw stay in the store, as they do in the database. Requests are
      served one at a time.
    - [doc.save()] runs the schema validators on the document, then the
      pre-save hooks, then writes; a validation failure and a violation of
      the unique index on [slug] are throws. [isModified] compares with the
      document as it was loaded.
    - A query filter is cast by the schema as an assigned value is: the slug
      of a filter goes through the [lowercase] and [trim] setters of the
      [slug] path before it is compared with the stored slugs.

    Left out: the [updatedAt] timestamp; the account details that [populate]
    adds to a response (the one place where a populated field is read, in
    [getBlogBySlug], is modelled); the [success] and [error] fields and the
    page counters of a response; authentication itself (a handler receives
    [req.user]) and the authentication routes; the admin's list of accounts,
    whose search reads account fields that are not modelled. *)

From Stdlib Require Import ZArith Ascii String DecimalString.
From stdpp Require Import base option list gmap strings sorting.

Local Open Scope Z_scope.
Local Open Scope nat_scope.

(** ** JavaScript strings *)

Module Js.

(** [\s] of a regular expression and the white space removed by [trim],
    among the code units below 256. *)
Definition is_space (c : ascii) : bool :=
  match nat_of_ascii c with
  | 9 | 10 | 11 | 12 | 13 | 32 | 160 => true
  | _ => false
  end.

Fixpoint trimStart (s : string) : string :=
  match s with
  | String c s' => if is_space c then trimStart s' else s
  | EmptyString => EmptyString
  end.

Definition trimEnd (s : string) : string :=
  String.rev (trimStart (String.rev s)).

(** [s.trim()] *)
Definition trim (s : string) : string := trimEnd (trimStart s).

(** [s.substring(a, b)]: the units from [min a b] up to [max a b],
    clipped to the string. *)
Definition substring (a b : nat) (s : string) : string :=
  String.substring (Nat.min a b) (Nat.max a b - Nat.min a b) s.

(** Truthiness of an optional string: [undefined] and [""] are falsy. *)
Definition truthy (o : option string) : bool :=
  match o with
  | Some (String _ _) => true
  | _ => false
  end.

(** [s.toLowerCase()] on the letters A-Z. The other units below 256 that
    it changes are not in [a-z0-9] before or after, which is all its one
    caller looks at. *)
Definition toLowerCase_unit (c : ascii) : ascii :=
  let n := nat_of_ascii c in
  if (65 <=? n) && (n <=? 90) then ascii_of_nat (n + 32) else c.

Definition is_slug_unit (c : ascii) : bool :=
  let n := nat_of_ascii c in
  ((97 <=? n) && (n <=? 122)) || ((48 <=? n) && (n <=? 57)).

(** [.replace(/[^a-z0-9]+/g, "-")]: every maximal run of units outside
    [a-z0-9] becomes one dash. [in_run] tells that the previous unit was
    already replaced. *)
Fixpoint dash_runs (in_run : bool) (s : string) : string :=
  match s with
  | EmptyString => EmptyString
  | String c s' =>
      if is_slug_unit c then String c (dash_runs false s')
      else if in_run then dash_runs true s'
      else String "-"%char (dash_runs true s')
  end.

Fixpoint strip_dashes_start (s : string) : string :=
  match s with
  | String "-"%char s' => strip_dashes_start s'
  | _ => s
  end.

(** [.replace(/^-+|-+$/g, "")] *)
Definition strip_dashes (s : string) : string :=
  String.rev (strip_dashes_start (String.rev (strip_dashes_start s))).

Fixpoint map_units (f : ascii -> ascii) (s : string) : string :=
  match s with
  | EmptyString => EmptyString
  | String c s' => String (f c) (map_units f s')
  end.

(** Decimal rendering of a number, as in ["-" + Date.now()]. *)
Definition of_nat (n : nat) : string :=
  NilEmpty.string_of_uint (Nat.to_uint n).

(** [s.split(/\s+/).length]: one more than the number of maximal runs of
    white space. *)
Fixpoint space_runs (in_run : bool) (s : string) : nat :=
  match s with
  | EmptyString => 0
  | String c s' =>
      if is_space c then (if in_run then 0 else 1) + space_runs true s'
      else space_runs false s'
  end.

Definition split_spaces_length (s : string) : nat := S (space_runs false s).

(** [Math.ceil(n / d)] for a positive divisor. *)
Definition ceil_div (n d : nat) : nat := (n + d - 1) / d.

(** [s.toLowerCase()] on all the code units below 256: the letters A-Z and
    the capital letters of Latin-1, 192 to 222 but for the sign 215. *)
Definition toLowerCase_latin1 (c : ascii) : ascii :=
  let n := nat_of_ascii c in
  if ((65 <=? n) && (n <=? 90))
     || ((192 <=? n) && (n <=? 222) && negb (n =? 215))
  then ascii_of_nat (n + 32)
  else c.

Definition toLowerCase (s : string) : string :=
  map_units toLowerCase_latin1 s.

End Js.


(** ** Data model *)

(** [status] of a blog: the schema's enum. *)
Inductive Status : Type := pending | published | rejected.

Global Instance Status_eq_dec : EqDecision Status.
Proof. solve_decision. Defined.

(** [role] of an account. *)
Inductive Role : Type := User | Admin.

Global Instance Role_eq_dec : EqDecision Role.
Proof. solve_decision. Defined.

(** [req.user], as set by the authentication middleware. *)
Record Principal : Type := { _id : nat; role : Role }.

Module Blog.

(** A document of [blogSchema]. [publishedAt] is [None] for both
    [undefined] and [null]; [commentsCount] is a Number that [$inc] may
    take below zero. *)
Record t : Type := mk {
  title : string;
  slug : string;
  content : string;
  excerpt : option string;
  coverImage : string;
  author : nat;
  category : string;
  tags : list string;
  status : Status;
  publishedAt : option nat;
  views : nat;
  likes : list nat;
  likesCount : nat;
  commentsCount : Z;
  readTime : nat;
  isDeleted : bool;
  rejectionReason : string;
  createdAt : nat
}.

(** Assignment to one field of a document. *)
Definition set_title (v : string) (d : t) : t :=
  mk v (slug d) (content d) (excerpt d) (coverImage d) (author d)
     (category d) (tags d) (status d) (publishedAt d) (views d) (likes d)
     (likesCount d) (commentsCount d) (readTime d) (isDeleted d)
     (rejectionReason d) (createdAt d).
Definition set_slug (v : string) (d : t) : t :=
  mk (title d) v (content d) (excerpt d) (coverImage d) (author d)
     (category d) (tags d) (status d) (publishedAt d) (views d) (likes d)
     (likesCount d) (commentsCount d) (readTime d) (isDeleted d)
     (rejectionReason d) (createdAt d).
Definition set_content (v : string) (d : t) : t :=
  mk (title d) (slug d) v (excerpt d) (coverImage d) (author d) (category d)
     (tags d) (status d) (publishedAt d) (views d) (likes d) (likesCount d)
     (commentsCount d) (readTime d) (isDeleted d) (rejectionReason d)
     (createdAt d).
Definition set_excerpt (v : option string) (d : t) : t :=
  mk (title d) (slug d) (content d) v (coverImage d) (author d) (category d)
     (tags d) (status d) (publishedAt d) (views d) (likes d) (likesCount d)
     (commentsCount d) (readTime d) (isDeleted d) (rejectionReason d)
     (createdAt d).
Definition set_coverImage (v : string) (d : t) : t :=
  mk (title d) (slug d) (content d) (excerpt d) v (author d) (category d)
     (tags d) (status d) (publishedAt d) (views d) (likes d) (likesCount d)
     (commentsCount d) (readTime d) (isDeleted d) (rejectionReason d)
     (createdAt d).
Definition set_category (v : string) (d : t) : t :=
  mk (title d) (slug d) (content d) (excerpt d) (coverImage d) (author d) v
     (tags d) (status d) (publishedAt d) (views d) (likes d) (likesCount d)
     (commentsCount d) (readTime d) (isDeleted d) (rejectionReason d)
     (createdAt d).
Definition set_tags (v : list string) (d : t) : t :=
  mk (title d) (slug d) (content d) (excerpt d) (coverImage d) (author d)
     (category d) v (status d) (publishedAt d) (views d) (likes d)
     (likesCount d) (commentsCount d) (readTime d) (isDeleted d)
     (rejectionReason d) (createdAt d).
Definition set_status (v : Status) (d : t) : t :=
  mk (title d) (slug d) (content d) (excerpt d) (coverImage d) (author d)
     (category d) (tags d) v (publishedAt d) (views d) (likes d)
     (likesCount d) (commentsCount d) (readTime d) (isDeleted d)
     (rejectionReason d) (createdAt d).
Definition set_publishedAt (v : option nat) (d : t) : t :=
  mk (title d) (slug d) (content d) (excerpt d) (coverImage d) (author d)
     (category d) (tags d) (status d) v (views d) (likes d) (likesCount d)
     (commentsCount d) (readTime d) (isDeleted d) (rejectionReason d)
     (createdAt d).
Definition set_views (v : nat) (d : t) : t :=
  mk (title d) (slug d) (content d) (excerpt d) (coverImage d) (author d)
     (category d) (tags d) (status d) (publishedAt d) v (likes d)
     (likesCount d) (commentsCount d) (readTime d) (isDeleted d)
     (rejectionReason d) (createdAt d).
Definition set_likes (v : list nat) (d : t) : t :=
  mk (title d) (slug d) (content d) (excerpt d) (coverImage d) (author d)
     (category d) (tags d) (status d) (publishedAt d) (views d) v
     (likesCount d) (commentsCount d) (readTime d) (isDeleted d)
     (rejectionReason d) (createdAt d).
Definition set_likesCount (v : nat) (d : t) : t :=
  mk (title d) (slug d) (content d) (excerpt d) (coverImage d) (author d)
     (category d) (tags d) (status d) (publishedAt d) (views d) (likes d) v
     (commentsCount d) (readTime d) (isDeleted d) (rejectionReason d)
     (createdAt d).
Definition set_commentsCount (v : Z) (d : t) : t :=
  mk (title d) (slug d) (content d) (excerpt d) (coverImage d) (author d)
     (category d) (tags d) (status d) (publishedAt d) (views d) (likes d)
     (likesCount d) v (readTime d) (isDeleted d) (rejectionReason d)
     (createdAt d).
Definition set_readTime (v : nat) (d : t) : t :=
  mk (title d) (slug d) (content d) (excerpt d) (coverImage d) (author d)
     (category d) (tags d) (status d) (publishedAt d) (views d) (likes d)
     (likesCount d) (commentsCount d) v (isDeleted d) (rejectionReason d)
     (createdAt d).
Definition set_isDeleted (v : bool) (d : t) : t :=
  mk (title d) (slug d) (content d) (excerpt d) (coverImage d) (author d)
     (category d) (tags d) (status d) (publishedAt d) (views d) (likes d)
     (likesCount d) (commentsCount d) (readTime d) v (rejectionReason d)
     (createdAt d).
Definition set_rejectionReason (v : string) (d : t) : t :=
  mk (title d) (slug d) (content d) (excerpt d) (coverImage d) (author d)
     (category d) (tags d) (status d) (publishedAt d) (views d) (likes d)
     (likesCount d) (commentsCount d) (readTime d) (isDeleted d) v
     (createdAt d).

End Blog.

Module Comment.

(** A document of [commentSchema]. *)
Record t : Type := mk {
  blog : nat;
  user : nat;
  content : string;
  parentComment : option nat;
  replies : list nat;
  likes : list nat;
  likesCount : nat;
  isEdited : bool;
  isDeleted : bool;
  createdAt : nat
}.

(** Assignment to one field of a document. *)
Definition set_content (v : string) (d : t) : t :=
  mk (blog d) (user d) v (parentComment d) (replies d) (likes d)
     (likesCount d) (isEdited d) (isDeleted d) (createdAt d).
Definition set_replies (v : list nat) (d : t) : t :=
  mk (blog d) (user d) (content d) (parentComment d) v (likes d)
     (likesCount d) (isEdited d) (isDeleted d) (createdAt d).
Definition set_likes (v : list nat) (d : t) : t :=
  mk (blog d) (user d) (content d) (parentComment d) (replies d) v
     (likesCount d) (isEdited d) (isDeleted d) (createdAt d).
Definition set_likesCount (v : nat) (d : t) : t :=
  mk (blog d) (user d) (content d) (parentComment d) (replies d) (likes d) v
     (isEdited d) (isDeleted d) (createdAt d).
Definition set_isEdited (v : bool) (d : t) : t :=
  mk (blog d) (user d) (content d) (parentComment d) (replies d) (likes d)
     (likesCount d) v (isDeleted d) (createdAt d).
Definition set_isDeleted (v : bool) (d : t) : t :=
  mk (blog d) (user d) (content d) (parentComment d) (replies d) (likes d)
     (likesCount d) (isEdited d) v (createdAt d).

End Comment.

Module User.

(** Modelled from the spec: the User model (models/User.js) is not among the
    sources. The spec's Principal has an id, a role and an active flag; the
    id is the key of the collection. *)
Record t : Type := mk { role : Role; isActive : bool }.

Definition set_isActive (v : bool) (d : t) : t := mk (role d) v.

End User.

(** ** The store *)

Record Db : Type := {
  blogs : gmap nat Blog.t;
  comments : gmap nat Comment.t;
  users : gmap nat User.t
}.

(** The store before any post or comment, with the accounts that exist. *)
Definition initial_db (accounts : gmap nat User.t) : Db :=
  {| blogs := ∅; comments := ∅; users := accounts |}.

(** ** Responses *)

(** A top-level comment with its populated replies. *)
Record Thread : Type := {
  thread_id : nat;
  thread_comment : Comment.t;
  thread_replies : list (nat * Comment.t)
}.

(** What a JSON response carries besides its message. Documents travel with
    their [_id]. *)
Inductive Payload : Type :=
| NoPayload
| ValidationErrors (errors : list string)
| BlogDoc (id : nat) (doc : Blog.t)
| CommentDoc (id : nat) (doc : Comment.t)
| LikeState (likesCount : nat) (isLiked : bool)
| CommentPage (total : nat) (page : list Thread).

(** [res.status(code).json({ success, message, ... })]; [success] is true
    exactly for the codes below 400 and is not repeated. *)
Record Response : Type := res {
  code : nat;
  message : string;
  payload : Payload
}.

(** ** Handlers as computations over the store *)

Inductive Exit : Type :=
| Sent (r : Response)   (* [return res.status(..).json(..)] *)
| Thrown.               (* an exception on its way to the [catch] *)

Definition M (A : Type) : Type := Db -> (Exit + A) * Db.

Definition ret {A} (a : A) : M A := fun db => (inr a, db).

Definition bind {A B} (m : M A) (k : A -> M B) : M B :=
  fun db =>
    match m db with
    | (inl e, db') => (inl e, db')
    | (inr a, db') => k a db'
    end.

Definition reply {A} (r : Response) : M A := fun db => (inl (Sent r), db).

Definition throw {A} : M A := fun db => (inl Thrown, db).

Notation "x <- m ;; k" := (bind m (fun x => k))
  (at level 100, m at next level, right associativity).
Notation "m ;;; k" := (bind m (fun _ => k))
  (at level 100, right associativity).

(** [if (c) return res...] *)
Definition reply_if (c : bool) (r : Response) : M unit :=
  if c then reply r else ret tt.

(** [const x = await ...; if (!x) return res...] *)
Definition or_reply {A} (m : M (option A)) (r : Response) : M A :=
  o <- m ;;
  match o with
  | Some a => ret a
  | None => reply r
  end.

(** [try { body } catch (error) { res.status(500).json({ message }) }] *)
Definition try_catch (on_error : string) (body : M Response)
  : Db -> Response * Db :=
  fun db =>
    match body db with
    | (inr r, db') => (r, db')
    | (inl (Sent r), db') => (r, db')
    | (inl Thrown, db') => (res 500 on_error NoPayload, db')
    end.

(** ** Mongoose models *)

(** A model is a collection of the store. *)
Record Model (A : Type) : Type := {
  coll : Db -> gmap nat A;
  with_coll : gmap nat A -> Db -> Db
}.
Arguments coll {A}.
Arguments with_coll {A}.

Definition BlogModel : Model Blog.t := {|
  coll := blogs;
  with_coll m db := {| blogs := m; comments := comments db; users := users db |}
|}.

Definition CommentModel : Model Comment.t := {|
  coll := comments;
  with_coll m db := {| blogs := blogs db; comments := m; users := users db |}
|}.

Definition UserModel : Model User.t := {|
  coll := users;
  with_coll m db := {| blogs := blogs db; comments := comments db; users := m |}
|}.

Section Queries.
Context {A : Type} (Mo : Model A).

(** [Model.findById(id)] *)
Definition findById (id : nat) : M (option A) :=
  fun db => (inr (coll Mo db !! id), db).

(** [Model.find(filter)], in the collection's own order. *)
Definition find (filter : nat -> A -> bool) : M (list (nat * A)) :=
  fun db =>
    (inr (List.filter (fun p => filter p.1 p.2) (map_to_list (coll Mo db))), db).

(** [Model.findOne(filter)] *)
Definition findOne (filter : nat -> A -> bool) : M (option (nat * A)) :=
  l <- find filter ;; ret (head l).

(** [Model.countDocuments(filter)] *)
Definition countDocuments (filter : nat -> A -> bool) : M nat :=
  l <- find filter ;; ret (length l).

(** [Model.findByIdAndUpdate(id, update)]: no hooks, no validation, and
    nothing happens when no document has the id. *)
Definition findByIdAndUpdate (id : nat) (update : A -> A) : M unit :=
  fun db => (inr tt, with_coll Mo (alter update id (coll Mo db)) db).

(** [Model.updateMany(filter, update)] *)
Definition updateMany (filter : A -> bool) (update : A -> A) : M unit :=
  fun db =>
    (inr tt,
     with_coll Mo ((fun d => if filter d then update d else d) <$> coll Mo db) db).

(** The write of a document under its id. *)
Definition store (id : nat) (doc : A) : M unit :=
  fun db => (inr tt, with_coll Mo (<[id := doc]> (coll Mo db)) db).

(** The ObjectId of a new document. *)
Definition newObjectId : M nat :=
  fun db => (inr (fresh (dom (coll Mo db))), db).

End Queries.


(** ** The blog schema: validators, unique index and pre-save hooks *)

Module BlogSchema.

Definition categories : list string :=
  ["Technology"; "Lifestyle"; "Travel"; "Food"; "Health"; "Business";
   "Entertainment"; "Education"; "Sports"; "Other"].

(** The schema's validators, which [save] and [create] run before the
    pre-save hooks: [title] 5 to 200 units, [content] at least 50,
    [excerpt] at most 300, [category] in the enum. ([required] is implied by
    the minimum lengths; [status] is in its enum by typing.) *)
Definition validate (d : Blog.t) : bool :=
  (5 <=? String.length (Blog.title d))
  && (String.length (Blog.title d) <=? 200)
  && (50 <=? String.length (Blog.content d))
  && match Blog.excerpt d with
     | Some e => String.length e <=? 300
     | None => true
     end
  && bool_decide (Blog.category d ∈ categories).

(** [this.isModified(path)]: every path of a new document, and on a loaded
    one the paths whose value is no longer the loaded value (an assignment of
    the value already there modifies nothing; [push] and [splice] always
    change the array). *)
Definition isModified {B} `{EqDecision B} (path : Blog.t -> B)
    (loaded : option Blog.t) (d : Blog.t) : bool :=
  match loaded with
  | None => true
  | Some d0 => bool_decide (path d0 ≠ path d)
  end.

(** The slug of a title at a clock reading. It is made of [a-z0-9] and
    dashes, so the schema's [lowercase] and [trim] setters leave it as it
    is. *)
Definition slugify (title : string) (now : nat) : string :=
  Js.strip_dashes (Js.dash_runs false (Js.map_units Js.toLowerCase_unit title))
  +:+ "-" +:+ Js.of_nat now.

(** The setters of the [slug] path, [lowercase] and [trim]. Mongoose runs
    the setters of a path last declared first, on a value that is assigned
    and on the value of a query filter alike. *)
Definition slug_setters (s : string) : string :=
  Js.toLowerCase (Js.trim s).

(** First hook: slug, read time and excerpt. *)
Definition pre_save_derived (now : nat) (loaded : option Blog.t) (d : Blog.t)
  : Blog.t :=
  let d1 :=
    if isModified Blog.title loaded d
    then Blog.set_slug (slugify (Blog.title d) now) d
    else d in
  let d2 :=
    if isModified Blog.content loaded d
    then Blog.set_readTime
           (Js.ceil_div (Js.split_spaces_length (Blog.content d1)) 200) d1
    else d1 in
  if isModified Blog.content loaded d && negb (Js.truthy (Blog.excerpt d2))
  then Blog.set_excerpt
         (Some (Js.substring 0 150 (Blog.content d2) +:+ "...")) d2
  else d2.

(** Second hook: the cached like count. *)
Definition pre_save_likesCount (loaded : option Blog.t) (d : Blog.t) : Blog.t :=
  if isModified Blog.likes loaded d
  then Blog.set_likesCount (length (Blog.likes d)) d
  else d.

Definition pre_save (now : nat) (loaded : option Blog.t) (d : Blog.t) : Blog.t :=
  pre_save_likesCount loaded (pre_save_derived now loaded d).

(** The unique index on [slug]: another document carries the slug. *)
Definition slug_taken (db : Db) (id : nat) (s : string) : bool :=
  bool_decide (Exists (fun p => p.1 ≠ id ∧ Blog.slug p.2 = s)
                      (map_to_list (blogs db))).

(** [doc.save()] of the document [d] with id [id], [loaded] being the
    document as it was read ([None] for a new one): validation, hooks, then
    the write, which the unique index refuses when it brings a slug that
    another document carries. The saved document is returned. *)
Definition save (now id : nat) (loaded : option Blog.t) (d : Blog.t)
  : M Blog.t :=
  if validate d then
    let d' := pre_save now loaded d in
    fun db =>
      if isModified Blog.slug loaded d' && slug_taken db id (Blog.slug d')
      then throw db
      else (store BlogModel id d' ;;; ret d') db
  else throw.

End BlogSchema.

(** ** The comment schema *)

Module CommentSchema.

(** [content] is required, of 1 to 1000 units. *)
Definition validate (d : Comment.t) : bool :=
  (1 <=? String.length (Comment.content d))
  && (String.length (Comment.content d) <=? 1000).

(** The hook: the cached like count, when [likes] is modified. *)
Definition pre_save (loaded : option Comment.t) (d : Comment.t) : Comment.t :=
  if match loaded with
     | None => true
     | Some d0 => bool_decide (Comment.likes d0 ≠ Comment.likes d)
     end
  then Comment.set_likesCount (length (Comment.likes d)) d
  else d.

Definition save (id : nat) (loaded : option Comment.t) (d : Comment.t)
  : M Comment.t :=
  if validate d then
    let d' := pre_save loaded d in
    store CommentModel id d' ;;; ret d'
  else throw.

End CommentSchema.

(** ** Arrays of ObjectIds *)

(** [likes.indexOf(userId)]: the first index holding the id, [None] for -1. *)
Fixpoint indexOf (x : nat) (l : list nat) : option nat :=
  match l with
  | [] => None
  | y :: l' => if decide (y = x) then Some 0 else S <$> indexOf x l'
  end.

(** The toggle of both like handlers: [push] when the id is absent,
    [splice(likeIndex, 1)] when it is there. *)
Definition toggle (userId : nat) (likes : list nat) : list nat :=
  match indexOf userId likes with
  | None => likes ++ [userId]
  | Some likeIndex => delete likeIndex likes
  end.

(** ** Blog controller *)

Module BlogBody.

(** [req.body] of the blog routes. *)
Record t : Type := mk {
  title : option string;
  content : option string;
  excerpt : option string;
  coverImage : option string;
  category : option string;
  tags : option (list string)
}.

End BlogBody.

(** The document that [Blog.create] builds from the fields [createBlog]
    passes, before validation and hooks: the [title] and [tags] setters
    trim, a missing category takes the schema default, a missing required
    string is empty, and the slug is not yet set. *)
Definition new_blog (now : nat) (u : Principal) (body : BlogBody.t) : Blog.t :=
  Blog.mk (Js.trim (default "" (BlogBody.title body)))
          ""
          (default "" (BlogBody.content body))
          (BlogBody.excerpt body)
          (default "" (BlogBody.coverImage body))
          (_id u)
          (default "Other" (BlogBody.category body))
          (Js.trim <$> default [] (BlogBody.tags body))
          pending None 0 [] 0 0%Z 0 false "" now.

(** POST /api/blogs. [errors] is [validationResult(req)], the outcome of the
    route's express-validator chain. *)
Definition createBlog (now : nat) (u : Principal) (errors : list string)
    (body : BlogBody.t) : Db -> Response * Db :=
  try_catch "Server error while creating blog" (
    reply_if (negb (bool_decide (errors = [])))
             (res 400 "" (ValidationErrors errors)) ;;;
    id <- newObjectId BlogModel ;;
    blog <- BlogSchema.save now id None (new_blog now u body) ;;
    ret (res 201 "Blog created successfully and sent for approval"
             (BlogDoc id blog))).

(** GET /api/blogs/:slug. [viewer] is [req.user], present when the optional
    authentication found an account. The filter [{ slug, isDeleted: false }]
    is cast by the schema, so the slug of the request goes through the
    setters of the [slug] path before it is compared. [populate("author")]
    puts the author's account in place of the id, or null when no account
    has the id, and the test on the viewer then reads [blog.author._id]:
    with a viewer and no account this throws. *)
Definition getBlogBySlug (now : nat) (viewer : option Principal)
    (slug : string) : Db -> Response * Db :=
  try_catch "Server error while fetching blog" (
    found <- or_reply
      (findOne BlogModel (fun _ b =>
         bool_decide (Blog.slug b = BlogSchema.slug_setters slug)
         && negb (Blog.isDeleted b)))
      (res 404 "Blog not found" NoPayload) ;;
    let id := found.1 in
    let blog := found.2 in
    author <- findById UserModel (Blog.author blog) ;;
    counted <-
      match viewer with
      | None => ret true
      | Some u =>
          match author with
          | Some _ => ret (bool_decide (_id u ≠ Blog.author blog))
          | None => throw
          end
      end ;;
    blog' <-
      (if counted : bool
       then BlogSchema.save now id (Some blog)
              (Blog.set_views (Blog.views blog + 1) blog)
       else ret blog) ;;
    ret (res 200 "" (BlogDoc id blog'))).

(** The field assignments of [updateBlog]. The [title] and [tags] setters
    of the schema trim what is assigned. *)
Definition assign_fields (body : BlogBody.t) (blog : Blog.t) : Blog.t :=
  let blog :=
    match BlogBody.title body with
    | Some (String c s) => Blog.set_title (Js.trim (String c s)) blog
    | _ => blog
    end in
  let blog :=
    match BlogBody.content body with
    | Some (String c s) => Blog.set_content (String c s) blog
    | _ => blog
    end in
  let blog :=
    match BlogBody.excerpt body with
    | Some e => Blog.set_excerpt (Some e) blog
    | None => blog
    end in
  let blog :=
    match BlogBody.coverImage body with
    | Some i => Blog.set_coverImage i blog
    | None => blog
    end in
  let blog :=
    match BlogBody.category body with
    | Some (String c s) => Blog.set_category (String c s) blog
    | _ => blog
    end in
  match BlogBody.tags body with
  | Some ts => Blog.set_tags (Js.trim <$> ts) blog
  | None => blog
  end.

(** "If blog was published and content changed, set back to pending". *)
Definition demote_if_edited (body : BlogBody.t) (blog : Blog.t) : Blog.t :=
  if bool_decide (Blog.status blog = published)
     && (Js.truthy (BlogBody.title body) || Js.truthy (BlogBody.content body))
  then Blog.set_publishedAt None (Blog.set_status pending blog)
  else blog.

(** PUT /api/blogs/:id *)
Definition updateBlog (now : nat) (u : Principal) (id : nat)
    (body : BlogBody.t) : Db -> Response * Db :=
  try_catch "Server error while updating blog" (
    blog <- or_reply (findById BlogModel id)
                     (res 404 "Blog not found" NoPayload) ;;
    reply_if (bool_decide (Blog.author blog ≠ _id u))
             (res 403 "You are not authorized to update this blog" NoPayload) ;;;
    saved <- BlogSchema.save now id (Some blog)
               (demote_if_edited body (assign_fields body blog)) ;;
    ret (res 200
             (if bool_decide (Blog.status saved = pending)
              then "Blog updated and sent for approval"
              else "Blog updated successfully")
             (BlogDoc id saved))).

(** DELETE /api/blogs/:id *)
Definition deleteBlog (now : nat) (u : Principal) (id : nat)
  : Db -> Response * Db :=
  try_catch "Server error while deleting blog" (
    blog <- or_reply (findById BlogModel id)
                     (res 404 "Blog not found" NoPayload) ;;
    reply_if (bool_decide (Blog.author blog ≠ _id u))
             (res 403 "You are not authorized to delete this blog" NoPayload) ;;;
    BlogSchema.save now id (Some blog) (Blog.set_isDeleted true blog) ;;;
    ret (res 200 "Blog deleted successfully" NoPayload)).

(** POST /api/blogs/:id/like *)
Definition toggleLike (now : nat) (u : Principal) (id : nat)
  : Db -> Response * Db :=
  try_catch "Server error while toggling like" (
    blog <- or_reply (findById BlogModel id)
                     (res 404 "Blog not found" NoPayload) ;;
    reply_if (bool_decide (Blog.status blog ≠ published))
             (res 400 "Cannot like unpublished blog" NoPayload) ;;;
    let userId := _id u in
    let likeIndex := indexOf userId (Blog.likes blog) in
    saved <- BlogSchema.save now id (Some blog)
               (Blog.set_likes (toggle userId (Blog.likes blog)) blog) ;;
    ret (res 200
             (match likeIndex with
              | None => "Blog liked successfully"
              | Some _ => "Blog unliked successfully"
              end)
             (LikeState (Blog.likesCount saved)
                        (bool_decide (likeIndex = None))))).

(** ** Comment controller *)

(** POST /api/comments/:blogId. [errors] is [validationResult(req)];
    [parentComment] is the id of the comment replied to, when there is one. *)
Definition createComment (now : nat) (u : Principal) (errors : list string)
    (blogId : nat) (content : string) (parentComment : option nat)
  : Db -> Response * Db :=
  try_catch "Server error while creating comment" (
    reply_if (negb (bool_decide (errors = [])))
             (res 400 "" (ValidationErrors errors)) ;;;
    blog <- or_reply (findById BlogModel blogId)
                     (res 404 "Blog not found" NoPayload) ;;
    reply_if (bool_decide (Blog.status blog ≠ published))
             (res 400 "Cannot comment on unpublished blog" NoPayload) ;;;
    match parentComment with
    | Some parent =>
        or_reply (findById CommentModel parent)
                 (res 404 "Parent comment not found" NoPayload) ;;; ret tt
    | None => ret tt
    end ;;;
    id <- newObjectId CommentModel ;;
    comment <- CommentSchema.save id None
                 (Comment.mk blogId (_id u) (Js.trim content) parentComment
                             [] [] 0 false false now) ;;
    match parentComment with
    | Some parent =>
        findByIdAndUpdate CommentModel parent
          (fun p => Comment.set_replies (Comment.replies p ++ [id]) p)
    | None => ret tt
    end ;;;
    BlogSchema.save now blogId (Some blog)
      (Blog.set_commentsCount (Blog.commentsCount blog + 1)%Z blog) ;;;
    ret (res 201 "Comment added successfully" (CommentDoc id comment))).

(** The filter of both queries of [getComments]. *)
Definition top_level_of (blogId : nat) (c : Comment.t) : bool :=
  bool_decide (Comment.blog c = blogId)
  && bool_decide (Comment.parentComment c = None)
  && negb (Comment.isDeleted c).

(** [populate({ path: "replies", match: { isDeleted: false } })]: the
    documents of the ids, in the order of the array, without the ids that
    name no document or a deleted one. *)
Definition populate_replies (db : Db) (ids : list nat)
  : list (nat * Comment.t) :=
  omap (fun id =>
          match comments db !! id with
          | Some r => if Comment.isDeleted r then None else Some (id, r)
          | None => None
          end) ids.

(** [.sort(sort)]: [before c1 c2] tells that the sort string lets [c1] come
    no later than [c2]. *)
Definition sort_by (before : Comment.t -> Comment.t -> bool)
    (l : list (nat * Comment.t)) : list (nat * Comment.t) :=
  merge_sort (fun p q => Is_true (before p.2 q.2)) l.

(** The default sort string, ["-createdAt"]. *)
Definition newest_first (c1 c2 : Comment.t) : bool :=
  Comment.createdAt c2 <=? Comment.createdAt c1.

(** GET /api/comments/:blogId. A negative skip (page 0 with a positive
    limit) is refused by the database; limit 0 is no limit. The page counters
    of the response are left out. *)
Definition getComments (blogId page limit : nat)
    (sort : Comment.t -> Comment.t -> bool) : Db -> Response * Db :=
  try_catch "Server error while fetching comments" (
    or_reply (findById BlogModel blogId)
             (res 404 "Blog not found" NoPayload) ;;;
    found <- find CommentModel (fun _ c => top_level_of blogId c) ;;
    (if (page =? 0) && (0 <? limit) then throw else ret tt) ;;;
    let skipped := drop ((page - 1) * limit) (sort_by sort found) in
    let docs := if limit =? 0 then skipped else take limit skipped in
    page <- (fun db =>
      (inr ((fun p => {| thread_id := p.1;
                         thread_comment := p.2;
                         thread_replies :=
                           populate_replies db (Comment.replies p.2) |})
              <$> docs), db)) ;;
    total <- countDocuments CommentModel (fun _ c => top_level_of blogId c) ;;
    ret (res 200 "" (CommentPage total page))).

(** PUT /api/comments/:commentId *)
Definition updateComment (u : Principal) (commentId : nat)
    (content : option string) : Db -> Response * Db :=
  try_catch "Server error while updating comment" (
    reply_if (negb (Js.truthy content)
              || (String.length (Js.trim (default "" content)) =? 0))
             (res 400 "Comment content is required" NoPayload) ;;;
    comment <- or_reply (findById CommentModel commentId)
                        (res 404 "Comment not found" NoPayload) ;;
    reply_if (bool_decide (Comment.user comment ≠ _id u))
             (res 403 "You are not authorized to update this comment"
                  NoPayload) ;;;
    saved <- CommentSchema.save commentId (Some comment)
               (Comment.set_isEdited true
                  (Comment.set_content (Js.trim (default "" content))
                     comment)) ;;
    ret (res 200 "Comment updated successfully" (CommentDoc commentId saved))).

(** The update [{ $inc: { commentsCount: n } }]. *)
Definition inc_commentsCount (n : Z) (b : Blog.t) : Blog.t :=
  Blog.set_commentsCount (Blog.commentsCount b + n)%Z b.

(** DELETE /api/comments/:commentId *)
Definition deleteComment (u : Principal) (commentId : nat)
  : Db -> Response * Db :=
  try_catch "Server error while deleting comment" (
    comment <- or_reply (findById CommentModel commentId)
                        (res 404 "Comment not found" NoPayload) ;;
    reply_if (bool_decide (Comment.user comment ≠ _id u))
             (res 403 "You are not authorized to delete this comment"
                  NoPayload) ;;;
    CommentSchema.save commentId (Some comment)
      (Comment.set_content "[deleted]"
         (Comment.set_isDeleted true comment)) ;;;
    findByIdAndUpdate BlogModel (Comment.blog comment)
      (inc_commentsCount (-1)) ;;;
    ret (res 200 "Comment deleted successfully" NoPayload)).

(** POST /api/comments/:commentId/like *)
Definition toggleCommentLike (u : Principal) (commentId : nat)
  : Db -> Response * Db :=
  try_catch "Server error while toggling comment like" (
    comment <- or_reply (findById CommentModel commentId)
                        (res 404 "Comment not found" NoPayload) ;;
    let userId := _id u in
    let likeIndex := indexOf userId (Comment.likes comment) in
    saved <- CommentSchema.save commentId (Some comment)
               (Comment.set_likes (toggle userId (Comment.likes comment))
                  comment) ;;
    ret (res 200
             (match likeIndex with
              | None => "Comment liked successfully"
              | Some _ => "Comment unliked successfully"
              end)
             (LikeState (Comment.likesCount saved)
                        (bool_decide (likeIndex = None))))).

(** ** Admin middleware and controller *)

(** [isAdmin]: the guard of every admin route. *)
Definition isAdmin (req_user : option Principal)
    (next : Principal -> Db -> Response * Db) : Db -> Response * Db :=
  match req_user with
  | None => fun db => (res 401 "Not authorized. Please login." NoPayload, db)
  | Some u =>
      if bool_decide (role u ≠ Admin)
      then fun db =>
        (res 403 "Access denied. Admin privileges required." NoPayload, db)
      else next u
  end.

(** PUT /api/admin/blogs/:id/approve *)
Definition approveBlog (now : nat) (id : nat) : Db -> Response * Db :=
  try_catch "Server error while approving blog" (
    blog <- or_reply (findById BlogModel id)
                     (res 404 "Blog not found" NoPayload) ;;
    reply_if (bool_decide (Blog.status blog = published))
             (res 400 "Blog is already published" NoPayload) ;;;
    saved <- BlogSchema.save now id (Some blog)
               (Blog.set_rejectionReason ""
                  (Blog.set_publishedAt (Some now)
                     (Blog.set_status published blog))) ;;
    ret (res 200 "Blog approved and published successfully"
             (BlogDoc id saved))).

(** PUT /api/admin/blogs/:id/reject *)
Definition rejectBlog (now : nat) (id : nat) (reason : option string)
  : Db -> Response * Db :=
  try_catch "Server error while rejecting blog" (
    reply_if (negb (Js.truthy reason)
              || (String.length (Js.trim (default "" reason)) =? 0))
             (res 400 "Rejection reason is required" NoPayload) ;;;
    blog <- or_reply (findById BlogModel id)
                     (res 404 "Blog not found" NoPayload) ;;
    saved <- BlogSchema.save now id (Some blog)
               (Blog.set_publishedAt None
                  (Blog.set_rejectionReason (default "" reason)
                     (Blog.set_status rejected blog))) ;;
    ret (res 200 "Blog rejected successfully" (BlogDoc id saved))).

(** DELETE /api/admin/blogs/:id *)
Definition deleteBlogAdmin (now : nat) (id : nat) : Db -> Response * Db :=
  try_catch "Server error while deleting blog" (
    blog <- or_reply (findById BlogModel id)
                     (res 404 "Blog not found" NoPayload) ;;
    BlogSchema.save now id (Some blog) (Blog.set_isDeleted true blog) ;;;
    updateMany CommentModel (fun c => bool_decide (Comment.blog c = id))
               (Comment.set_isDeleted true) ;;;
    ret (res 200 "Blog deleted successfully" NoPayload)).

(** DELETE /api/admin/users/:id *)
Definition deleteUser (u : Principal) (id : nat) : Db -> Response * Db :=
  try_catch "Server error while deleting user" (
    reply_if (bool_decide (id = _id u))
             (res 400 "You cannot delete your own account" NoPayload) ;;;
    user <- or_reply (findById UserModel id)
                     (res 404 "User not found" NoPayload) ;;
    updateMany BlogModel (fun b => bool_decide (Blog.author b = id))
               (Blog.set_isDeleted true) ;;;
    updateMany CommentModel (fun c => bool_decide (Comment.user c = id))
               (Comment.set_isDeleted true) ;;;
    store UserModel id (User.set_isActive false user) ;;;
    ret (res 200 "User deactivated successfully" NoPayload)).

(** DELETE /api/admin/comments/:id *)
Definition deleteCommentAdmin (id : nat) : Db -> Response * Db :=
  try_catch "Server error while deleting comment" (
    comment <- or_reply (findById CommentModel id)
                        (res 404 "Comment not found" NoPayload) ;;
    CommentSchema.save id (Some comment)
      (Comment.set_content "[deleted by admin]"
         (Comment.set_isDeleted true comment)) ;;;
    findByIdAndUpdate BlogModel (Comment.blog comment)
      (inc_commentsCount (-1)) ;;;
    ret (res 200 "Comment deleted successfully" NoPayload)).

(** ** The routes *)

(** A request, with the account the authentication middleware attached to
    it. The admin routes run [isAdmin] first. *)
Inductive Request : Type :=
| POST_blogs (u : Principal) (errors : list string) (body : BlogBody.t)
| GET_blogs_slug (viewer : option Principal) (slug : string)
| PUT_blogs_id (u : Principal) (id : nat) (body : BlogBody.t)
| DELETE_blogs_id (u : Principal) (id : nat)
| POST_blogs_id_like (u : Principal) (id : nat)
| POST_comments (u : Principal) (errors : list string) (blogId : nat)
    (content : string) (parentComment : option nat)
| GET_comments (blogId page limit : nat)
    (sort : Comment.t -> Comment.t -> bool)
| PUT_comments_id (u : Principal) (commentId : nat) (content : option string)
| DELETE_comments_id (u : Principal) (commentId : nat)
| POST_comments_id_like (u : Principal) (commentId : nat)
| PUT_admin_blogs_approve (req_user : option Principal) (id : nat)
| PUT_admin_blogs_reject (req_user : option Principal) (id : nat)
    (reason : option string)
| DELETE_admin_blogs (req_user : option Principal) (id : nat)
| DELETE_admin_users (req_user : option Principal) (id : nat)
| DELETE_admin_comments (req_user : option Principal) (id : nat).

(** The handling of one request at clock reading [now]. *)
Definition serve (now : nat) (r : Request) : Db -> Response * Db :=
  match r with
  | POST_blogs u errors body => createBlog now u errors body
  | GET_blogs_slug viewer slug => getBlogBySlug now viewer slug
  | PUT_blogs_id u id body => updateBlog now u id body
  | DELETE_blogs_id u id => deleteBlog now u id
  | POST_blogs_id_like u id => toggleLike now u id
  | POST_comments u errors blogId content parent =>
      createComment now u errors blogId content parent
  | GET_comments blogId page limit sort => getComments blogId page limit sort
  | PUT_comments_id u commentId content => updateComment u commentId content
  | DELETE_comments_id u commentId => deleteComment u commentId
  | POST_comments_id_like u commentId => toggleCommentLike u commentId
  | PUT_admin_blogs_approve ru id => isAdmin ru (fun _ => approveBlog now id)
  | PUT_admin_blogs_reject ru id reason =>
      isAdmin ru (fun _ => rejectBlog now id reason)
  | DELETE_admin_blogs ru id => isAdmin ru (fun _ => deleteBlogAdmin now id)
  | DELETE_admin_users ru id => isAdmin ru (fun u => deleteUser u id)
  | DELETE_admin_comments ru id => isAdmin ru (fun _ => deleteCommentAdmin id)
  end.

(** The store after a sequence of requests, each with its clock reading. *)
Fixpoint run (trace : list (nat * Request)) (db : Db) : Db :=
  match trace with
  | [] => db
  | (now, r) :: trace' => run trace' (serve now r db).2
  end.

(** * The list, statistics and account routes *)

(** The routes of this part answer 200 with JSON fields of their own,
    which [Payload] does not list. Their handlers return those fields;
    [answer] is their [try]/[catch], and [inl r] is a response sent with
    another code. *)
Definition answer {A} (on_error : string) (body : M A)
  : Db -> (Response + A) * Db :=
  fun db =>
    match body db with
    | (inr a, db') => (inr a, db')
    | (inl (Sent r), db') => (inl r, db')
    | (inl Thrown, db') => (inl (res 500 on_error NoPayload), db')
    end.

(** The documents of a page with [total], the count of all matches. The
    [count] field of the response is the length of the list; the page
    counters are left out. *)
Record Page (A : Type) : Type := {
  page_total : nat;
  page_docs : list (nat * A)
}.
Arguments page_total {A}.
Arguments page_docs {A}.

(** [.select("-content")]: the documents are serialised without their
    [content]. *)
Inductive Selected (A : Type) : Type :=
| Whole (docs : A)
| WithoutContent (docs : A).
Arguments Whole {A}.
Arguments WithoutContent {A}.

(** ** Query chains *)

(** [.sort(order)]: [before a b] tells that the order lets [a] come no
    later than [b]. *)
Definition order_by {A} (before : A -> A -> bool) (l : list (nat * A))
  : list (nat * A) :=
  merge_sort (fun p q => Is_true (before p.2 q.2)) l.

(** [.limit(n)]: limit 0 is no limit. *)
Definition limit_to {B} (limit : nat) (l : list B) : list B :=
  if limit =? 0 then l else take limit l.

(** [Model.find(filter).sort(order).skip((page - 1) * limit).limit(limit)].
    A negative skip (page 0 with a positive limit) is refused by the
    database. *)
Definition find_page {A} (Mo : Model A) (filter : nat -> A -> bool)
    (before : A -> A -> bool) (page limit : nat) : M (list (nat * A)) :=
  found <- find Mo filter ;;
  (if (page =? 0) && (0 <? limit) then throw else ret tt) ;;;
  ret (limit_to limit (drop ((page - 1) * limit) (order_by before found))).

(** [Model.find(filter).sort(order).limit(limit)] *)
Definition find_top {A} (Mo : Model A) (filter : nat -> A -> bool)
    (before : A -> A -> bool) (limit : nat) : M (list (nat * A)) :=
  found <- find Mo filter ;;
  ret (limit_to limit (order_by before found)).

(** [req.query.search] as the [$regex] of a filter. *)
Inductive Search : Type :=
| NoSearch                          (* absent, or the empty string *)
| Matching (hit : string -> bool)   (* a pattern; [hit s]: it matches in
                                       [s], letter case ignored *)
| BadPattern.                       (* a text that is no regular expression *)

(** [$or] of [{ field: { $regex: search, $options: "i" } }] over [fields];
    on an array field the pattern is tried on every element. *)
Definition search_hits {A} (search : Search) (fields : A -> list string)
    (a : A) : bool :=
  match search with
  | Matching hit => existsb hit (fields a)
  | _ => true
  end.

(** The database refuses a [$regex] that is no regular expression. *)
Definition check_search (search : Search) : M unit :=
  match search with
  | BadPattern => throw
  | _ => ret tt
  end.

(** The order of two dates, [null] first. *)
Definition date_le (a b : option nat) : bool :=
  match a, b with
  | None, _ => true
  | Some _, None => false
  | Some x, Some y => x <=? y
  end.

(** The [status] strings of the schema. *)
Definition status_name (s : Status) : string :=
  match s with
  | pending => "pending"
  | published => "published"
  | rejected => "rejected"
  end.

(** [if (status) query.status = status] *)
Definition status_is (status : option string) (b : Blog.t) : bool :=
  if Js.truthy status
  then bool_decide (Some (status_name (Blog.status b)) = status)
  else true.

(** ** Blog controller: lists and statistics *)

(** The [sortOption] of [getAllBlogs]. *)
Definition sortOption (sort : string) : Blog.t -> Blog.t -> bool :=
  if String.eqb sort "oldest"
  then fun a b => date_le (Blog.publishedAt a) (Blog.publishedAt b)
  else if String.eqb sort "views"
  then fun a b => Blog.views b <=? Blog.views a
  else if String.eqb sort "likes"
  then fun a b => Blog.likesCount b <=? Blog.likesCount a
  else if String.eqb sort "comments"
  then fun a b => (Blog.commentsCount b <=? Blog.commentsCount a)%Z
  else fun a b => date_le (Blog.publishedAt b) (Blog.publishedAt a).

(** The [query] of [getAllBlogs]. *)
Definition public_query (category : option string) (author : option nat)
    (search : Search) (b : Blog.t) : bool :=
  bool_decide (Blog.status b = published)
  && negb (Blog.isDeleted b)
  && (if Js.truthy category && negb (bool_decide (category = Some "All"))
      then bool_decide (Some (Blog.category b) = category)
      else true)
  && match author with
     | Some a => bool_decide (Blog.author b = a)
     | None => true
     end
  && search_hits search
       (fun b => Blog.title b :: Blog.content b :: Blog.tags b) b.

(** GET /api/blogs. [author] is the id that [req.query.author] names, if
    any. *)
Definition getAllBlogs (category : option string) (search : Search)
    (sort : option string) (page limit : nat) (author : option nat)
  : Db -> (Response + Selected (Page Blog.t)) * Db :=
  answer "Server error while fetching blogs" (
    check_search search ;;;
    blogs <- find_page BlogModel
               (fun _ b => public_query category author search b)
               (sortOption (default "-publishedAt" sort)) page limit ;;
    total <- countDocuments BlogModel
               (fun _ b => public_query category author search b) ;;
    ret (WithoutContent {| page_total := total; page_docs := blogs |})).

(** GET /api/blogs/user/my-blogs. The page and the limit are read and not
    used; the list is the result of a query of its own, without the
    status. *)
Definition getMyBlogs (u : Principal) (status : option string)
    (page limit : nat) : Db -> (Response + Page Blog.t) * Db :=
  answer "Server error while fetching your blogs" (
    blogs <- find BlogModel (fun _ b =>
               bool_decide (Blog.author b = _id u)
               && negb (Blog.isDeleted b)) ;;
    total <- countDocuments BlogModel (fun _ b =>
               bool_decide (Blog.author b = _id u)
               && negb (Blog.isDeleted b)
               && status_is status b) ;;
    ret {| page_total := total; page_docs := blogs |}).

(** The [stats] of [getBlogStats]. *)
Record Stats : Type := {
  stats_views : nat;
  stats_likes : nat;
  stats_comments : Z;
  stats_readTime : nat
}.

(** GET /api/blogs/:id/stats *)
Definition getBlogStats (id : nat) : Db -> (Response + Stats) * Db :=
  answer "Server error while fetching blog stats" (
    blog <- or_reply (findById BlogModel id)
                     (res 404 "Blog not found" NoPayload) ;;
    ret {| stats_views := Blog.views blog;
           stats_likes := Blog.likesCount blog;
           stats_comments := Blog.commentsCount blog;
           stats_readTime := Blog.readTime blog |}).

(** [publishedAt: { $gte: sevenDaysAgo }], seven days being 604800000
    milliseconds. *)
Definition in_last_week (now : nat) (b : Blog.t) : bool :=
  match Blog.publishedAt b with
  | Some t => (Z.of_nat now - 604800000 <=? Z.of_nat t)%Z
  | None => false
  end.

(** [{ views: -1, likesCount: -1 }] *)
Definition most_viewed (a b : Blog.t) : bool :=
  (Blog.views b <? Blog.views a)
  || ((Blog.views a =? Blog.views b)
      && (Blog.likesCount b <=? Blog.likesCount a)).

(** GET /api/blogs/trending *)
Definition getTrendingBlogs (now limit : nat)
  : Db -> (Response + Selected (list (nat * Blog.t))) * Db :=
  answer "Server error while fetching trending blogs" (
    blogs <- find_top BlogModel (fun _ b =>
               bool_decide (Blog.status b = published)
               && negb (Blog.isDeleted b)
               && in_last_week now b)
               most_viewed limit ;;
    ret (WithoutContent blogs)).

(** GET /api/blogs/:id/related *)
Definition getRelatedBlogs (id limit : nat)
  : Db -> (Response + Selected (list (nat * Blog.t))) * Db :=
  answer "Server error while fetching related blogs" (
    blog <- or_reply (findById BlogModel id)
                     (res 404 "Blog not found" NoPayload) ;;
    relatedBlogs <- find_top BlogModel (fun id' b =>
               bool_decide (id' ≠ id)
               && bool_decide (Blog.category b = Blog.category blog)
               && bool_decide (Blog.status b = published)
               && negb (Blog.isDeleted b))
               (fun a b => date_le (Blog.publishedAt b) (Blog.publishedAt a))
               limit ;;
    ret (WithoutContent relatedBlogs)).

(** ** Admin controller: lists and accounts *)

(** GET /api/admin/blogs/pending *)
Definition getPendingBlogs (page limit : nat)
  : Db -> (Response + Page Blog.t) * Db :=
  answer "Server error while fetching pending blogs" (
    blogs <- find_page BlogModel (fun _ b =>
               bool_decide (Blog.status b = pending)
               && negb (Blog.isDeleted b))
               (fun a b => Blog.createdAt b <=? Blog.createdAt a)
               page limit ;;
    total <- countDocuments BlogModel (fun _ b =>
               bool_decide (Blog.status b = pending)
               && negb (Blog.isDeleted b)) ;;
    ret {| page_total := total; page_docs := blogs |}).

(** GET /api/admin/blogs. [sortBy] is the order of [req.query.sortBy]. *)
Definition getAllBlogsAdmin (status : option string) (search : Search)
    (page limit : nat) (sortBy : Blog.t -> Blog.t -> bool)
  : Db -> (Response + Selected (Page Blog.t)) * Db :=
  answer "Server error while fetching blogs" (
    check_search search ;;;
    blogs <- find_page BlogModel (fun _ b =>
               negb (Blog.isDeleted b)
               && status_is status b
               && search_hits search
                    (fun b => [Blog.title b; Blog.content b]) b)
               sortBy page limit ;;
    total <- countDocuments BlogModel (fun _ b =>
               negb (Blog.isDeleted b)
               && status_is status b
               && search_hits search
                    (fun b => [Blog.title b; Blog.content b]) b) ;;
    ret (WithoutContent {| page_total := total; page_docs := blogs |})).

(** GET /api/admin/comments. [blogId] is the id that [req.query.blogId]
    names, if any. *)
Definition getAllComments (page limit : nat) (blogId : option nat)
  : Db -> (Response + Page Comment.t) * Db :=
  answer "Server error while fetching comments" (
    comments <- find_page CommentModel (fun _ c =>
               negb (Comment.isDeleted c)
               && match blogId with
                  | Some id => bool_decide (Comment.blog c = id)
                  | None => true
                  end)
               (fun a b => Comment.createdAt b <=? Comment.createdAt a)
               page limit ;;
    total <- countDocuments CommentModel (fun _ c =>
               negb (Comment.isDeleted c)
               && match blogId with
                  | Some id => bool_decide (Comment.blog c = id)
                  | None => true
                  end) ;;
    ret {| page_total := total; page_docs := comments |}).

(** The answer of the two account routes: the message and the account. *)
Record Account : Type := {
  account_message : string;
  account_id : nat;
  account_doc : User.t
}.

(** PUT /api/admin/users/:id/toggle-status *)
Definition toggleUserStatus (u : Principal) (id : nat)
  : Db -> (Response + Account) * Db :=
  answer "Server error while toggling user status" (
    reply_if (bool_decide (id = _id u))
             (res 400 "You cannot deactivate your own account" NoPayload) ;;;
    user <- or_reply (findById UserModel id)
                     (res 404 "User not found" NoPayload) ;;
    let user := User.set_isActive (negb (User.isActive user)) user in
    store UserModel id user ;;;
    ret {| account_message :=
             "User " +:+ (if User.isActive user then "activated"
                          else "deactivated") +:+ " successfully";
           account_id := id;
           account_doc := user |}).

(** The [role] strings of the accounts. *)
Definition role_of (s : string) : option Role :=
  if String.eqb s "user" then Some User
  else if String.eqb s "admin" then Some Admin
  else None.

(** The message of [updateUserRole] for a role that is none of the two;
    it quotes them. *)
Definition invalid_role : string :=
  let quote := String (ascii_of_nat 34) EmptyString in
  "Invalid role. Must be either " +:+ quote +:+ "user" +:+ quote
  +:+ " or " +:+ quote +:+ "admin" +:+ quote.

(** PUT /api/admin/users/:id/role *)
Definition updateUserRole (u : Principal) (id : nat) (role : option string)
  : Db -> (Response + Account) * Db :=
  answer "Server error while updating user role" (
    new_role <- or_reply (ret (role ≫= role_of))
                         (res 400 invalid_role NoPayload) ;;
    reply_if (bool_decide (id = _id u))
             (res 400 "You cannot change your own role" NoPayload) ;;;
    user <- or_reply (findById UserModel id)
                     (res 404 "User not found" NoPayload) ;;
    let user := User.mk new_role (User.isActive user) in
    store UserModel id user ;;;
    ret {| account_message :=
             "User role updated to " +:+ default "" role +:+ " successfully";
           account_id := id;
           account_doc := user |}).

(** ** Admin controller: the dashboard *)

(** [$group: { _id: "$key", count: { $sum: 1 } }]: every key that occurs,
    once, with the number of documents that carry it. *)
Definition group_count {A K} `{EqDecision K} (key : A -> K)
    (docs : list (nat * A)) : list (K * nat) :=
  let keys := (fun p => key p.2) <$> docs in
  (fun k => (k, length (filter (k =.) keys))) <$> remove_dups keys.

(** [$sort: { count: -1 }] *)
Definition sort_count {K} (groups : list (K * nat)) : list (K * nat) :=
  merge_sort (fun g h => Is_true (h.2 <=? g.2)) groups.

(** [$group: { _id: null, total: { $sum: "$field" } }]: one result, and
    none when no document comes in. *)
Definition group_sum {A} (field : A -> nat) (docs : list (nat * A))
  : list nat :=
  match docs with
  | [] => []
  | _ => [sum_list ((fun p => field p.2) <$> docs)]
  end.

(** An entry of [recentBlogs]:
    [.select("title status createdAt author")]. *)
Record Recent : Type := {
  recent_id : nat;
  recent_title : string;
  recent_status : Status;
  recent_createdAt : nat;
  recent_author : nat
}.

(** The [stats] of the dashboard. A top author is listed with the id and
    the count; the account details of the projection are left out. *)
Record Dashboard : Type := {
  users_total : nat;
  blogs_total : nat;
  blogs_published : nat;
  blogs_pending : nat;
  blogs_rejected : nat;
  totalViews : nat;
  totalLikes : nat;
  totalComments : nat;
  recentBlogs : list Recent;
  topAuthors : list (nat * nat);
  categoryStats : list (string * nat)
}.

(** GET /api/admin/stats *)
Definition getDashboardStats : Db -> (Response + Dashboard) * Db :=
  answer "Server error while fetching dashboard statistics" (
    totalUsers <- countDocuments UserModel (fun _ a => User.isActive a) ;;
    totalBlogs <- countDocuments BlogModel
                    (fun _ b => negb (Blog.isDeleted b)) ;;
    publishedBlogs <- countDocuments BlogModel (fun _ b =>
                        bool_decide (Blog.status b = published)
                        && negb (Blog.isDeleted b)) ;;
    pendingBlogs <- countDocuments BlogModel (fun _ b =>
                      bool_decide (Blog.status b = pending)
                      && negb (Blog.isDeleted b)) ;;
    rejectedBlogs <- countDocuments BlogModel (fun _ b =>
                       bool_decide (Blog.status b = rejected)
                       && negb (Blog.isDeleted b)) ;;
    totalComments <- countDocuments CommentModel
                       (fun _ c => negb (Comment.isDeleted c)) ;;
    live <- find BlogModel (fun _ b => negb (Blog.isDeleted b)) ;;
    let viewsResult := group_sum Blog.views live in
    let totalViews := default 0 (head viewsResult) in
    let likesResult := group_sum Blog.likesCount live in
    let totalLikes := default 0 (head likesResult) in
    recent <- find_top BlogModel (fun _ b => negb (Blog.isDeleted b))
                (fun a b => Blog.createdAt b <=? Blog.createdAt a) 5 ;;
    shown <- find BlogModel (fun _ b =>
               bool_decide (Blog.status b = published)
               && negb (Blog.isDeleted b)) ;;
    accounts <- (fun db => (inr (users db), db)) ;;
    let top := take 5 (sort_count (group_count Blog.author shown)) in
    ret {| users_total := totalUsers;
           blogs_total := totalBlogs;
           blogs_published := publishedBlogs;
           blogs_pending := pendingBlogs;
           blogs_rejected := rejectedBlogs;
           totalViews := totalViews;
           totalLikes := totalLikes;
           totalComments := totalComments;
           recentBlogs :=
             (fun p => {| recent_id := p.1;
                          recent_title := Blog.title p.2;
                          recent_status := Blog.status p.2;
                          recent_createdAt := Blog.createdAt p.2;
                          recent_author := Blog.author p.2 |}) <$> recent;
           topAuthors :=
             List.filter (fun g => bool_decide (is_Some (accounts !! g.1)))
                         top;
           categoryStats :=
             sort_count (group_count Blog.category shown) |}).

(** * Vocabulary of the statements *)

(** ** The spec's names for the error responses *)

Definition PostNotFound : Response := res 404 "Blog not found" NoPayload.
Definition PostNotPublished : Response :=
  res 400 "Cannot comment on unpublished blog" NoPayload.
Definition ParentNotFound : Response :=
  res 404 "Parent comment not found" NoPayload.
Definition AlreadyPublished : Response :=
  res 400 "Blog is already published" NoPayload.
Definition LikeNotPublished : Response :=
  res 400 "Cannot like unpublished blog" NoPayload.

(** ** Stores after a write *)

(** The store after the write of [d] under [id]. *)
Definition put_blog (id : nat) (d : Blog.t) (db : Db) : Db :=
  with_coll BlogModel (<[id := d]> (blogs db)) db.

Definition put_comment (id : nat) (d : Comment.t) (db : Db) : Db :=
  with_coll CommentModel (<[id := d]> (comments db)) db.

(** The post after the toggle of [u]'s like, as the hook leaves it. *)
Definition toggled (u : Principal) (b : Blog.t) : Blog.t :=
  Blog.set_likesCount (length (toggle (_id u) (Blog.likes b)))
    (Blog.set_likes (toggle (_id u) (Blog.likes b)) b).

Definition toggled_comment (u : Principal) (c : Comment.t) : Comment.t :=
  Comment.set_likesCount (length (toggle (_id u) (Comment.likes c)))
    (Comment.set_likes (toggle (_id u) (Comment.likes c)) c).

(** The push of a reply id on the parent, when there is a parent. *)
Definition push_reply (parent : option nat) (id : nat)
    (m : gmap nat Comment.t) : gmap nat Comment.t :=
  match parent with
  | Some p =>
      alter (fun d => Comment.set_replies (Comment.replies d ++ [id]) d) p m
  | None => m
  end.

(** The store after a comment [c] came in under [id] on the post
    [blogId], stored as [b] before. *)
Definition db_with_comment (blogId : nat) (b : Blog.t) (id : nat)
    (c : Comment.t) (db : Db) : Db :=
  {| blogs := <[blogId := Blog.set_commentsCount
                            (Blog.commentsCount b + 1)%Z b]> (blogs db);
     comments := push_reply (Comment.parentComment c) id
                   (<[id := c]> (comments db));
     users := users db |}.

(** What both delete handlers do to the comment. *)
Definition tombstone (placeholder : string) (c : Comment.t) : Comment.t :=
  Comment.set_content placeholder (Comment.set_isDeleted true c).

(** The store after a soft deletion of the comment [c] stored under [cid]. *)
Definition db_without (placeholder : string) (cid : nat) (c : Comment.t)
    (db : Db) : Db :=
  {| blogs := alter (inc_commentsCount (-1)) (Comment.blog c) (blogs db);
     comments := <[cid := tombstone placeholder c]> (comments db);
     users := users db |}.

(** The flag that [deleteBlogAdmin] sets on the comments of the post. *)
Definition purge (id : nat) (c : Comment.t) : Comment.t :=
  if bool_decide (Comment.blog c = id)
  then Comment.set_isDeleted true c
  else c.

Definition db_purged (id : nat) (b : Blog.t) (db : Db) : Db :=
  {| blogs := <[id := Blog.set_isDeleted true b]> (blogs db);
     comments := purge id <$> comments db;
     users := users db |}.

(** Deleting again the comment under [cid], [n] times, as its author. *)
Definition delete_repeatedly (u : Principal) (cid n : nat) (db : Db) : Db :=
  Nat.iter n (fun db => (deleteComment u cid db).2) db.

(** ** Hooks and the acceptance of a save *)

(** The fields no hook writes. *)
Record same_unhooked (d d' : Blog.t) : Prop := {
  same_title : Blog.title d' = Blog.title d;
  same_content : Blog.content d' = Blog.content d;
  same_coverImage : Blog.coverImage d' = Blog.coverImage d;
  same_author : Blog.author d' = Blog.author d;
  same_category : Blog.category d' = Blog.category d;
  same_tags : Blog.tags d' = Blog.tags d;
  same_status : Blog.status d' = Blog.status d;
  same_publishedAt : Blog.publishedAt d' = Blog.publishedAt d;
  same_views : Blog.views d' = Blog.views d;
  same_likes : Blog.likes d' = Blog.likes d;
  same_commentsCount : Blog.commentsCount d' = Blog.commentsCount d;
  same_isDeleted : Blog.isDeleted d' = Blog.isDeleted d;
  same_rejectionReason : Blog.rejectionReason d' = Blog.rejectionReason d;
  same_createdAt : Blog.createdAt d' = Blog.createdAt d
}.

(** [save] goes through: the validators pass and the unique index lets the
    slug in. *)
Definition save_accepts (now id : nat) (loaded : option Blog.t) (d : Blog.t)
    (db : Db) : bool :=
  BlogSchema.validate d
  && negb (BlogSchema.isModified Blog.slug loaded
             (BlogSchema.pre_save now loaded d)
           && BlogSchema.slug_taken db id
                (Blog.slug (BlogSchema.pre_save now loaded d))).

(** ** Live comments and listed comments *)

(** The comments of a post that are not deleted: what [commentsCount] is
    meant to count. *)
Definition live_comments (blogId : nat) (db : Db) : gmap nat Comment.t :=
  filter (fun p => Comment.blog p.2 = blogId ∧ Comment.isDeleted p.2 = false)
         (comments db).

(** The comment id occurs in the page of a [getComments] response, as a
    top-level comment or among the populated replies. *)
Definition listed (cid : nat) (r : Response) : Prop :=
  match payload r with
  | CommentPage _ page =>
      ∃ t, t ∈ page ∧ (thread_id t = cid ∨ cid ∈ (thread_replies t).*1)
  | _ => False
  end.

(** ** Invariants of the store *)

(** The cardinality invariant on a like array and its cached count: the
    array holds no id twice and the count is its length. *)
Definition likes_ok (likes : list nat) (likesCount : nat) : Prop :=
  NoDup likes ∧ likesCount = length likes.

(** No two posts share a slug: what the unique index maintains. *)
Definition slugs_unique (m : gmap nat Blog.t) : Prop :=
  forall id id' b b',
    m !! id = Some b -> m !! id' = Some b' ->
    Blog.slug b = Blog.slug b' -> id = id'.

(** What one request may do to a stored document: the like invariant,
    validity and a set deletion flag survive. *)
Record blog_kept (b b' : Blog.t) : Prop := {
  blog_kept_likes :
    likes_ok (Blog.likes b) (Blog.likesCount b) ->
    likes_ok (Blog.likes b') (Blog.likesCount b');
  blog_kept_valid :
    BlogSchema.validate b = true -> BlogSchema.validate b' = true;
  blog_kept_deleted : Blog.isDeleted b = true -> Blog.isDeleted b' = true
}.

Record comment_kept (c c' : Comment.t) : Prop := {
  comment_kept_likes :
    likes_ok (Comment.likes c) (Comment.likesCount c) ->
    likes_ok (Comment.likes c') (Comment.likesCount c');
  comment_kept_deleted :
    Comment.isDeleted c = true -> Comment.isDeleted c' = true
}.

Definition blog_ok (b : Blog.t) : Prop :=
  likes_ok (Blog.likes b) (Blog.likesCount b)
  ∧ BlogSchema.validate b = true.

Definition comment_ok (c : Comment.t) : Prop :=
  likes_ok (Comment.likes c) (Comment.likesCount c).

(** From one collection to a later one: every document is still there, in a
    state that [kept] allows, and the documents that came in are [ok]. *)
Definition map_evolves {A} (kept : A -> A -> Prop) (ok : A -> Prop)
    (m m' : gmap nat A) : Prop :=
  (forall id a, m !! id = Some a -> ∃ a', m' !! id = Some a' ∧ kept a a')
  ∧ (forall id a', m !! id = None -> m' !! id = Some a' -> ok a').

(** From one store to a later one. *)
Definition evolves (db db' : Db) : Prop :=
  map_evolves blog_kept blog_ok (blogs db) (blogs db')
  ∧ map_evolves comment_kept comment_ok (comments db) (comments db')
  ∧ (slugs_unique (blogs db) -> slugs_unique (blogs db')).

(** ** Slugs in the form the setters leave alone *)

(** The units of a slug: [a-z0-9] and the dash. *)
Definition is_slug_or_dash (c : ascii) : bool :=
  Js.is_slug_unit c || Ascii.eqb c "-".

Fixpoint all_units (P : ascii -> bool) (s : string) : bool :=
  match s with
  | EmptyString => true
  | String c s' => P c && all_units P s'
  end.

(** The slug of a post is as the setters of its path would make it. *)
Definition canonical (b : Blog.t) : Prop :=
  BlogSchema.slug_setters (Blog.slug b) = Blog.slug b.

(** What one request may do to the slug of a stored post. *)
Definition slug_kept (b b' : Blog.t) : Prop := canonical b -> canonical b'.

(** ** Sample data *)

Definition alice : Principal := {| _id := 1; role := User |}.
Definition bob : Principal := {| _id := 2; role := User |}.
Definition carol : Principal := {| _id := 3; role := User |}.
Definition moderator : Principal := {| _id := 9; role := Admin |}.

(** Their accounts. *)
Definition accounts : gmap nat User.t :=
  {[ 1 := User.mk User true; 2 := User.mk User true;
     3 := User.mk User true; 9 := User.mk Admin true ]}.

Definition sample_content : string :=
  "A first look at the harbour town, its markets and the long road south.".

(** A post of alice, as [createBlog] stores it at clock reading 10. *)
Definition sample_post : Blog.t :=
  Blog.mk "Harbour notes" "harbour-notes-10" sample_content
    (Some (sample_content +:+ "...")) "" 1 "Travel" [] pending None
    0 [] 0 0%Z 1 false "" 10.

Definition db_pending : Db :=
  {| blogs := {[ 0 := sample_post ]}; comments := ∅; users := accounts |}.

Definition db_published : Db :=
  {| blogs := {[ 0 := Blog.set_publishedAt (Some 11)
                        (Blog.set_status published sample_post) ]};
     comments := ∅; users := accounts |}.

(** A new title for the published sample post. *)
Definition retitle : BlogBody.t :=
  BlogBody.mk (Some "Harbour notes, revised") None None None None None.

Definition retag : BlogBody.t :=
  BlogBody.mk None None None None None (Some ["coast"; " sea "]).

(** A body of 160 units, and a second one of 60. *)
Definition long_content : string :=
  "0123456789012345678901234567890123456789" +:+
  "0123456789012345678901234567890123456789" +:+
  "0123456789012345678901234567890123456789" +:+
  "0123456789012345678901234567890123456789".

Definition short_content : string :=
  "abcdefghijabcdefghijabcdefghijabcdefghijabcdefghijabcdefghij".

Definition long_post : BlogBody.t :=
  BlogBody.mk (Some "Harbour notes") (Some long_content) None None
    (Some "Travel") None.

Definition rewrite_with_excerpt : BlogBody.t :=
  BlogBody.mk None (Some short_content) (Some "In short") None None None.

(** The published sample post with one comment of bob, a reply of carol. *)
Definition first_comment : Comment.t :=
  Comment.mk 0 2 "Lovely." None [] [] 0 false false 13.

Definition db_commented : Db :=
  db_with_comment 0 (Blog.set_publishedAt (Some 11)
                       (Blog.set_status published sample_post))
    0 first_comment db_published.

(** Alice posts, the moderator approves, bob and carol like, bob unlikes. *)
Definition like_trace : list (nat * Request) :=
  [(10, POST_blogs alice []
          (BlogBody.mk (Some "Harbour notes") (Some sample_content)
             None None (Some "Travel") None));
   (11, PUT_admin_blogs_approve (Some moderator) 0);
   (12, POST_blogs_id_like bob 0);
   (13, POST_blogs_id_like carol 0);
   (14, POST_blogs_id_like bob 0)].

(** The sample post, published and then deleted by its author. *)
Definition deleted_post : Blog.t :=
  Blog.set_isDeleted true
    (Blog.set_publishedAt (Some 11) (Blog.set_status published sample_post)).

Definition db_deleted_post : Db :=
  {| blogs := {[ 0 := deleted_post ]}; comments := ∅; users := accounts |}.

(** The thread of the sample post: bob's comment and carol's reply. *)
Definition reply_comment : Comment.t :=
  Comment.mk 0 3 "Indeed" (Some 0) [] [] 0 false false 14.

Definition post_with_thread : Blog.t :=
  Blog.set_commentsCount 2%Z
    (Blog.set_publishedAt (Some 11) (Blog.set_status published sample_post)).

Definition db_thread : Db :=
  {| blogs := {[ 0 := post_with_thread ]};
     comments := {[ 0 := Comment.set_replies [1] first_comment;
                    1 := reply_comment ]};
     users := accounts |}.

(** Bob's comment on the sample post, already deleted once: the counter
    is back to zero and no comment is live. *)
Definition db_tombstone : Db :=
  {| blogs := {[ 0 := Blog.set_publishedAt (Some 11)
                        (Blog.set_status published sample_post) ]};
     comments := {[ 0 := tombstone "[deleted]" first_comment ]};
     users := accounts |}.


(** ** Vocabulary of the further properties *)

(** The requests of the admin routes modelled in [serve]. *)
Definition admin_requests (req_user : option Principal) (id : nat)
    (reason : option string) : list Request :=
  [PUT_admin_blogs_approve req_user id;
   PUT_admin_blogs_reject req_user id reason;
   DELETE_admin_blogs req_user id;
   DELETE_admin_users req_user id;
   DELETE_admin_comments req_user id].

(** What [isAdmin] answers to a request it stops. *)
Definition admin_refusal (req_user : option Principal) : Response :=
  match req_user with
  | None => res 401 "Not authorized. Please login." NoPayload
  | Some _ => res 403 "Access denied. Admin privileges required." NoPayload
  end.

(** The store after the account [id], holding [a], is deactivated: its
    posts and its comments are flagged, nothing else is written. *)
Definition db_without_user (id : nat) (a : User.t) (db : Db) : Db :=
  {| blogs := (fun b => if bool_decide (Blog.author b = id)
                        then Blog.set_isDeleted true b else b) <$> blogs db;
     comments := (fun c => if bool_decide (Comment.user c = id)
                           then Comment.set_isDeleted true c else c)
                 <$> comments db;
     users := <[id := User.set_isActive false a]> (users db) |}.

(** The comments [getComments] ranges over: the live comments of the post
    that answer no other comment. *)
Definition top_level_comments (blogId : nat) (db : Db) : gmap nat Comment.t :=
  filter (fun p => top_level_of blogId p.2 = true) (comments db).

(** The entry of the comment page for a comment and its id. *)
Definition thread_of (db : Db) (cid : nat) (c : Comment.t) : Thread :=
  {| thread_id := cid;
     thread_comment := c;
     thread_replies := populate_replies db (Comment.replies c) |}.

(** The order of two entries of a page under a sort. *)
Definition thread_before (sort : Comment.t -> Comment.t -> bool)
    (t1 t2 : Thread) : Prop :=
  sort (thread_comment t1) (thread_comment t2) = true.

(** The moderation state of a post is coherent: it carries a publication
    date exactly when it is published, and a rejection reason exactly when
    it is rejected. *)
Definition lifecycle_ok (b : Blog.t) : Prop :=
  (Blog.status b = published <-> Blog.publishedAt b ≠ None)
  ∧ (Blog.status b = rejected <-> Blog.rejectionReason b ≠ "").

(** What no request changes on a stored post: its author and creation
    date stay, its views do not decrease, a coherent moderation state
    stays coherent. *)
Record blog_frame (b b' : Blog.t) : Prop := {
  frame_author : Blog.author b' = Blog.author b;
  frame_createdAt : Blog.createdAt b' = Blog.createdAt b;
  frame_views : Blog.views b <= Blog.views b';
  frame_lifecycle : lifecycle_ok b -> lifecycle_ok b'
}.

(** What no request changes on a stored comment: its post, its author,
    the comment it answers and its creation date stay, and its replies are
    only added to, at the end. *)
Record comment_frame (c c' : Comment.t) : Prop := {
  frame_blog : Comment.blog c' = Comment.blog c;
  frame_user : Comment.user c' = Comment.user c;
  frame_parentComment : Comment.parentComment c' = Comment.parentComment c;
  frame_created : Comment.createdAt c' = Comment.createdAt c;
  frame_replies : Comment.replies c `prefix_of` Comment.replies c'
}.

(** From one store to a later one, for the frame of the documents. *)
Definition history (db db' : Db) : Prop :=
  map_evolves blog_frame lifecycle_ok (blogs db) (blogs db')
  ∧ map_evolves comment_frame (fun _ => True) (comments db) (comments db').

(** The documents of a collection that pass a test. *)
Definition matching {A} (test : nat -> A -> bool) (m : gmap nat A)
  : gmap nat A :=
  filter (fun p => test p.1 p.2 = true) m.

(** A list of documents drawn from a collection: no document comes twice,
    a limit bounds the length, and every entry is a document of the
    collection under its id. *)
Definition drawn_from {A} (m : gmap nat A) (limit : nat)
    (docs : list (nat * A)) : Prop :=
  NoDup docs.*1
  ∧ (limit ≠ 0 -> length docs <= limit)
  ∧ length docs <= size m
  ∧ (forall id a, (id, a) ∈ docs -> m !! id = Some a).

(** A list in the order of a sort: every entry comes before all the
    entries after it. *)
Definition in_order {A} (before : A -> A -> bool) (docs : list (nat * A))
  : Prop :=
  StronglySorted (fun p q => before p.2 q.2 = true) docs.

(** An order that compares any two documents and is transitive. *)
Definition total_order {A} (before : A -> A -> bool) : Prop :=
  (forall a b, before a b = true ∨ before b a = true)
  ∧ (forall a b c, before a b = true -> before b c = true ->
                   before a c = true).

(** A post is in the public list: it is an entry of the first page of
    [getAllBlogs] without filters and without a limit. *)
Definition publicly_listed (id : nat) (db : Db) : Prop :=
  match (getAllBlogs None NoSearch None 1 0 None db).1 with
  | inr (WithoutContent pg) => id ∈ (page_docs pg).*1
  | _ => False
  end.

(** A post is in the moderation queue: it is an entry of the first page of
    [getPendingBlogs] without a limit. *)
Definition queued (id : nat) (db : Db) : Prop :=
  match (getPendingBlogs 1 0 db).1 with
  | inr pg => id ∈ (page_docs pg).*1
  | inl _ => False
  end.

(** * Properties *)

(** ** Saving a blog *)

(** Case analysis on what the hooks find modified. *)
Ltac hook_cases loaded d :=
  unfold BlogSchema.pre_save, BlogSchema.pre_save_likesCount,
    BlogSchema.pre_save_derived;
  destruct (BlogSchema.isModified Blog.title loaded d);
  destruct (BlogSchema.isModified Blog.content loaded d);
  cbn [andb Blog.excerpt Blog.set_slug Blog.set_readTime];
  destruct (Js.truthy (Blog.excerpt d)); cbn [negb];
  match goal with
  | |- context [BlogSchema.isModified Blog.likes loaded ?x] =>
      change (BlogSchema.isModified Blog.likes loaded x)
        with (BlogSchema.isModified Blog.likes loaded d)
  end;
  destruct (BlogSchema.isModified Blog.likes loaded d).

(** What the hooks write. *)
Lemma pre_save_slug now loaded d :
  Blog.slug (BlogSchema.pre_save now loaded d)
  = if BlogSchema.isModified Blog.title loaded d
    then BlogSchema.slugify (Blog.title d) now
    else Blog.slug d.
Proof. hook_cases loaded d; reflexivity. Qed.

Lemma pre_save_likesCount now loaded d :
  Blog.likesCount (BlogSchema.pre_save now loaded d)
  = if BlogSchema.isModified Blog.likes loaded d
    then length (Blog.likes d)
    else Blog.likesCount d.
Proof. hook_cases loaded d; reflexivity. Qed.

Lemma pre_save_excerpt now loaded d :
  Blog.excerpt (BlogSchema.pre_save now loaded d)
  = if BlogSchema.isModified Blog.content loaded d
       && negb (Js.truthy (Blog.excerpt d))
    then Some (Js.substring 0 150 (Blog.content d) +:+ "...")
    else Blog.excerpt d.
Proof. hook_cases loaded d; reflexivity. Qed.

Lemma pre_save_unhooked now loaded d :
  same_unhooked d (BlogSchema.pre_save now loaded d).
Proof. hook_cases loaded d; split; reflexivity. Qed.

Lemma pre_save_kept now b d :
  Blog.title d = Blog.title b ->
  Blog.content d = Blog.content b ->
  Blog.likes d = Blog.likes b ->
  BlogSchema.pre_save now (Some b) d = d.
Proof.
  intros Ht Hc Hl.
  assert (Hd : BlogSchema.pre_save_derived now (Some b) d = d).
  { unfold BlogSchema.pre_save_derived, BlogSchema.isModified.
    rewrite (bool_decide_eq_false_2 (Blog.title b ≠ Blog.title d)) by congruence.
    rewrite (bool_decide_eq_false_2 (Blog.content b ≠ Blog.content d))
      by congruence.
    reflexivity. }
  unfold BlogSchema.pre_save. rewrite Hd.
  unfold BlogSchema.pre_save_likesCount, BlogSchema.isModified.
  rewrite bool_decide_eq_false_2 by congruence.
  reflexivity.
Qed.

(** A save that brings no new slug succeeds as soon as the document is
    valid. *)
Lemma save_kept_title now id b d db :
  BlogSchema.validate d = true ->
  Blog.title d = Blog.title b ->
  Blog.slug d = Blog.slug b ->
  BlogSchema.save now id (Some b) d db
  = (inr (BlogSchema.pre_save now (Some b) d),
     put_blog id (BlogSchema.pre_save now (Some b) d) db).
Proof.
  intros Hv Ht Hs. unfold BlogSchema.save. rewrite Hv. cbv zeta.
  assert (Hslug : Blog.slug (BlogSchema.pre_save now (Some b) d) = Blog.slug b).
  { rewrite pre_save_slug. unfold BlogSchema.isModified.
    rewrite bool_decide_eq_false_2; congruence. }
  unfold BlogSchema.isModified at 1.
  rewrite (bool_decide_eq_false_2 _ (fun H => H (eq_sym Hslug))).
  reflexivity.
Qed.

Lemma save_accepted now id loaded d db :
  save_accepts now id loaded d db = true ->
  BlogSchema.save now id loaded d db
  = (inr (BlogSchema.pre_save now loaded d),
     put_blog id (BlogSchema.pre_save now loaded d) db).
Proof.
  unfold save_accepts, BlogSchema.save.
  intros [Hv Hi%negb_true_iff]%andb_true_iff.
  rewrite Hv. cbv zeta. rewrite Hi. reflexivity.
Qed.

Lemma save_refused now id loaded d db :
  save_accepts now id loaded d db = false ->
  BlogSchema.save now id loaded d db = (inl Thrown, db).
Proof.
  unfold save_accepts, BlogSchema.save.
  destruct (BlogSchema.validate d); [|reflexivity].
  cbv zeta. rewrite andb_true_l. intros ->%negb_false_iff. reflexivity.
Qed.

(** Running a handler: unfold the plumbing, then feed it the documents it
    finds. *)
Ltac handler_steps :=
  cbv [try_catch bind or_reply reply_if findById findByIdAndUpdate updateMany
       find findOne countDocuments store newObjectId reply ret throw
       coll with_coll BlogModel CommentModel UserModel].

(** ** Moderation state machine *)

(** C4. [approveBlog] on a stored post that is pending or rejected publishes
    it: the status becomes published, [publishedAt] the clock reading and
    [rejectionReason] the empty string, nothing else changes, and the
    response is the 200 with the saved post. On a post that is already
    published it answers AlreadyPublished (400) and the store is unchanged.
    (A stored post passes the schema validators, which [save] runs again.) *)
Theorem approveBlog_transitions now id db b :
  blogs db !! id = Some b ->
  BlogSchema.validate b = true ->
  let b' := Blog.set_rejectionReason ""
              (Blog.set_publishedAt (Some now)
                 (Blog.set_status published b)) in
  (Blog.status b ≠ published ->
     approveBlog now id db
     = (res 200 "Blog approved and published successfully" (BlogDoc id b'),
        put_blog id b' db)
     ∧ Blog.status b' = published
     ∧ Blog.publishedAt b' = Some now
     ∧ Blog.rejectionReason b' = "")
  ∧ (Blog.status b = published ->
     approveBlog now id db = (AlreadyPublished, db)).
Proof.
  intros Hb Hv b'. split; intros Hs.
  - split; [|done].
    unfold approveBlog. handler_steps. rewrite Hb.
    rewrite bool_decide_eq_false_2 by done.
    fold b'. rewrite save_kept_title by done.
    rewrite pre_save_kept by done. reflexivity.
  - unfold approveBlog. handler_steps. rewrite Hb.
    rewrite bool_decide_eq_true_2 by done. reflexivity.
Qed.

Lemma approveBlog_transitions_witness :
  (approveBlog 11 0 db_pending).2 = db_published
  ∧ (approveBlog 12 0 db_published) = (AlreadyPublished, db_published).
Proof.
  destruct (approveBlog_transitions 11 0 db_pending sample_post
              eq_refl eq_refl) as [Hgo _].
  destruct (approveBlog_transitions 12 0 db_published
              (Blog.set_publishedAt (Some 11)
                 (Blog.set_status published sample_post))
              eq_refl eq_refl) as [_ Hstay].
  split.
  - destruct Hgo as [-> _]; [discriminate|]. vm_compute. reflexivity.
  - apply Hstay. reflexivity.
Defined.

(** The assignments of [updateBlog] leave the lifecycle fields alone. *)
Lemma assign_fields_lifecycle body b :
  Blog.status (assign_fields body b) = Blog.status b
  ∧ Blog.publishedAt (assign_fields body b) = Blog.publishedAt b.
Proof.
  destruct body as [[[|? ?]|] [[|? ?]|] [?|] [?|] [[|? ?]|] [?|]];
    split; reflexivity.
Qed.

(** C5. The author's edit of a published post, when the save accepts it:
    with a (non-empty) title or body among the fields, the stored post is
    pending with [publishedAt] null; with neither of them (only tags,
    category, excerpt or cover image), the status stays published and
    [publishedAt] is unchanged. An empty string is not assigned by the
    handler and counts as no title or body. *)
Theorem updateBlog_published now u id body db b :
  blogs db !! id = Some b ->
  Blog.author b = _id u ->
  Blog.status b = published ->
  let edited := demote_if_edited body (assign_fields body b) in
  save_accepts now id (Some b) edited db = true ->
  let b' := BlogSchema.pre_save now (Some b) edited in
  updateBlog now u id body db
  = (res 200
         (if bool_decide (Blog.status b' = pending)
          then "Blog updated and sent for approval"
          else "Blog updated successfully")
         (BlogDoc id b'),
     put_blog id b' db)
  ∧ (Js.truthy (BlogBody.title body) || Js.truthy (BlogBody.content body)
       = true ->
     Blog.status b' = pending ∧ Blog.publishedAt b' = None)
  ∧ (Js.truthy (BlogBody.title body) = false ->
     Js.truthy (BlogBody.content body) = false ->
     Blog.status b' = published
     ∧ Blog.publishedAt b' = Blog.publishedAt b).
Proof.
  intros Hb Ha Hs edited Hok b'.
  destruct (assign_fields_lifecycle body b) as [Hst Hpa].
  pose proof (same_status _ _ (pre_save_unhooked now (Some b) edited)) as Hst'.
  pose proof (same_publishedAt _ _ (pre_save_unhooked now (Some b) edited))
    as Hpa'.
  fold b' in Hst', Hpa'.
  split; [|split].
  - unfold updateBlog. handler_steps. rewrite Hb.
    rewrite bool_decide_eq_false_2 by (intros H; apply H; exact Ha).
    fold edited. rewrite save_accepted by exact Hok. reflexivity.
  - intros Hedit. rewrite Hst', Hpa'.
    unfold edited, demote_if_edited.
    rewrite Hst, Hs, Hedit.
    rewrite bool_decide_eq_true_2 by reflexivity.
    split; reflexivity.
  - intros Ht Hc. rewrite Hst', Hpa'.
    unfold edited, demote_if_edited.
    rewrite Ht, Hc, andb_false_r, Hst, Hpa, Hs. split; reflexivity.
Qed.

Lemma updateBlog_published_witness :
  (Blog.status <$> blogs (updateBlog 20 alice 0 retitle db_published).2 !! 0
   = Some pending)
  ∧ (Blog.status <$> blogs (updateBlog 20 alice 0 retag db_published).2 !! 0
     = Some published).
Proof.
  split.
  - destruct (updateBlog_published 20 alice 0 retitle db_published
                (Blog.set_publishedAt (Some 11)
                   (Blog.set_status published sample_post))
                eq_refl eq_refl eq_refl eq_refl) as (-> & _ & _).
    vm_compute. reflexivity.
  - destruct (updateBlog_published 20 alice 0 retag db_published
                (Blog.set_publishedAt (Some 11)
                   (Blog.set_status published sample_post))
                eq_refl eq_refl eq_refl eq_refl) as (-> & _ & _).
    vm_compute. reflexivity.
Defined.

(** ** Excerpt derivation *)

(** [substring(0, n)] of a string of at least [n] units is its prefix of
    [n] units. *)
Lemma substring_prefix n s :
  n <= String.length s ->
  String.length (Js.substring 0 n s) = n
  ∧ ∃ rest, s = Js.substring 0 n s +:+ rest.
Proof.
  unfold Js.substring. rewrite Nat.min_0_l, Nat.max_0_l, Nat.sub_0_r.
  revert s. induction n as [|n IH]; intros s Hn.
  - destruct s; simpl; eauto.
  - destruct s as [|c s]; simpl in *; [lia|].
    destruct (IH s ltac:(lia)) as (Hlen & rest & Hrest).
    split; [lia|]. exists rest.
    change (String c s = String c (String.substring 0 n s +:+ rest)).
    f_equal. exact Hrest.
Qed.

Lemma assign_fields_excerpt body b e :
  BlogBody.excerpt body = Some e ->
  Blog.excerpt (assign_fields body b) = Some e.
Proof.
  destruct body as [[[|? ?]|] [[|? ?]|] [?|] [?|] [[|? ?]|] [?|]];
    simpl; intros [= ->]; reflexivity.
Qed.

Lemma assign_fields_content body b c :
  BlogBody.content body = Some c -> c ≠ "" ->
  Blog.content (assign_fields body b) = c.
Proof.
  destruct body as [[[|? ?]|] [[|? ?]|] [?|] [?|] [[|? ?]|] [?|]];
    simpl; intros [= <-] Hc; try reflexivity; done.
Qed.

Lemma demote_if_edited_content body b :
  Blog.content (demote_if_edited body b) = Blog.content b
  ∧ Blog.excerpt (demote_if_edited body b) = Blog.excerpt b.
Proof.
  unfold demote_if_edited.
  destruct (_ && _); split; reflexivity.
Qed.

(** C10. A post created from a body of more than 150 units and no excerpt
    is stored with that body and with, as excerpt, the first 150 units of
    the body followed by three dots. An edit (by the author, accepted by the
    save) that brings a body together with a non-empty excerpt stores the
    excerpt as supplied, whatever the new body is. *)
Theorem excerpt_derivation :
  (forall now u body db c,
     BlogBody.content body = Some c ->
     150 < String.length c ->
     BlogBody.excerpt body = None ->
     let id := fresh (dom (blogs db)) in
     save_accepts now id None (new_blog now u body) db = true ->
     let b := BlogSchema.pre_save now None (new_blog now u body) in
     createBlog now u [] body db
     = (res 201 "Blog created successfully and sent for approval"
            (BlogDoc id b),
        put_blog id b db)
     ∧ blogs db !! id = None
     ∧ Blog.content b = c
     ∧ Blog.excerpt b = Some (Js.substring 0 150 c +:+ "...")
     ∧ String.length (Js.substring 0 150 c) = 150
     ∧ ∃ rest, c = Js.substring 0 150 c +:+ rest)
  ∧ (forall now u id body db b c e,
       blogs db !! id = Some b ->
       Blog.author b = _id u ->
       BlogBody.content body = Some c -> c ≠ "" ->
       BlogBody.excerpt body = Some e -> e ≠ "" ->
       let edited := demote_if_edited body (assign_fields body b) in
       save_accepts now id (Some b) edited db = true ->
       let b' := BlogSchema.pre_save now (Some b) edited in
       (updateBlog now u id body db).2 = put_blog id b' db
       ∧ code (updateBlog now u id body db).1 = 200
       ∧ Blog.content b' = c
       ∧ Blog.excerpt b' = Some e).
Proof.
  split.
  - intros now u body db c Hc Hlen He id Hok b.
    destruct (substring_prefix 150 c ltac:(lia)) as [Hpre Hrest].
    split; [|split; [|split; [|split; [|split]]]]; try assumption.
    + unfold createBlog. handler_steps.
      rewrite bool_decide_eq_true_2 by reflexivity. cbn [negb].
      fold id. rewrite save_accepted by exact Hok. reflexivity.
    + apply not_elem_of_dom. apply is_fresh.
    + unfold b.
      rewrite (same_content _ _ (pre_save_unhooked now None _)).
      simpl. rewrite Hc. reflexivity.
    + unfold b. rewrite pre_save_excerpt. simpl. rewrite He, Hc. reflexivity.
  - intros now u id body db b c e Hb Ha Hc Hc0 He He0 edited Hok b'.
    assert (Hcontent : Blog.content edited = c).
    { unfold edited.
      rewrite (proj1 (demote_if_edited_content body _)).
      apply assign_fields_content; assumption. }
    assert (Hexcerpt : Blog.excerpt edited = Some e).
    { unfold edited.
      rewrite (proj2 (demote_if_edited_content body _)).
      apply assign_fields_excerpt; assumption. }
    assert (Hrun : updateBlog now u id body db
                   = (res 200
                        (if bool_decide (Blog.status b' = pending)
                         then "Blog updated and sent for approval"
                         else "Blog updated successfully")
                        (BlogDoc id b'),
                      put_blog id b' db)).
    { unfold updateBlog. handler_steps. rewrite Hb.
      rewrite bool_decide_eq_false_2 by (intros H; apply H; exact Ha).
      fold edited. rewrite save_accepted by exact Hok. reflexivity. }
    rewrite Hrun. split; [reflexivity|]. split; [reflexivity|]. split.
    + unfold b'.
      rewrite (same_content _ _ (pre_save_unhooked now (Some b) _)).
      exact Hcontent.
    + unfold b'. rewrite pre_save_excerpt, Hexcerpt.
      destruct e; [done|]. simpl. rewrite andb_false_r. reflexivity.
Qed.

Lemma excerpt_derivation_witness :
  (Blog.excerpt <$> blogs (createBlog 10 alice [] long_post (initial_db accounts)).2 !! 0
   = Some (Some (Js.substring 0 150 long_content +:+ "...")))
  ∧ (Blog.excerpt
       <$> blogs (updateBlog 20 alice 0 rewrite_with_excerpt db_pending).2 !! 0
     = Some (Some "In short")).
Proof.
  destruct excerpt_derivation as [Hcreate Hedit]. split.
  - destruct (Hcreate 10 alice long_post (initial_db accounts) long_content eq_refl
                ltac:(vm_compute; lia) eq_refl eq_refl)
      as (-> & _ & _ & He & _).
    cbn [snd put_blog with_coll BlogModel blogs].
    change (fresh (dom (blogs (initial_db accounts)))) with 0.
    rewrite lookup_insert_eq. cbn [fmap option_fmap option_map].
    rewrite He. reflexivity.
  - destruct (Hedit 20 alice 0 rewrite_with_excerpt db_pending sample_post
                short_content "In short" eq_refl eq_refl eq_refl
                ltac:(discriminate) eq_refl ltac:(discriminate) eq_refl)
      as (-> & _ & _ & He).
    cbn [put_blog with_coll BlogModel blogs].
    rewrite lookup_insert_eq. cbn [fmap option_fmap option_map].
    rewrite He. reflexivity.
Defined.

(** ** Comment thread model *)

(** A blog save that only moves a counter or a flag: the document is
    written as it is. *)
Lemma save_untouched now id b d db :
  BlogSchema.validate d = true ->
  Blog.title d = Blog.title b ->
  Blog.slug d = Blog.slug b ->
  Blog.content d = Blog.content b ->
  Blog.likes d = Blog.likes b ->
  BlogSchema.save now id (Some b) d db = (inr d, put_blog id d db).
Proof.
  intros Hv Ht Hs Hc Hl.
  rewrite save_kept_title, pre_save_kept by assumption. reflexivity.
Qed.

Lemma comment_save_valid id loaded d db :
  CommentSchema.validate d = true ->
  CommentSchema.save id loaded d db
  = (inr (CommentSchema.pre_save loaded d),
     put_comment id (CommentSchema.pre_save loaded d) db).
Proof. intros Hv. unfold CommentSchema.save. rewrite Hv. reflexivity. Qed.

Lemma createComment_unpublished now u blogId content parent db b :
  blogs db !! blogId = Some b ->
  Blog.status b ≠ published ->
  createComment now u [] blogId content parent db = (PostNotPublished, db).
Proof.
  intros Hb Hs. unfold createComment. handler_steps.
  rewrite bool_decide_eq_true_2 by reflexivity. cbn [negb].
  rewrite Hb, bool_decide_eq_true_2 by exact Hs. reflexivity.
Qed.

Lemma createComment_orphan now u blogId content p db b :
  blogs db !! blogId = Some b ->
  Blog.status b = published ->
  comments db !! p = None ->
  createComment now u [] blogId content (Some p) db = (ParentNotFound, db).
Proof.
  intros Hb Hs Hp. unfold createComment. handler_steps.
  rewrite bool_decide_eq_true_2 by reflexivity. cbn [negb].
  rewrite Hb, bool_decide_eq_false_2 by (rewrite Hs; auto).
  rewrite Hp. reflexivity.
Qed.

Lemma createComment_published now u blogId content parent db b :
  blogs db !! blogId = Some b ->
  Blog.status b = published ->
  BlogSchema.validate b = true ->
  1 <= String.length (Js.trim content) <= 1000 ->
  match parent with
  | Some p => is_Some (comments db !! p)
  | None => True
  end ->
  let id := fresh (dom (comments db)) in
  let c := Comment.mk blogId (_id u) (Js.trim content) parent
             [] [] 0 false false now in
  createComment now u [] blogId content parent db
  = (res 201 "Comment added successfully" (CommentDoc id c),
     db_with_comment blogId b id c db).
Proof.
  intros Hb Hs Hv Hlen Hparent id c.
  assert (Hcv : CommentSchema.validate c = true).
  { unfold CommentSchema.validate. cbn [Comment.content c].
    apply andb_true_iff. split; apply Nat.leb_le; lia. }
  unfold createComment. handler_steps.
  rewrite bool_decide_eq_true_2 by reflexivity. cbn [negb].
  rewrite Hb, bool_decide_eq_false_2 by (rewrite Hs; auto).
  destruct parent as [p|].
  - destruct Hparent as [pc Hp]. rewrite Hp.
    fold id. fold c. rewrite comment_save_valid by exact Hcv.
    rewrite save_untouched by done. reflexivity.
  - fold id. fold c. rewrite comment_save_valid by exact Hcv.
    rewrite save_untouched by done. reflexivity.
Qed.

(** The new comment sits under a fresh id, and the parent has it as its
    last reply. *)
Lemma db_with_comment_thread blogId b c db :
  let id := fresh (dom (comments db)) in
  match Comment.parentComment c with
  | Some p => is_Some (comments db !! p)
  | None => True
  end ->
  comments db !! id = None
  ∧ comments (db_with_comment blogId b id c db) !! id = Some c
  ∧ (forall p pc, Comment.parentComment c = Some p ->
     comments db !! p = Some pc ->
     comments (db_with_comment blogId b id c db) !! p
     = Some (Comment.set_replies (Comment.replies pc ++ [id]) pc)).
Proof.
  intros id Hparent.
  assert (Hfresh : comments db !! id = None).
  { apply not_elem_of_dom, is_fresh. }
  assert (Hne : forall p, is_Some (comments db !! p) -> p ≠ id).
  { intros p [pc Hp] ->. congruence. }
  cbn [db_with_comment comments]. split; [exact Hfresh|split].
  - destruct (Comment.parentComment c) as [p|]; cbn [push_reply].
    + rewrite lookup_alter_ne by (apply Hne, Hparent).
      apply lookup_insert_eq.
    + apply lookup_insert_eq.
  - intros p pc -> Hp. cbn [push_reply].
    rewrite lookup_alter_eq, lookup_insert_ne
      by (apply not_eq_sym, Hne; eauto).
    rewrite Hp. reflexivity.
Qed.

(** C6. [createComment] with a validated body, on a stored post.
    - When the post is not published (pending, or rejected) the answer is
      PostNotPublished and the store is unchanged.
    - When the post is published and the parent id, if given, names a
      comment: the answer is the 201 with the new comment, stored under a
      fresh id; the id is appended to the parent's replies, which are
      otherwise as before; the post's [commentsCount] is one more than
      before, and no other field of the post, no other post and no other
      comment changes.
    - When the post is published and the parent id names no comment the
      answer is ParentNotFound and the store is unchanged. *)
Theorem createComment_effect now u blogId content parent db b :
  blogs db !! blogId = Some b ->
  (Blog.status b ≠ published ->
   createComment now u [] blogId content parent db = (PostNotPublished, db))
  ∧ (Blog.status b = published ->
     BlogSchema.validate b = true ->
     1 <= String.length (Js.trim content) <= 1000 ->
     match parent with
     | Some p => is_Some (comments db !! p)
     | None => True
     end ->
     let id := fresh (dom (comments db)) in
     let c := Comment.mk blogId (_id u) (Js.trim content) parent
                [] [] 0 false false now in
     let db' := db_with_comment blogId b id c db in
     createComment now u [] blogId content parent db
     = (res 201 "Comment added successfully" (CommentDoc id c), db')
     ∧ comments db !! id = None
     ∧ comments db' !! id = Some c
     ∧ (forall p pc, parent = Some p -> comments db !! p = Some pc ->
        comments db' !! p
        = Some (Comment.set_replies (Comment.replies pc ++ [id]) pc))
     ∧ blogs db' !! blogId
       = Some (Blog.set_commentsCount (Blog.commentsCount b + 1)%Z b)
     ∧ (∃ b', blogs db' !! blogId = Some b'
              ∧ Blog.commentsCount b' = (Blog.commentsCount b + 1)%Z
              ∧ Blog.set_commentsCount (Blog.commentsCount b) b' = b)
     ∧ (forall p pc, parent = Some p -> comments db !! p = Some pc ->
        ∃ pc', comments db' !! p = Some pc'
               ∧ Comment.replies pc' = Comment.replies pc ++ [id]
               ∧ Comment.set_replies (Comment.replies pc) pc' = pc)
     ∧ (forall k, k ≠ blogId -> blogs db' !! k = blogs db !! k)
     ∧ (forall k, k ≠ id -> parent ≠ Some k ->
        comments db' !! k = comments db !! k))
  ∧ (Blog.status b = published ->
     forall p, parent = Some p -> comments db !! p = None ->
     createComment now u [] blogId content parent db = (ParentNotFound, db)).
Proof.
  intros Hb. split; [|split].
  - intros Hs. apply (createComment_unpublished _ _ _ _ _ _ b); assumption.
  - intros Hs Hv Hlen Hparent id c db'.
    destruct (db_with_comment_thread blogId b c db Hparent)
      as (Hfresh & Hnew & Hthread).
    split; [apply createComment_published; assumption|].
    split; [exact Hfresh|]. split; [exact Hnew|]. split; [exact Hthread|].
    split; [apply lookup_insert_eq|]. split; [|split; [|split]].
    + eexists. split; [apply lookup_insert_eq|].
      split; [reflexivity|]. destruct b; reflexivity.
    + intros p pc Hp Hpc. eexists. split; [apply (Hthread p pc Hp Hpc)|].
      split; [reflexivity|]. destruct pc; reflexivity.
    + intros k Hk. apply lookup_insert_ne. auto.
    + intros k Hk Hpk. subst db'. cbn [db_with_comment comments].
      unfold push_reply. cbn [Comment.parentComment c].
      destruct parent as [p|].
      * rewrite lookup_alter_ne by congruence.
        apply lookup_insert_ne. auto.
      * apply lookup_insert_ne. auto.
  - intros Hs p -> Hp.
    apply (createComment_orphan _ _ _ _ _ _ b); assumption.
Qed.

Lemma createComment_effect_witness :
  createComment 12 bob [] 0 "hello" None db_pending
    = (PostNotPublished, db_pending)
  ∧ createComment 13 bob [] 0 " Lovely. " None db_published
    = (res 201 "Comment added successfully" (CommentDoc 0 first_comment),
       db_commented)
  ∧ (Comment.replies
       <$> comments (createComment 14 carol [] 0 "Indeed" (Some 0)
                       db_commented).2 !! 0) = Some [1]
  ∧ (Blog.commentsCount <$> blogs db_published !! 0) = Some 0%Z
  ∧ (Blog.commentsCount
       <$> blogs (createComment 13 bob [] 0 " Lovely. " None
                    db_published).2 !! 0) = Some 1%Z.
Proof.
  split; [|split; [|split; [|split; [reflexivity|]]]].
  - destruct (createComment_effect 12 bob 0 "hello" None db_pending
                sample_post eq_refl) as (Hpending & _ & _).
    apply Hpending. discriminate.
  - destruct (createComment_effect 13 bob 0 " Lovely. " None db_published
                _ eq_refl) as (_ & Hpublished & _).
    destruct (Hpublished eq_refl eq_refl ltac:(vm_compute; lia) I)
      as (-> & _).
    reflexivity.
  - destruct (createComment_effect 14 carol 0 "Indeed" (Some 0) db_commented
                _ eq_refl) as (_ & Hpublished & _).
    destruct (Hpublished eq_refl eq_refl ltac:(vm_compute; lia)
                (mk_is_Some _ _ eq_refl))
      as (-> & _ & _ & Hparent & _).
    cbn [snd]. rewrite (Hparent 0 first_comment eq_refl eq_refl).
    reflexivity.
  - destruct (createComment_effect 13 bob 0 " Lovely. " None db_published
                _ eq_refl) as (_ & Hpublished & _).
    destruct (Hpublished eq_refl eq_refl ltac:(vm_compute; lia) I)
      as (-> & _ & _ & _ & _ & (b' & Hb' & Hcount & _) & _).
    cbn [snd]. rewrite Hb'. cbn [fmap option_fmap option_map].
    rewrite Hcount. reflexivity.
Defined.

(** *** Soft deletion of a comment *)

Lemma comment_pre_save_kept c d :
  Comment.likes d = Comment.likes c -> CommentSchema.pre_save (Some c) d = d.
Proof.
  intros Hl. unfold CommentSchema.pre_save.
  rewrite bool_decide_eq_false_2 by congruence. reflexivity.
Qed.

(** The author's deletion goes through whether or not the comment is
    already deleted: [isDeleted] is never read. *)
Lemma deleteComment_effect u cid db c :
  comments db !! cid = Some c ->
  Comment.user c = _id u ->
  deleteComment u cid db
  = (res 200 "Comment deleted successfully" NoPayload,
     db_without "[deleted]" cid c db).
Proof.
  intros Hc Hu. unfold deleteComment. handler_steps. rewrite Hc.
  rewrite bool_decide_eq_false_2 by (intros H; apply H; exact Hu).
  rewrite comment_save_valid by reflexivity.
  rewrite comment_pre_save_kept by reflexivity. reflexivity.
Qed.

Lemma deleteCommentAdmin_effect cid db c :
  comments db !! cid = Some c ->
  deleteCommentAdmin cid db
  = (res 200 "Comment deleted successfully" NoPayload,
     db_without "[deleted by admin]" cid c db).
Proof.
  intros Hc. unfold deleteCommentAdmin. handler_steps. rewrite Hc.
  rewrite comment_save_valid by reflexivity.
  rewrite comment_pre_save_kept by reflexivity. reflexivity.
Qed.

Lemma live_comments_db_without placeholder blogId cid c db :
  comments db !! cid = Some c ->
  Comment.isDeleted c = true ->
  live_comments blogId (db_without placeholder cid c db)
  = live_comments blogId db.
Proof.
  intros Hc Hd. unfold live_comments, db_without. cbn [comments].
  rewrite map_filter_insert_False by (cbn; intros [_ [=]]).
  rewrite map_filter_delete. apply delete_id.
  apply map_lookup_filter_None. right. intros c' Hc' [_ Hlive].
  cbn in Hlive. congruence.
Qed.

Lemma tombstone_iter placeholder c k :
  Comment.blog (Nat.iter k (tombstone placeholder) c) = Comment.blog c
  ∧ Comment.user (Nat.iter k (tombstone placeholder) c) = Comment.user c
  ∧ (Comment.isDeleted c = true ->
     Comment.isDeleted (Nat.iter k (tombstone placeholder) c) = true).
Proof.
  induction k as [|k (IHb & IHu & IHd)]; [done|].
  rewrite Nat.iter_succ. done.
Qed.

Lemma delete_repeatedly_effect u cid c p db n :
  comments db !! cid = Some c ->
  Comment.isDeleted c = true ->
  Comment.user c = _id u ->
  blogs db !! Comment.blog c = Some p ->
  comments (delete_repeatedly u cid n db) !! cid
    = Some (Nat.iter n (tombstone "[deleted]") c)
  ∧ blogs (delete_repeatedly u cid n db) !! Comment.blog c
    = Some (Blog.set_commentsCount (Blog.commentsCount p - Z.of_nat n)%Z p)
  ∧ live_comments (Comment.blog c) (delete_repeatedly u cid n db)
    = live_comments (Comment.blog c) db.
Proof.
  intros Hc Hd Hu Hp. induction n as [|n (IHc & IHp & IHl)].
  - cbn. rewrite Hc, Hp, Z.sub_0_r. destruct p; auto.
  - destruct (tombstone_iter "[deleted]" c n) as (Hblog & Huser & Hdel).
    unfold delete_repeatedly in *. rewrite Nat.iter_succ.
    rewrite (deleteComment_effect u cid _ _ IHc) by congruence.
    cbn [snd]. split; [|split].
    + cbn [db_without comments]. apply lookup_insert_eq.
    + cbn [db_without blogs]. rewrite Hblog, lookup_alter_eq, IHp.
      unfold inc_commentsCount, Blog.set_commentsCount. cbn.
      do 2 f_equal. lia.
    + rewrite <- Hblog at 1.
      rewrite live_comments_db_without by auto.
      rewrite Hblog. exact IHl.
Qed.

(** *** Listing *)

Lemma populate_replies_live db ids id r :
  (id, r) ∈ populate_replies db ids ->
  comments db !! id = Some r ∧ Comment.isDeleted r = false.
Proof.
  unfold populate_replies. intros (x & _ & Hx)%list_elem_of_omap.
  destruct (comments db !! x) as [r'|] eqn:Hr; [|discriminate].
  destruct (Comment.isDeleted r') eqn:Hd; [discriminate|].
  injection Hx as <- <-. auto.
Qed.

Lemma sort_by_elem_of before l p : p ∈ sort_by before l -> p ∈ l.
Proof.
  unfold sort_by. intros Hp.
  eapply elem_of_Permutation_proper; [|exact Hp].
  symmetry. apply merge_sort_Permutation.
Qed.

(** A deleted comment is on no page. *)
Lemma getComments_hides_deleted blogId page limit sort db cid c :
  comments db !! cid = Some c ->
  Comment.isDeleted c = true ->
  ¬ listed cid (getComments blogId page limit sort db).1.
Proof.
  intros Hc Hd. unfold getComments. handler_steps.
  destruct (blogs db !! blogId) as [post|]; [|intros []].
  destruct ((page =? 0) && (0 <? limit)); [intros []|].
  cbn [fst payload listed]. intros (t & Ht & Hin).
  apply list_elem_of_fmap in Ht as (p & -> & Hp).
  cbn [thread_id thread_replies] in Hin.
  destruct Hin as [Hid | Hreply].
  - assert (Hfound : p ∈ List.filter (fun p => top_level_of blogId p.2)
                                     (map_to_list (comments db))).
    { apply (sort_by_elem_of sort).
      apply (subseteq_drop ((page - 1) * limit)).
      destruct (limit =? 0); [exact Hp|].
      apply (subseteq_take limit). exact Hp. }
    apply list_elem_of_In, filter_In in Hfound as [Hm Htop].
    apply list_elem_of_In in Hm. destruct p as [id d].
    apply elem_of_map_to_list in Hm. cbn in Hid, Htop. subst id.
    unfold top_level_of in Htop.
    apply andb_true_iff in Htop as [_ Hlive].
    rewrite Hc in Hm. injection Hm as <-. rewrite Hd in Hlive. discriminate.
  - apply list_elem_of_fmap in Hreply as ([id r] & Hid & Hr).
    cbn in Hid. subst id.
    apply populate_replies_live in Hr as [Hr Hlive]. congruence.
Qed.

(** ** Engagement counters *)

Lemma indexOf_None x l : indexOf x l = None -> x ∉ l.
Proof.
  induction l as [|y l IH]; cbn; [intros _; apply not_elem_of_nil|].
  destruct (decide (y = x)); [discriminate|].
  destruct (indexOf x l); [discriminate|].
  intros _. apply not_elem_of_cons. auto.
Qed.

Lemma indexOf_Some x l i : indexOf x l = Some i -> l !! i = Some x.
Proof.
  revert i. induction l as [|y l IH]; cbn; [discriminate|]. intros i.
  destruct (decide (y = x)) as [->|]; [intros [= <-]; reflexivity|].
  destruct (indexOf x l) as [j|]; [|discriminate].
  intros [= <-]. cbn. auto.
Qed.

Lemma toggle_NoDup u l : NoDup l -> NoDup (toggle u l).
Proof.
  intros Hl. unfold toggle. destruct (indexOf u l) as [i|] eqn:Hi.
  - eapply sublist_NoDup; [exact Hl|apply sublist_delete].
  - apply NoDup_app. split; [exact Hl|]. split; [|apply NoDup_singleton].
    intros x Hx ->%list_elem_of_singleton.
    apply indexOf_None in Hi. contradiction.
Qed.

(** A toggle always changes the array, so the hook always sees it. *)
Lemma toggle_length u l : length (toggle u l) ≠ length l.
Proof.
  unfold toggle. destruct (indexOf u l) as [i|] eqn:Hi.
  - apply indexOf_Some in Hi.
    rewrite length_delete by eauto.
    apply lookup_lt_Some in Hi. lia.
  - rewrite length_app. cbn. lia.
Qed.

Section MapEvolution.
Context {A : Type} (kept : A -> A -> Prop) (ok : A -> Prop).
Hypothesis kept_refl : forall a, kept a a.
Hypothesis kept_trans : forall a b c, kept a b -> kept b c -> kept a c.
Hypothesis kept_ok : forall a b, kept a b -> ok a -> ok b.

Lemma map_evolves_refl m : map_evolves kept ok m m.
Proof. split; [eauto|]. intros id a' H1 H2. congruence. Qed.

Lemma map_evolves_trans m1 m2 m3 :
  map_evolves kept ok m1 m2 -> map_evolves kept ok m2 m3 ->
  map_evolves kept ok m1 m3.
Proof.
  intros [H12 N12] [H23 N23]. split.
  - intros id a Ha. destruct (H12 id a Ha) as (a2 & Ha2 & K12).
    destruct (H23 id a2 Ha2) as (a3 & Ha3 & K23). eauto.
  - intros id a3 Hnone Ha3. destruct (m2 !! id) as [a2|] eqn:Ha2.
    + destruct (H23 id a2 Ha2) as (a3' & Ha3' & K23).
      assert (a3' = a3) as -> by congruence.
      eapply kept_ok; [exact K23|]. eapply N12; eauto.
    + eapply N23; eauto.
Qed.

Lemma map_evolves_insert m id a a' :
  m !! id = Some a -> kept a a' -> map_evolves kept ok m (<[id := a']> m).
Proof.
  intros Ha K. split.
  - intros j x Hx. destruct (decide (id = j)) as [<-|Hne].
    + rewrite lookup_insert_eq. assert (x = a) as -> by congruence. eauto.
    + rewrite lookup_insert_ne by exact Hne. eauto.
  - intros j x Hnone. destruct (decide (id = j)) as [<-|Hne]; [congruence|].
    rewrite lookup_insert_ne by exact Hne. congruence.
Qed.

Lemma map_evolves_insert_new m id a' :
  m !! id = None -> ok a' -> map_evolves kept ok m (<[id := a']> m).
Proof.
  intros Hnone Hok. split.
  - intros j x Hx. destruct (decide (id = j)) as [<-|Hne]; [congruence|].
    rewrite lookup_insert_ne by exact Hne. eauto.
  - intros j x Hj. destruct (decide (id = j)) as [<-|Hne].
    + rewrite lookup_insert_eq. intros [= <-]. exact Hok.
    + rewrite lookup_insert_ne by exact Hne. congruence.
Qed.

Lemma map_evolves_alter m id f :
  (forall a, kept a (f a)) -> map_evolves kept ok m (alter f id m).
Proof.
  intros K. split.
  - intros j x Hx. destruct (decide (id = j)) as [<-|Hne].
    + rewrite lookup_alter_eq, Hx. cbn. eauto.
    + rewrite lookup_alter_ne by exact Hne. eauto.
  - intros j x Hnone. destruct (decide (id = j)) as [<-|Hne].
    + rewrite lookup_alter_eq, Hnone. discriminate.
    + rewrite lookup_alter_ne by exact Hne. congruence.
Qed.

Lemma map_evolves_fmap m f :
  (forall a, kept a (f a)) -> map_evolves kept ok m (f <$> m).
Proof.
  intros K. split.
  - intros j x Hx. rewrite lookup_fmap, Hx. cbn. eauto.
  - intros j x Hnone. rewrite lookup_fmap, Hnone. discriminate.
Qed.

End MapEvolution.

Lemma blog_kept_refl b : blog_kept b b.
Proof. split; auto. Qed.

Lemma blog_kept_trans a b c : blog_kept a b -> blog_kept b c -> blog_kept a c.
Proof. intros [] []. split; auto. Qed.

Lemma blog_kept_ok a b : blog_kept a b -> blog_ok a -> blog_ok b.
Proof. intros [] []. split; auto. Qed.

Lemma comment_kept_refl c : comment_kept c c.
Proof. split; auto. Qed.

Lemma comment_kept_trans a b c :
  comment_kept a b -> comment_kept b c -> comment_kept a c.
Proof. intros [] []. split; auto. Qed.

Lemma comment_kept_ok a b : comment_kept a b -> comment_ok a -> comment_ok b.
Proof. intros [] ?. unfold comment_ok. auto. Qed.

Lemma evolves_refl db : evolves db db.
Proof.
  split; [|split]; try apply map_evolves_refl;
    auto using blog_kept_refl, comment_kept_refl.
Qed.

Lemma evolves_trans db1 db2 db3 :
  evolves db1 db2 -> evolves db2 db3 -> evolves db1 db3.
Proof.
  intros (B12 & C12 & U12) (B23 & C23 & U23). split; [|split].
  - eapply map_evolves_trans; eauto using blog_kept_trans, blog_kept_ok.
  - eapply map_evolves_trans;
      eauto using comment_kept_trans, comment_kept_ok.
  - auto.
Qed.

(** *** Validity across the hooks *)

Lemma substring_length_le n s : String.length (String.substring 0 n s) <= n.
Proof.
  revert s. induction n as [|n IH]; intros [|c s]; cbn; try lia.
  specialize (IH s). lia.
Qed.

Lemma append_length s1 s2 :
  String.length (s1 +:+ s2) = String.length s1 + String.length s2.
Proof.
  induction s1 as [|c s1 IH]; [reflexivity|].
  change (S (String.length (s1 +:+ s2))
          = S (String.length s1 + String.length s2)).
  rewrite IH. reflexivity.
Qed.

(** The derived excerpt has at most 153 units and passes the validator the
    next time the post is saved. *)
Lemma pre_save_valid now loaded d :
  BlogSchema.validate d = true ->
  BlogSchema.validate (BlogSchema.pre_save now loaded d) = true.
Proof.
  unfold BlogSchema.validate.
  destruct (pre_save_unhooked now loaded d) as [Ht Hc _ _ Hcat _ _ _ _ _ _ _ _ _].
  rewrite Ht, Hc, Hcat, pre_save_excerpt.
  destruct (_ && negb _); [|auto].
  intros H. apply andb_true_iff in H as [H Hcategory].
  apply andb_true_iff in H as [H _]. rewrite H, Hcategory.
  rewrite andb_true_r. apply Nat.leb_le.
  rewrite append_length. unfold Js.substring.
  pose proof (substring_length_le (Nat.max 0 150 - Nat.min 0 150)
                (Blog.content d)) as Hle.
  cbn in *. lia.
Qed.

(** The second hook is what carries the invariant across a save: a
    document whose like array the handler changed gets its count from the
    array, and one whose array is as loaded keeps the loaded count. *)
Lemma blog_kept_save now b d :
  BlogSchema.validate d = true ->
  (likes_ok (Blog.likes b) (Blog.likesCount b) -> NoDup (Blog.likes d)) ->
  (Blog.likes d = Blog.likes b -> Blog.likesCount d = Blog.likesCount b) ->
  (Blog.isDeleted b = true -> Blog.isDeleted d = true) ->
  blog_kept b (BlogSchema.pre_save now (Some b) d).
Proof.
  intros Hv Hnd Hcount Hdel. split.
  - intros Hok. split.
    + rewrite (same_likes _ _ (pre_save_unhooked now (Some b) d)). auto.
    + rewrite (same_likes _ _ (pre_save_unhooked now (Some b) d)).
      rewrite pre_save_likesCount. unfold BlogSchema.isModified.
      case_bool_decide as Hmod; [reflexivity|].
      rewrite <- Hmod, Hcount by auto. apply Hok.
  - intros _. apply pre_save_valid, Hv.
  - rewrite (same_isDeleted _ _ (pre_save_unhooked now (Some b) d)). exact Hdel.
Qed.

Lemma comment_kept_save c d :
  (comment_ok c -> NoDup (Comment.likes d)) ->
  (Comment.likes d = Comment.likes c ->
   Comment.likesCount d = Comment.likesCount c) ->
  (Comment.isDeleted c = true -> Comment.isDeleted d = true) ->
  comment_kept c (CommentSchema.pre_save (Some c) d).
Proof.
  intros Hnd Hcount Hdel. unfold CommentSchema.pre_save.
  case_bool_decide as Hmod.
  - split; [|exact Hdel]. intros Hok. split; [apply Hnd, Hok|reflexivity].
  - split; [|exact Hdel].
    intros Hok. split; [apply Hnd, Hok|].
    rewrite <- Hmod, Hcount by auto. apply Hok.
Qed.

(** *** The unique index across a save *)

Lemma slug_taken_false db id s id' b' :
  BlogSchema.slug_taken db id s = false ->
  blogs db !! id' = Some b' -> id' ≠ id -> Blog.slug b' ≠ s.
Proof.
  unfold BlogSchema.slug_taken. intros Hfree Hb' Hne Hs.
  apply bool_decide_eq_false_1 in Hfree. apply Hfree.
  apply Exists_exists. exists (id', b'). split; [|auto].
  apply elem_of_map_to_list, Hb'.
Qed.

Lemma save_accepts_inv now id loaded d db :
  save_accepts now id loaded d db = true ->
  BlogSchema.validate d = true
  ∧ (BlogSchema.isModified Blog.slug loaded
       (BlogSchema.pre_save now loaded d) = true ->
     BlogSchema.slug_taken db id
       (Blog.slug (BlogSchema.pre_save now loaded d)) = false).
Proof.
  unfold save_accepts. intros [Hv Hi%negb_true_iff]%andb_true_iff.
  split; [exact Hv|]. intros Hmod. rewrite Hmod in Hi. exact Hi.
Qed.

Lemma slugs_unique_save now id d db :
  save_accepts now id (blogs db !! id) d db = true ->
  slugs_unique (blogs db) ->
  slugs_unique (<[id := BlogSchema.pre_save now (blogs db !! id) d]> (blogs db)).
Proof.
  intros Hok Huniq. apply save_accepts_inv in Hok as [_ Hindex].
  set (d' := BlogSchema.pre_save now (blogs db !! id) d) in *.
  assert (Hother : forall j b, blogs db !! j = Some b -> j ≠ id ->
                     Blog.slug b ≠ Blog.slug d').
  { intros j b Hb Hne Hslug.
    destruct (BlogSchema.isModified Blog.slug (blogs db !! id) d') eqn:Hmod.
    - eapply slug_taken_false; eauto.
    - unfold BlogSchema.isModified in Hmod.
      destruct (blogs db !! id) as [b0|] eqn:Hb0; [|discriminate].
      apply bool_decide_eq_false_1, dec_stable in Hmod.
      apply Hne. eapply Huniq; eauto. congruence. }
  intros i j bi bj Hi Hj Hslug.
  destruct (decide (i = j)) as [|Hij]; [assumption|exfalso].
  destruct (decide (id = i)) as [<-|Hi'];
    destruct (decide (id = j)) as [<-|Hj']; try congruence.
  - rewrite lookup_insert_eq in Hi. rewrite lookup_insert_ne in Hj by auto.
    injection Hi as <-. eapply Hother; eauto.
  - rewrite lookup_insert_eq in Hj. rewrite lookup_insert_ne in Hi by auto.
    injection Hj as <-. eapply Hother; eauto.
  - rewrite lookup_insert_ne in Hi, Hj by auto. eauto.
Qed.

Lemma slugs_unique_fmap (f : Blog.t -> Blog.t) m :
  (forall b, Blog.slug (f b) = Blog.slug b) ->
  slugs_unique m -> slugs_unique (f <$> m).
Proof.
  intros Hf Huniq i j bi bj. rewrite !lookup_fmap.
  destruct (m !! i) as [b1|] eqn:H1; [|discriminate].
  destruct (m !! j) as [b2|] eqn:H2; [|discriminate].
  cbn. intros [= <-] [= <-]. rewrite !Hf. eauto.
Qed.

Lemma slugs_unique_alter (f : Blog.t -> Blog.t) k m :
  (forall b, Blog.slug (f b) = Blog.slug b) ->
  slugs_unique m -> slugs_unique (alter f k m).
Proof.
  intros Hf Huniq i j bi bj Hi Hj.
  apply lookup_alter_Some in Hi as [(-> & b1 & H1 & ->)|[Hki H1]];
    apply lookup_alter_Some in Hj as [(-> & b2 & H2 & ->)|[Hkj H2]];
    rewrite ?Hf; eauto.
Qed.

Lemma blog_save_cases now id loaded d db :
  BlogSchema.save now id loaded d db = (inl Thrown, db)
  ∨ (save_accepts now id loaded d db = true
     ∧ BlogSchema.save now id loaded d db
       = (inr (BlogSchema.pre_save now loaded d),
          put_blog id (BlogSchema.pre_save now loaded d) db)).
Proof.
  destruct (save_accepts now id loaded d db) eqn:Hok.
  - right. split; [reflexivity|]. apply save_accepted, Hok.
  - left. apply save_refused, Hok.
Qed.

Lemma comment_save_cases id loaded d db :
  CommentSchema.save id loaded d db = (inl Thrown, db)
  ∨ CommentSchema.save id loaded d db
    = (inr (CommentSchema.pre_save loaded d),
       put_comment id (CommentSchema.pre_save loaded d) db).
Proof.
  unfold CommentSchema.save. destruct (CommentSchema.validate d); auto.
Qed.

(** Case analysis along a handler: the outcome of each save, each lookup
    and each test. *)
Ltac handler_cases :=
  repeat (first
    [ match goal with
      | |- context [BlogSchema.save ?now ?id ?l ?d ?db] =>
          destruct (blog_save_cases now id l d db) as [-> | [? ->]]
      | |- context [CommentSchema.save ?id ?l ?d ?db] =>
          destruct (comment_save_cases id l d db) as [-> | ->]
      end
    | match goal with
      | |- context [match ?m !! ?k with _ => _ end] =>
          destruct (m !! k) eqn:?
      | |- context [if ?c then _ else _] => destruct c eqn:?
      end ];
    cbv beta iota zeta).

(** Side conditions on the document handed to a save. *)
Ltac kept_side :=
  cbn;
  first
    [ intros [? ?]; apply toggle_NoDup; assumption
    | intros [? ?]; assumption
    | intros Heq; exfalso; eapply toggle_length; rewrite Heq; reflexivity
    | intros; reflexivity
    | intros; assumption ].

Section StoreEvolution.
Let blogs_evolve := map_evolves blog_kept blog_ok.
Let comments_evolve := map_evolves comment_kept comment_ok.

Lemma blogs_evolve_refl m : blogs_evolve m m.
Proof. apply map_evolves_refl, blog_kept_refl. Qed.

Lemma comments_evolve_refl m : comments_evolve m m.
Proof. apply map_evolves_refl, comment_kept_refl. Qed.

Lemma blogs_evolve_save now m id b d db :
  save_accepts now id (Some b) d db = true ->
  m !! id = Some b ->
  (likes_ok (Blog.likes b) (Blog.likesCount b) -> NoDup (Blog.likes d)) ->
  (Blog.likes d = Blog.likes b -> Blog.likesCount d = Blog.likesCount b) ->
  (Blog.isDeleted b = true -> Blog.isDeleted d = true) ->
  blogs_evolve m (<[id := BlogSchema.pre_save now (Some b) d]> m).
Proof.
  intros [Hv _]%save_accepts_inv **. eapply map_evolves_insert;
    eauto using blog_kept_refl, blog_kept_save.
Qed.

Lemma blogs_evolve_create now m id d db :
  save_accepts now id None d db = true ->
  m !! id = None -> Blog.likes d = [] ->
  blogs_evolve m (<[id := BlogSchema.pre_save now None d]> m).
Proof.
  intros [Hv _]%save_accepts_inv Hnone Hl. eapply map_evolves_insert_new;
    eauto using blog_kept_refl.
  split; [|apply pre_save_valid, Hv]. unfold likes_ok.
  rewrite (same_likes _ _ (pre_save_unhooked now None d)), Hl.
  rewrite pre_save_likesCount. cbn. rewrite Hl.
  split; [apply NoDup_nil_2|reflexivity].
Qed.

Lemma blogs_evolve_alter m id f :
  (forall b, blog_kept b (f b)) -> blogs_evolve m (alter f id m).
Proof. intros. apply map_evolves_alter; auto using blog_kept_refl. Qed.

Lemma blogs_evolve_fmap m f :
  (forall b, blog_kept b (f b)) -> blogs_evolve m (f <$> m).
Proof. intros. apply map_evolves_fmap; auto. Qed.

Lemma comments_evolve_save m id c d :
  m !! id = Some c ->
  (comment_ok c -> NoDup (Comment.likes d)) ->
  (Comment.likes d = Comment.likes c ->
   Comment.likesCount d = Comment.likesCount c) ->
  (Comment.isDeleted c = true -> Comment.isDeleted d = true) ->
  comments_evolve m (<[id := CommentSchema.pre_save (Some c) d]> m).
Proof.
  intros. eapply map_evolves_insert;
    eauto using comment_kept_refl, comment_kept_save.
Qed.

Lemma comments_evolve_create m id d :
  m !! id = None -> Comment.likes d = [] ->
  comments_evolve m (<[id := CommentSchema.pre_save None d]> m).
Proof.
  intros Hnone Hl. eapply map_evolves_insert_new;
    eauto using comment_kept_refl.
  unfold comment_ok, likes_ok. cbn. rewrite Hl.
  split; [apply NoDup_nil_2|reflexivity].
Qed.

Lemma comments_evolve_alter m id f :
  (forall c, comment_kept c (f c)) -> comments_evolve m (alter f id m).
Proof. intros. apply map_evolves_alter; auto using comment_kept_refl. Qed.

Lemma comments_evolve_fmap m f :
  (forall c, comment_kept c (f c)) -> comments_evolve m (f <$> m).
Proof. intros. apply map_evolves_fmap; auto. Qed.

Lemma comments_evolve_trans m1 m2 m3 :
  comments_evolve m1 m2 -> comments_evolve m2 m3 -> comments_evolve m1 m3.
Proof.
  apply map_evolves_trans;
    eauto using comment_kept_trans, comment_kept_ok.
Qed.

End StoreEvolution.

(** The flag and counter updates of the handlers keep a document. *)
Lemma blog_kept_flag b : blog_kept b (Blog.set_isDeleted true b).
Proof. split; auto. Qed.

Lemma blog_kept_inc n b : blog_kept b (inc_commentsCount n b).
Proof. split; auto. Qed.

Lemma comment_kept_flag c : comment_kept c (Comment.set_isDeleted true c).
Proof. split; auto. Qed.

Lemma comment_kept_reply id c :
  comment_kept c (Comment.set_replies (Comment.replies c ++ [id]) c).
Proof. split; auto. Qed.

(** The store parts of [evolves], with the collections laid bare. *)
Ltac evolves_parts :=
  cbn [snd]; split; [|split];
  cbn [blogs comments users put_blog put_comment with_coll coll
       BlogModel CommentModel UserModel];
  try apply blogs_evolve_refl; try apply comments_evolve_refl;
  try (intros Huniq; exact Huniq).

(** The kinds of write goals a handler leaves. *)
Ltac evolves_write :=
  lazymatch goal with
  | |- map_evolves blog_kept _ _ (<[_ := BlogSchema.pre_save _ (Some _) _]> _) =>
      eapply blogs_evolve_save; [eassumption|eassumption|kept_side..]
  | |- map_evolves blog_kept _ _ (<[_ := BlogSchema.pre_save _ None _]> _) =>
      eapply blogs_evolve_create;
        [eassumption|apply not_elem_of_dom, is_fresh|reflexivity]
  | |- map_evolves comment_kept _ _
         (<[_ := CommentSchema.pre_save (Some _) _]> _) =>
      eapply comments_evolve_save; [eassumption|kept_side..]
  | |- map_evolves comment_kept _ _ (<[_ := CommentSchema.pre_save None _]> _) =>
      apply comments_evolve_create;
        [apply not_elem_of_dom, is_fresh|reflexivity]
  | |- map_evolves comment_kept _ _ (alter _ _ (<[_ := _]> _)) =>
      eapply comments_evolve_trans;
        [|apply comments_evolve_alter; intros; apply comment_kept_reply];
        apply comments_evolve_create;
        [apply not_elem_of_dom, is_fresh|reflexivity]
  | |- map_evolves blog_kept _ _ (alter (inc_commentsCount _) _ _) =>
      apply blogs_evolve_alter; intros; apply blog_kept_inc
  | |- map_evolves blog_kept _ _ (_ <$> _) =>
      apply blogs_evolve_fmap; intros;
        match goal with
        | |- context [if ?c then _ else _] => destruct c
        end; auto using blog_kept_refl, blog_kept_flag
  | |- map_evolves comment_kept _ _ (_ <$> _) =>
      apply comments_evolve_fmap; intros;
        match goal with
        | |- context [if ?c then _ else _] => destruct c
        end; auto using comment_kept_refl, comment_kept_flag
  | |- slugs_unique _ -> slugs_unique (<[?id := BlogSchema.pre_save _ ?l _]> _) =>
      match goal with
      | H : save_accepts _ id l _ _ = true |- _ =>
          let Hl := fresh in
          assert (Hl : l = blogs _ !! id)
            by (first [symmetry; eassumption
                      |symmetry; apply not_elem_of_dom, is_fresh]);
          rewrite Hl in H |- *; intros Huniq;
          exact (slugs_unique_save _ _ _ _ H Huniq)
      end
  | |- slugs_unique _ -> slugs_unique (alter _ _ _) =>
      apply slugs_unique_alter; reflexivity
  | |- slugs_unique _ -> slugs_unique (_ <$> _) =>
      apply slugs_unique_fmap; intros;
        match goal with
        | |- context [if ?c then _ else _] => destruct c
        end; reflexivity
  end.

Lemma edit_engagement body b :
  let d := demote_if_edited body (assign_fields body b) in
  Blog.likes d = Blog.likes b
  ∧ Blog.likesCount d = Blog.likesCount b
  ∧ Blog.isDeleted d = Blog.isDeleted b.
Proof.
  cbv zeta. unfold demote_if_edited.
  destruct (_ && _);
    destruct body as [[[|? ?]|] [[|? ?]|] [?|] [?|] [[|? ?]|] [?|]];
    repeat split; reflexivity.
Qed.

Lemma findOne_found {A} (m : gmap nat A) (test : nat * A -> bool) p :
  head (List.filter test (map_to_list m)) = Some p ->
  m !! p.1 = Some p.2 ∧ test p = true.
Proof.
  intros Hhead. apply head_Some_elem_of in Hhead.
  apply list_elem_of_In, filter_In in Hhead as [Hin Htest].
  apply list_elem_of_In in Hin. destruct p as [id a].
  apply elem_of_map_to_list in Hin. auto.
Qed.

Lemma toggleLike_evolves now u id db : evolves db (toggleLike now u id db).2.
Proof.
  unfold toggleLike. handler_steps. handler_cases; evolves_parts;
    evolves_write.
Qed.

Lemma toggleCommentLike_evolves u id db :
  evolves db (toggleCommentLike u id db).2.
Proof.
  unfold toggleCommentLike. handler_steps. handler_cases; evolves_parts;
    evolves_write.
Qed.

Lemma createBlog_evolves now u errors body db :
  evolves db (createBlog now u errors body db).2.
Proof.
  unfold createBlog. handler_steps. handler_cases; evolves_parts;
    evolves_write.
Qed.

Lemma getBlogBySlug_evolves now viewer slug db :
  evolves db (getBlogBySlug now viewer slug db).2.
Proof.
  unfold getBlogBySlug. handler_steps.
  destruct (head _) as [[id b]|] eqn:Hfound; cbv beta iota zeta;
    [|apply evolves_refl].
  apply findOne_found in Hfound as [Hb _]. cbn [fst snd] in *.
  destruct viewer as [v|]; handler_cases; evolves_parts; evolves_write.
Qed.

Lemma updateBlog_evolves now u id body db :
  evolves db (updateBlog now u id body db).2.
Proof.
  unfold updateBlog. handler_steps.
  destruct (blogs db !! id) as [b|] eqn:Hb; cbv beta iota zeta;
    [|apply evolves_refl].
  destruct (edit_engagement body b) as (Hl & Hn & Hd).
  handler_cases; evolves_parts; try evolves_write.
  all: eapply blogs_evolve_save; [eassumption|eassumption|..];
    rewrite ?Hl, ?Hn, ?Hd; kept_side.
Qed.

Lemma deleteBlog_evolves now u id db : evolves db (deleteBlog now u id db).2.
Proof.
  unfold deleteBlog. handler_steps. handler_cases; evolves_parts;
    evolves_write.
Qed.

Lemma approveBlog_evolves now id db : evolves db (approveBlog now id db).2.
Proof.
  unfold approveBlog. handler_steps. handler_cases; evolves_parts;
    evolves_write.
Qed.

Lemma rejectBlog_evolves now id reason db :
  evolves db (rejectBlog now id reason db).2.
Proof.
  unfold rejectBlog. handler_steps. handler_cases; evolves_parts;
    evolves_write.
Qed.

Lemma getComments_evolves blogId page limit sort db :
  evolves db (getComments blogId page limit sort db).2.
Proof.
  unfold getComments. handler_steps. handler_cases; apply evolves_refl.
Qed.

Lemma updateComment_evolves u id content db :
  evolves db (updateComment u id content db).2.
Proof.
  unfold updateComment. handler_steps. handler_cases; evolves_parts;
    evolves_write.
Qed.

Lemma deleteComment_evolves u id db : evolves db (deleteComment u id db).2.
Proof.
  unfold deleteComment. handler_steps. handler_cases; evolves_parts;
    evolves_write.
Qed.

Lemma deleteCommentAdmin_evolves id db :
  evolves db (deleteCommentAdmin id db).2.
Proof.
  unfold deleteCommentAdmin. handler_steps. handler_cases; evolves_parts;
    evolves_write.
Qed.

Lemma createComment_evolves now u errors blogId content parent db :
  evolves db (createComment now u errors blogId content parent db).2.
Proof.
  unfold createComment. handler_steps.
  destruct parent as [p|]; handler_cases; evolves_parts; evolves_write.
Qed.

Lemma deleteBlogAdmin_evolves now id db :
  evolves db (deleteBlogAdmin now id db).2.
Proof.
  unfold deleteBlogAdmin. handler_steps. handler_cases; evolves_parts;
    evolves_write.
Qed.

Lemma deleteUser_evolves u id db : evolves db (deleteUser u id db).2.
Proof.
  unfold deleteUser. handler_steps. handler_cases; evolves_parts;
    evolves_write.
Qed.

Lemma isAdmin_evolves req_user next db :
  (forall u, evolves db (next u db).2) ->
  evolves db (isAdmin req_user next db).2.
Proof.
  intros Hnext. unfold isAdmin. destruct req_user as [u|];
    [destruct (bool_decide _)|]; auto using evolves_refl.
Qed.

(** Every request keeps what is stored. *)
Lemma serve_evolves now r db : evolves db (serve now r db).2.
Proof.
  destruct r; cbn [serve]; try apply isAdmin_evolves; intros;
    auto using createBlog_evolves, getBlogBySlug_evolves, updateBlog_evolves,
      deleteBlog_evolves, toggleLike_evolves, createComment_evolves,
      getComments_evolves, updateComment_evolves, deleteComment_evolves,
      toggleCommentLike_evolves, approveBlog_evolves, rejectBlog_evolves,
      deleteBlogAdmin_evolves, deleteUser_evolves, deleteCommentAdmin_evolves.
Qed.

Lemma run_evolves trace db : evolves db (run trace db).
Proof.
  revert db. induction trace as [|[now r] trace IH]; intros db; cbn [run].
  - apply evolves_refl.
  - eapply evolves_trans; [apply serve_evolves|apply IH].
Qed.

(** What the theorems below assume of a stored post holds in every store
    that requests build from the empty one: the post passes the validators,
    and no other post has its slug. *)
Lemma reachable_posts_wellformed accounts trace :
  (forall id b, blogs (run trace (initial_db accounts)) !! id = Some b ->
     BlogSchema.validate b = true)
  ∧ slugs_unique (blogs (run trace (initial_db accounts))).
Proof.
  destruct (run_evolves trace (initial_db accounts)) as ([_ Hb] & _ & Huniq).
  split.
  - intros id b Hin. apply (Hb id b (lookup_empty id) Hin).
  - apply Huniq. intros id id' b b' Hnone. cbn [initial_db blogs] in Hnone.
    rewrite lookup_empty in Hnone. discriminate.
Qed.

(** *** The two like handlers *)

Lemma toggleLike_unpublished now u id db b :
  blogs db !! id = Some b ->
  Blog.status b ≠ published ->
  toggleLike now u id db = (LikeNotPublished, db).
Proof.
  intros Hb Hs. unfold toggleLike. handler_steps.
  rewrite Hb, bool_decide_eq_true_2 by exact Hs. reflexivity.
Qed.

Lemma toggleLike_published now u id db b :
  blogs db !! id = Some b ->
  Blog.status b = published ->
  BlogSchema.validate b = true ->
  toggleLike now u id db
  = (res 200
         (match indexOf (_id u) (Blog.likes b) with
          | None => "Blog liked successfully"
          | Some _ => "Blog unliked successfully"
          end)
         (LikeState (length (toggle (_id u) (Blog.likes b)))
                    (bool_decide (indexOf (_id u) (Blog.likes b) = None))),
     put_blog id (toggled u b) db).
Proof.
  intros Hb Hs Hv. unfold toggleLike. handler_steps.
  rewrite Hb, bool_decide_eq_false_2 by (rewrite Hs; auto).
  rewrite save_kept_title by done.
  assert (Hsaved : BlogSchema.pre_save now (Some b)
                     (Blog.set_likes (toggle (_id u) (Blog.likes b)) b)
                   = toggled u b).
  { unfold BlogSchema.pre_save.
    assert (Hd : BlogSchema.pre_save_derived now (Some b)
                   (Blog.set_likes (toggle (_id u) (Blog.likes b)) b)
                 = Blog.set_likes (toggle (_id u) (Blog.likes b)) b).
    { unfold BlogSchema.pre_save_derived, BlogSchema.isModified. cbn.
      rewrite !bool_decide_eq_false_2 by auto. reflexivity. }
    rewrite Hd. unfold BlogSchema.pre_save_likesCount, BlogSchema.isModified.
    cbn. rewrite bool_decide_eq_true_2; [reflexivity|].
    intros Heq. apply (toggle_length (_id u) (Blog.likes b)).
    rewrite <- Heq. reflexivity. }
  rewrite Hsaved. reflexivity.
Qed.

Lemma toggleCommentLike_effect u cid db c :
  comments db !! cid = Some c ->
  CommentSchema.validate c = true ->
  toggleCommentLike u cid db
  = (res 200
         (match indexOf (_id u) (Comment.likes c) with
          | None => "Comment liked successfully"
          | Some _ => "Comment unliked successfully"
          end)
         (LikeState (length (toggle (_id u) (Comment.likes c)))
                    (bool_decide (indexOf (_id u) (Comment.likes c) = None))),
     put_comment cid (toggled_comment u c) db).
Proof.
  intros Hc Hv. unfold toggleCommentLike. handler_steps. rewrite Hc.
  rewrite comment_save_valid by exact Hv.
  assert (Hsaved : CommentSchema.pre_save (Some c)
                     (Comment.set_likes (toggle (_id u) (Comment.likes c)) c)
                   = toggled_comment u c).
  { unfold CommentSchema.pre_save. cbn.
    rewrite bool_decide_eq_true_2; [reflexivity|].
    intros Heq. apply (toggle_length (_id u) (Comment.likes c)).
    rewrite <- Heq. reflexivity. }
  rewrite Hsaved. reflexivity.
Qed.

(** C1. After any sequence of requests on a store without posts or
    comments (toggles of likes by any principals among them), every post and
    every comment has a [likesCount] equal to the number of distinct ids in
    its [likes]. And in any store, whatever count was cached before, a
    toggle on a published post, or on a comment, stores the toggled array
    with its length as the count: the count is written by the pre-save hooks
    alone, from the array, and no handler adds to it or takes from it. *)
Theorem likesCount_cardinality accounts trace :
  (forall id b, blogs (run trace (initial_db accounts)) !! id = Some b ->
     Blog.likesCount b = size (list_to_set (Blog.likes b) : gset nat))
  ∧ (forall id c, comments (run trace (initial_db accounts)) !! id = Some c ->
     Comment.likesCount c = size (list_to_set (Comment.likes c) : gset nat))
  ∧ (forall now u id db b,
       blogs db !! id = Some b ->
       Blog.status b = published ->
       BlogSchema.validate b = true ->
       ∃ b', blogs (toggleLike now u id db).2 !! id = Some b'
             ∧ Blog.likes b' = toggle (_id u) (Blog.likes b)
             ∧ Blog.likesCount b' = length (Blog.likes b'))
  ∧ (forall u id db c,
       comments db !! id = Some c ->
       CommentSchema.validate c = true ->
       ∃ c', comments (toggleCommentLike u id db).2 !! id = Some c'
             ∧ Comment.likes c' = toggle (_id u) (Comment.likes c)
             ∧ Comment.likesCount c' = length (Comment.likes c')).
Proof.
  destruct (run_evolves trace (initial_db accounts))
    as ([_ Hb] & [_ Hc] & _).
  split; [|split; [|split]].
  - intros id b Hin.
    destruct (Hb id b (lookup_empty id) Hin) as [[Hnd ->] _].
    symmetry. apply size_list_to_set, Hnd.
  - intros id c Hin. destruct (Hc id c (lookup_empty id) Hin) as [Hnd ->].
    symmetry. apply size_list_to_set, Hnd.
  - intros now u id db b Hin Hs Hv. exists (toggled u b).
    rewrite (toggleLike_published _ _ _ _ b) by assumption.
    split; [apply lookup_insert_eq|]. split; reflexivity.
  - intros u id db c Hin Hv. exists (toggled_comment u c).
    rewrite (toggleCommentLike_effect _ _ _ c) by assumption.
    split; [apply lookup_insert_eq|]. split; reflexivity.
Qed.

Lemma likesCount_cardinality_witness :
  ∃ b, blogs (run like_trace (initial_db accounts)) !! 0 = Some b
       ∧ Blog.likes b = [3] ∧ Blog.likesCount b = 1.
Proof.
  destruct (blogs (run like_trace (initial_db accounts)) !! 0) as [b|] eqn:Hb;
    [|vm_compute in Hb; discriminate].
  exists b.
  pose proof (proj1 (likesCount_cardinality accounts like_trace) 0 b Hb)
    as Hcount.
  assert (Hlikes : Blog.likes b = [3]).
  { vm_compute in Hb. injection Hb as <-. reflexivity. }
  rewrite Hcount, Hlikes. split; [reflexivity|]. split; reflexivity.
Defined.

(** ** Comments and likes on a deleted post *)

Lemma handlers_absent now u id db content parent :
  blogs db !! id = None ->
  createComment now u [] id content parent db = (PostNotFound, db)
  ∧ toggleLike now u id db = (PostNotFound, db).
Proof.
  intros Hb. split.
  - unfold createComment. handler_steps.
    rewrite bool_decide_eq_true_2 by reflexivity. cbn [negb].
    rewrite Hb. reflexivity.
  - unfold toggleLike. handler_steps. rewrite Hb. reflexivity.
Qed.

(** C2, as stated, fails: a soft-deleted post that is published takes a new
    comment (201, not PostNotFound) and a new like (200, and [likes] goes
    from empty to bob's id). *)
Lemma deleted_post_accepts_engagement :
  blogs db_deleted_post !! 0 = Some deleted_post
  ∧ Blog.isDeleted deleted_post = true
  ∧ (createComment 30 bob [] 0 "hello" None db_deleted_post).1
    = res 201 "Comment added successfully"
          (CommentDoc 0 (Comment.mk 0 2 "hello" None [] [] 0 false false 30))
  ∧ (createComment 30 bob [] 0 "hello" None db_deleted_post).1 ≠ PostNotFound
  ∧ (toggleLike 31 bob 0 db_deleted_post).1
    = res 200 "Blog liked successfully" (LikeState 1 true)
  ∧ Blog.likes deleted_post = []
  ∧ (Blog.likes <$> blogs (toggleLike 31 bob 0 db_deleted_post).2 !! 0)
    = Some [2].
Proof.
  assert (Hc : (createComment 30 bob [] 0 "hello" None db_deleted_post).1
               = res 201 "Comment added successfully"
                   (CommentDoc 0
                      (Comment.mk 0 2 "hello" None [] [] 0 false false 30))).
  { vm_compute. reflexivity. }
  repeat split; try (vm_compute; reflexivity).
  rewrite Hc. discriminate.
Qed.

(** C2, amended. Neither handler reads [isDeleted]. On a post whose flag is
    set: when the status is not published, [createComment] answers
    PostNotPublished and [toggleLike] its own not-published error, the store
    unchanged; when the status is published, [createComment] (validated
    body, parent absent or existing) stores the comment and counts it, and
    [toggleLike] toggles the principal in [likes]. PostNotFound is the
    answer when no post has the id. *)
Theorem deleted_post_engagement now u id db content parent :
  (forall b,
     blogs db !! id = Some b ->
     Blog.isDeleted b = true ->
     (Blog.status b ≠ published ->
      createComment now u [] id content parent db = (PostNotPublished, db)
      ∧ toggleLike now u id db = (LikeNotPublished, db))
     ∧ (Blog.status b = published ->
        BlogSchema.validate b = true ->
        (1 <= String.length (Js.trim content) <= 1000 ->
         match parent with
         | Some p => is_Some (comments db !! p)
         | None => True
         end ->
         let cid := fresh (dom (comments db)) in
         let c := Comment.mk id (_id u) (Js.trim content) parent
                    [] [] 0 false false now in
         createComment now u [] id content parent db
         = (res 201 "Comment added successfully" (CommentDoc cid c),
            db_with_comment id b cid c db)
         ∧ (Blog.commentsCount
              <$> blogs (db_with_comment id b cid c db) !! id)
           = Some (Blog.commentsCount b + 1)%Z
         ∧ (Blog.isDeleted <$> blogs (db_with_comment id b cid c db) !! id)
           = Some true
         ∧ comments (db_with_comment id b cid c db) !! cid = Some c)
        ∧ (toggleLike now u id db).2 = put_blog id (toggled u b) db
        ∧ code (toggleLike now u id db).1 = 200
        ∧ Blog.likes (toggled u b) = toggle (_id u) (Blog.likes b)
        ∧ Blog.isDeleted (toggled u b) = true))
  ∧ (blogs db !! id = None ->
     createComment now u [] id content parent db = (PostNotFound, db)
     ∧ toggleLike now u id db = (PostNotFound, db)).
Proof.
  split; [|apply handlers_absent].
  intros b Hb Hdel. split.
  - intros Hs. split.
    + apply (createComment_unpublished _ _ _ _ _ _ b); assumption.
    + apply (toggleLike_unpublished _ _ _ _ b); assumption.
  - intros Hs Hv. split; [|split; [|split; [|split]]].
    + intros Hlen Hparent cid c.
      split; [apply createComment_published; assumption|].
      cbn [db_with_comment blogs]. rewrite lookup_insert_eq.
      cbn [fmap option_fmap option_map Blog.set_commentsCount
           Blog.commentsCount Blog.isDeleted].
      rewrite Hdel. split; [reflexivity|]. split; [reflexivity|].
      apply (db_with_comment_thread id b c db Hparent).
    + rewrite (toggleLike_published _ _ _ _ b) by assumption. reflexivity.
    + rewrite (toggleLike_published _ _ _ _ b) by assumption. reflexivity.
    + reflexivity.
    + exact Hdel.
Qed.

Lemma deleted_post_engagement_witness :
  (toggleLike 31 bob 0 db_deleted_post).2
  = put_blog 0 (toggled bob deleted_post) db_deleted_post
  ∧ createComment 30 bob [] 7 "hello" None db_deleted_post
    = (PostNotFound, db_deleted_post).
Proof.
  destruct (deleted_post_engagement 31 bob 0 db_deleted_post "hello" None)
    as [Hstored _].
  destruct (deleted_post_engagement 30 bob 7 db_deleted_post "hello" None)
    as [_ Habsent].
  split.
  - destruct (Hstored deleted_post eq_refl eq_refl) as [_ Hpub].
    destruct (Hpub eq_refl eq_refl) as (_ & Hlike & _). exact Hlike.
  - apply Habsent. reflexivity.
Defined.

(** ** Reading a post by its slug *)

Lemma findOne_unique {A} (m : gmap nat A) (test : nat * A -> bool) id a :
  m !! id = Some a ->
  test (id, a) = true ->
  (forall id' a', m !! id' = Some a' -> test (id', a') = true -> id' = id) ->
  head (List.filter test (map_to_list m)) = Some (id, a).
Proof.
  intros Ha Htest Huniq.
  destruct (head (List.filter test (map_to_list m))) as [[id' a']|] eqn:Hhead.
  - apply findOne_found in Hhead as [Ha' Htest']. cbn [fst snd] in *.
    assert (id' = id) as -> by eauto. congruence.
  - apply head_None in Hhead.
    assert (Hin : (id, a) ∈ List.filter test (map_to_list m)).
    { apply list_elem_of_In, filter_In. split; [|exact Htest].
      apply list_elem_of_In, elem_of_map_to_list, Ha. }
    rewrite Hhead in Hin. apply elem_of_nil in Hin. contradiction.
Qed.

(** The slugs that the hook writes go through the setters unchanged. *)

Lemma slug_unit_fixed c :
  is_slug_or_dash c = true ->
  Js.is_space c = false ∧ Js.toLowerCase_latin1 c = c.
Proof.
  destruct c as [[|] [|] [|] [|] [|] [|] [|] [|]]; vm_compute;
    intros H; try discriminate H; split; reflexivity.
Qed.

Lemma all_units_rev_app P s acc :
  all_units P (String.rev_app s acc) = all_units P s && all_units P acc.
Proof.
  revert acc. induction s as [|c s IH]; intros acc; [reflexivity|].
  cbn [String.rev_app all_units]. rewrite IH. cbn [all_units].
  destruct (P c), (all_units P s), (all_units P acc); reflexivity.
Qed.

Lemma all_units_rev P s : all_units P (String.rev s) = all_units P s.
Proof.
  unfold String.rev. rewrite all_units_rev_app. apply andb_true_r.
Qed.

Lemma all_units_append P s1 s2 :
  all_units P (s1 +:+ s2) = all_units P s1 && all_units P s2.
Proof.
  induction s1 as [|c s1 IH]; [reflexivity|].
  change (P c && all_units P (s1 +:+ s2)
          = P c && all_units P s1 && all_units P s2).
  rewrite IH. apply andb_assoc.
Qed.

Lemma rev_app_rev_app s acc :
  String.rev_app (String.rev_app s acc) EmptyString = String.rev_app acc s.
Proof.
  revert acc. induction s as [|c s IH]; intros acc; [reflexivity|].
  cbn [String.rev_app]. rewrite IH. reflexivity.
Qed.

Lemma rev_rev s : String.rev (String.rev s) = s.
Proof. unfold String.rev. apply rev_app_rev_app. Qed.

Lemma trimStart_fixed s :
  all_units is_slug_or_dash s = true -> Js.trimStart s = s.
Proof.
  destruct s as [|c s]; [reflexivity|]. cbn [all_units Js.trimStart].
  intros [Hc _]%andb_true_iff. apply slug_unit_fixed in Hc as [-> _].
  reflexivity.
Qed.

Lemma trim_fixed s : all_units is_slug_or_dash s = true -> Js.trim s = s.
Proof.
  intros Hs. unfold Js.trim, Js.trimEnd.
  rewrite (trimStart_fixed s Hs), trimStart_fixed
    by (rewrite all_units_rev; exact Hs).
  apply rev_rev.
Qed.

Lemma toLowerCase_fixed s :
  all_units is_slug_or_dash s = true -> Js.toLowerCase s = s.
Proof.
  unfold Js.toLowerCase. induction s as [|c s IH]; [reflexivity|].
  cbn [all_units Js.map_units]. intros [Hc Hs]%andb_true_iff.
  apply slug_unit_fixed in Hc as [_ ->]. rewrite IH by exact Hs.
  reflexivity.
Qed.

Lemma slug_setters_fixed s :
  all_units is_slug_or_dash s = true -> BlogSchema.slug_setters s = s.
Proof.
  intros Hs. unfold BlogSchema.slug_setters.
  rewrite trim_fixed by exact Hs. apply toLowerCase_fixed, Hs.
Qed.

Lemma dash_runs_units in_run s :
  all_units is_slug_or_dash (Js.dash_runs in_run s) = true.
Proof.
  revert in_run. induction s as [|c s IH]; intros in_run; [reflexivity|].
  cbn [Js.dash_runs]. destruct (Js.is_slug_unit c) eqn:Hc.
  - cbn [all_units]. unfold is_slug_or_dash at 1. rewrite Hc. apply IH.
  - destruct in_run; [apply IH|]. cbn [all_units]. apply IH.
Qed.

Lemma strip_dashes_start_units s :
  all_units is_slug_or_dash s = true ->
  all_units is_slug_or_dash (Js.strip_dashes_start s) = true.
Proof.
  induction s as [|c s IH]; [reflexivity|]. intros Hs.
  pose proof Hs as Hcs. cbn [all_units] in Hcs.
  apply andb_true_iff in Hcs as [_ Htail].
  destruct c as [[|] [|] [|] [|] [|] [|] [|] [|]];
    cbn [Js.strip_dashes_start]; auto.
Qed.

Lemma strip_dashes_units s :
  all_units is_slug_or_dash s = true ->
  all_units is_slug_or_dash (Js.strip_dashes s) = true.
Proof.
  intros Hs. unfold Js.strip_dashes. rewrite all_units_rev.
  apply strip_dashes_start_units. rewrite all_units_rev.
  apply strip_dashes_start_units, Hs.
Qed.

Lemma of_nat_units n : all_units is_slug_or_dash (Js.of_nat n) = true.
Proof.
  unfold Js.of_nat. induction (Nat.to_uint n) as [|d IH|d IH|d IH|d IH|d IH
                                                  |d IH|d IH|d IH|d IH|d IH];
    [reflexivity|exact IH..].
Qed.

Lemma slugify_units title now :
  all_units is_slug_or_dash (BlogSchema.slugify title now) = true.
Proof.
  unfold BlogSchema.slugify. rewrite !all_units_append.
  rewrite strip_dashes_units by apply dash_runs_units.
  rewrite of_nat_units. reflexivity.
Qed.

(** Every stored slug was written by the hook: no request brings a slug
    that the setters would change. *)

Lemma slug_kept_refl b : slug_kept b b.
Proof. intros H. exact H. Qed.

Lemma slug_kept_trans a b c : slug_kept a b -> slug_kept b c -> slug_kept a c.
Proof. unfold slug_kept. auto. Qed.

Lemma slug_kept_same b d : Blog.slug d = Blog.slug b -> slug_kept b d.
Proof. unfold slug_kept, canonical. intros ->. auto. Qed.

Lemma slug_kept_save now b d :
  Blog.slug d = Blog.slug b ->
  slug_kept b (BlogSchema.pre_save now (Some b) d).
Proof.
  intros Hd. unfold slug_kept, canonical. rewrite pre_save_slug.
  destruct (BlogSchema.isModified Blog.title (Some b) d).
  - intros _. apply slug_setters_fixed, slugify_units.
  - rewrite Hd. auto.
Qed.

Lemma canonical_create now d : canonical (BlogSchema.pre_save now None d).
Proof.
  unfold canonical. rewrite pre_save_slug. cbn [BlogSchema.isModified].
  apply slug_setters_fixed, slugify_units.
Qed.

Lemma slug_of_edit body b :
  Blog.slug (demote_if_edited body (assign_fields body b)) = Blog.slug b.
Proof.
  unfold demote_if_edited.
  destruct (_ && _);
    destruct body as [[[|? ?]|] [[|? ?]|] [?|] [?|] [[|? ?]|] [?|]];
    reflexivity.
Qed.

Lemma slugs_evolve_refl m : map_evolves slug_kept canonical m m.
Proof. apply map_evolves_refl, slug_kept_refl. Qed.

Lemma slugs_evolve_trans m1 m2 m3 :
  map_evolves slug_kept canonical m1 m2 ->
  map_evolves slug_kept canonical m2 m3 ->
  map_evolves slug_kept canonical m1 m3.
Proof.
  apply map_evolves_trans; eauto using slug_kept_trans.
Qed.

Lemma slugs_evolve_save now m id b d :
  m !! id = Some b -> Blog.slug d = Blog.slug b ->
  map_evolves slug_kept canonical m
    (<[id := BlogSchema.pre_save now (Some b) d]> m).
Proof.
  intros Hb Hd. eapply map_evolves_insert;
    eauto using slug_kept_refl, slug_kept_save.
Qed.

Lemma slugs_evolve_create now m id d :
  m !! id = None ->
  map_evolves slug_kept canonical m
    (<[id := BlogSchema.pre_save now None d]> m).
Proof.
  intros Hnone. eapply map_evolves_insert_new;
    eauto using slug_kept_refl, canonical_create.
Qed.

Lemma slugs_evolve_alter m id f :
  (forall b, Blog.slug (f b) = Blog.slug b) ->
  map_evolves slug_kept canonical m (alter f id m).
Proof.
  intros. apply map_evolves_alter;
    auto using slug_kept_refl, slug_kept_same.
Qed.

Lemma slugs_evolve_fmap m f :
  (forall b, Blog.slug (f b) = Blog.slug b) ->
  map_evolves slug_kept canonical m (f <$> m).
Proof. intros. apply map_evolves_fmap; auto using slug_kept_same. Qed.

Ltac slugs_write :=
  cbn [snd blogs comments users put_blog put_comment with_coll coll
       BlogModel CommentModel UserModel];
  lazymatch goal with
  | |- map_evolves slug_kept _ ?m ?m => apply slugs_evolve_refl
  | |- map_evolves slug_kept _ _ (<[_ := BlogSchema.pre_save _ (Some _) _]> _) =>
      eapply slugs_evolve_save;
        [eassumption|first [apply slug_of_edit|reflexivity]]
  | |- map_evolves slug_kept _ _ (<[_ := BlogSchema.pre_save _ None _]> _) =>
      eapply slugs_evolve_create; apply not_elem_of_dom, is_fresh
  | |- map_evolves slug_kept _ _ (alter _ _ _) =>
      apply slugs_evolve_alter; reflexivity
  | |- map_evolves slug_kept _ _ (_ <$> _) =>
      apply slugs_evolve_fmap; intros;
        match goal with
        | |- context [if ?c then _ else _] => destruct c
        end; reflexivity
  end.

Lemma serve_slugs now r db :
  map_evolves slug_kept canonical (blogs db) (blogs (serve now r db).2).
Proof.
  destruct r as [u errors body|viewer slug|u id body|u id|u id
                |u errors blogId content parent|blogId page limit sort
                |u id content|u id|u id
                |req_user id|req_user id reason|req_user id|req_user id
                |req_user id];
    cbn [serve];
    try (unfold isAdmin; destruct req_user as [v|];
         [destruct (bool_decide (role v ≠ Admin))|];
         try apply slugs_evolve_refl).
  - unfold createBlog. handler_steps. handler_cases; slugs_write.
  - unfold getBlogBySlug. handler_steps.
    destruct (head _) as [[id b]|] eqn:Hfound; cbv beta iota zeta;
      [|apply slugs_evolve_refl].
    apply findOne_found in Hfound as [Hb _]. cbn [fst snd] in *.
    destruct viewer as [v|]; handler_cases; slugs_write.
  - unfold updateBlog. handler_steps. handler_cases; slugs_write.
  - unfold deleteBlog. handler_steps. handler_cases; slugs_write.
  - unfold toggleLike. handler_steps. handler_cases; slugs_write.
  - unfold createComment. handler_steps.
    destruct parent as [p|]; handler_cases; slugs_write.
  - unfold getComments. handler_steps. handler_cases; slugs_write.
  - unfold updateComment. handler_steps. handler_cases; slugs_write.
  - unfold deleteComment. handler_steps. handler_cases; slugs_write.
  - unfold toggleCommentLike. handler_steps. handler_cases; slugs_write.
  - unfold approveBlog. handler_steps. handler_cases; slugs_write.
  - unfold rejectBlog. handler_steps. handler_cases; slugs_write.
  - unfold deleteBlogAdmin. handler_steps. handler_cases; slugs_write.
  - unfold deleteUser. handler_steps. handler_cases; slugs_write.
  - unfold deleteCommentAdmin. handler_steps. handler_cases; slugs_write.
Qed.

Lemma run_slugs trace db :
  map_evolves slug_kept canonical (blogs db) (blogs (run trace db)).
Proof.
  revert db. induction trace as [|[now r] trace IH]; intros db; cbn [run].
  - apply slugs_evolve_refl.
  - eapply slugs_evolve_trans; [apply serve_slugs|apply IH].
Qed.

(** In every store that the requests reach from one without posts, the
    slug of every post is in the form of the setters: a request with the
    slug of a stored post asks for that slug. *)
Lemma reachable_slugs_canonical accounts trace id b :
  blogs (run trace (initial_db accounts)) !! id = Some b ->
  BlogSchema.slug_setters (Blog.slug b) = Blog.slug b.
Proof.
  intros Hb. destruct (run_slugs trace (initial_db accounts)) as [_ Hnew].
  apply (Hnew id b (lookup_empty id) Hb).
Qed.

(** The lookup of a stored live post by a slug that the setters turn into
    its own, when no other live post has that slug. *)
Lemma findOne_by_slug slug id db b :
  blogs db !! id = Some b ->
  BlogSchema.slug_setters slug = Blog.slug b ->
  Blog.isDeleted b = false ->
  (forall id' b', blogs db !! id' = Some b' ->
     Blog.slug b' = Blog.slug b -> Blog.isDeleted b' = false -> id' = id) ->
  head (List.filter
          (fun p : nat * Blog.t =>
             bool_decide (Blog.slug p.2 = BlogSchema.slug_setters slug)
             && negb (Blog.isDeleted p.2))
          (map_to_list (blogs db)))
  = Some (id, b).
Proof.
  intros Hb Hslug Hlive Huniq. apply (findOne_unique (blogs db) _ id b Hb).
  - cbn. rewrite Hlive, bool_decide_eq_true_2 by auto. reflexivity.
  - intros id' b0 Hb0 Htest. cbn in Htest.
    apply andb_true_iff in Htest as [Hs Hlive0].
    apply bool_decide_eq_true_1 in Hs. apply negb_true_iff in Hlive0.
    apply (Huniq id' b0 Hb0); [congruence|exact Hlive0].
Qed.

(** C3, as stated, fails: bob, who is neither the author nor a moderator,
    reads alice's pending post by its slug, and so does an anonymous
    reader. *)
Lemma pending_post_read_by_anyone :
  Blog.status sample_post = pending
  ∧ Blog.isDeleted sample_post = false
  ∧ Blog.author sample_post ≠ _id bob
  ∧ role bob ≠ Admin
  ∧ (getBlogBySlug 40 (Some bob) "harbour-notes-10" db_pending).1
    = res 200 "" (BlogDoc 0 (Blog.set_views 1 sample_post))
  ∧ (getBlogBySlug 40 None "harbour-notes-10" db_pending).1
    = res 200 "" (BlogDoc 0 (Blog.set_views 1 sample_post)).
Proof. repeat split; try discriminate; vm_compute; reflexivity. Qed.

(** C3, amended. [getBlogBySlug] does not read the status nor the viewer's
    role: for every stored post that is not deleted, whatever its status,
    a request whose slug the setters of the slug path turn into the post's
    slug (the slug itself when it is in their form, as every slug that the
    hook writes is, or a variant of it in capitals or with white space
    around) answers 200 with the post, to every viewer. The viewer only
    decides the view count: the post comes back as stored when the viewer
    is its author, and with one more view and nothing else changed, saved,
    otherwise. (The author's account exists, and the slug is that of no
    other live post, as the unique index has it.) *)
Theorem getBlogBySlug_any_status now viewer slug id db b :
  blogs db !! id = Some b ->
  BlogSchema.slug_setters slug = Blog.slug b ->
  Blog.isDeleted b = false ->
  BlogSchema.validate b = true ->
  is_Some (users db !! Blog.author b) ->
  (forall id' b', blogs db !! id' = Some b' ->
     Blog.slug b' = Blog.slug b -> Blog.isDeleted b' = false -> id' = id) ->
  let by_author :=
    match viewer with
    | Some v => bool_decide (_id v = Blog.author b)
    | None => false
    end in
  let b' := if by_author then b else Blog.set_views (Blog.views b + 1) b in
  getBlogBySlug now viewer slug db
  = (res 200 "" (BlogDoc id b'), if by_author then db else put_blog id b' db)
  ∧ Blog.views b' = (if by_author then Blog.views b else Blog.views b + 1)
  ∧ Blog.status b' = Blog.status b
  ∧ Blog.set_views (Blog.views b) b' = b.
Proof.
  intros Hb Hslug Hlive Hv [account Haccount] Huniq by_author b'.
  split; [|subst b' by_author;
           destruct viewer as [v|];
           [destruct (bool_decide (_id v = Blog.author b))|];
           destruct b; repeat split].
  unfold getBlogBySlug. handler_steps.
  rewrite (findOne_by_slug slug id db b Hb Hslug Hlive Huniq).
  cbv beta iota zeta. cbn [fst snd]. rewrite Haccount.
  subst b' by_author. destruct viewer as [v|].
  - destruct (decide (_id v = Blog.author b)) as [Heq|Hne].
    + rewrite (bool_decide_eq_true_2 _ Heq).
      rewrite bool_decide_eq_false_2 by auto. reflexivity.
    + rewrite (bool_decide_eq_false_2 _ Hne).
      rewrite bool_decide_eq_true_2 by exact Hne.
      rewrite save_untouched by done. reflexivity.
  - rewrite save_untouched by done. reflexivity.
Qed.

Lemma getBlogBySlug_any_status_witness :
  (getBlogBySlug 40 (Some bob) " Harbour-NOTES-10" db_pending
   = (res 200 "" (BlogDoc 0 (Blog.set_views 1 sample_post)),
      put_blog 0 (Blog.set_views 1 sample_post) db_pending)
   ∧ Blog.views (Blog.set_views 1 sample_post) = 1
   ∧ Blog.status (Blog.set_views 1 sample_post) = pending
   ∧ Blog.set_views 0 (Blog.set_views 1 sample_post) = sample_post)
  ∧ (getBlogBySlug 40 (Some alice) "harbour-notes-10" db_pending
     = (res 200 "" (BlogDoc 0 sample_post), db_pending)
     ∧ Blog.views sample_post = 0
     ∧ Blog.status sample_post = pending
     ∧ Blog.set_views 0 sample_post = sample_post).
Proof.
  assert (Huniq : forall id' b', blogs db_pending !! id' = Some b' ->
            Blog.slug b' = Blog.slug sample_post ->
            Blog.isDeleted b' = false -> id' = 0).
  { intros id' b' Hb' _ _. cbn in Hb'.
    apply lookup_singleton_Some in Hb'. symmetry. apply Hb'. }
  split.
  - exact (getBlogBySlug_any_status 40 (Some bob) " Harbour-NOTES-10" 0
             db_pending sample_post
             eq_refl eq_refl eq_refl eq_refl (mk_is_Some _ _ eq_refl) Huniq).
  - exact (getBlogBySlug_any_status 40 (Some alice) "harbour-notes-10" 0
             db_pending sample_post
             eq_refl eq_refl eq_refl eq_refl (mk_is_Some _ _ eq_refl) Huniq).
Defined.

(** ** Soft deletion and the cascade *)

(** A deleted comment stays deleted through every later request. *)
Lemma deleted_stays_deleted trace db cid c :
  comments db !! cid = Some c ->
  Comment.isDeleted c = true ->
  ∃ c', comments (run trace db) !! cid = Some c'
        ∧ Comment.isDeleted c' = true.
Proof.
  intros Hc Hd. destruct (run_evolves trace db) as (_ & [Hkept _] & _).
  destruct (Hkept cid c Hc) as (c' & Hc' & [_ Hdel]). eauto.
Qed.

Lemma db_without_post placeholder cid c p db :
  blogs db !! Comment.blog c = Some p ->
  blogs (db_without placeholder cid c db) !! Comment.blog c
  = Some (Blog.set_commentsCount (Blog.commentsCount p - 1)%Z p).
Proof.
  intros Hp. cbn [db_without blogs]. rewrite lookup_alter_eq, Hp.
  reflexivity.
Qed.

(** C7. The author's [deleteComment] on a stored comment answers 200; the
    comment is then stored with [isDeleted] true and the placeholder as its
    content; the [commentsCount] of its post is one less, the other posts
    being as before; the reply lists of all comments, its parent's among
    them, are as before, so its id stays there; and from then on, whatever
    requests follow, no page of [getComments] shows it, neither at top level
    nor among replies. *)
Theorem deleteComment_tombstone u cid db c p :
  comments db !! cid = Some c ->
  Comment.user c = _id u ->
  Comment.isDeleted c = false ->
  blogs db !! Comment.blog c = Some p ->
  let db' := db_without "[deleted]" cid c db in
  deleteComment u cid db
  = (res 200 "Comment deleted successfully" NoPayload, db')
  ∧ comments db' !! cid = Some (tombstone "[deleted]" c)
  ∧ Comment.isDeleted (tombstone "[deleted]" c) = true
  ∧ Comment.content (tombstone "[deleted]" c) = "[deleted]"
  ∧ blogs db' !! Comment.blog c
    = Some (Blog.set_commentsCount (Blog.commentsCount p - 1)%Z p)
  ∧ (forall k, Comment.replies <$> comments db' !! k
               = Comment.replies <$> comments db !! k)
  ∧ (forall trace blogId page limit sort,
       ¬ listed cid (getComments blogId page limit sort (run trace db')).1)
  ∧ (Blog.commentsCount <$> blogs db' !! Comment.blog c)
    = Some (Blog.commentsCount p - 1)%Z
  ∧ (forall k, k ≠ Comment.blog c -> blogs db' !! k = blogs db !! k).
Proof.
  intros Hc Hu _ Hp db'.
  assert (Hstored : comments db' !! cid = Some (tombstone "[deleted]" c)).
  { apply lookup_insert_eq. }
  split; [apply deleteComment_effect; assumption|].
  split; [exact Hstored|]. split; [reflexivity|]. split; [reflexivity|].
  split; [apply db_without_post, Hp|]. split; [|split; [|split]].
  - intros k. cbn [db' db_without comments].
    destruct (decide (cid = k)) as [<-|Hne].
    + rewrite lookup_insert_eq, Hc. reflexivity.
    + rewrite lookup_insert_ne by exact Hne. reflexivity.
  - intros trace blogId page limit sort.
    destruct (deleted_stays_deleted trace db' cid _ Hstored eq_refl)
      as (c' & Hc' & Hd').
    eapply getComments_hides_deleted; eassumption.
  - unfold db'. rewrite (db_without_post _ _ _ _ _ Hp).
    reflexivity.
  - intros k Hk. cbn [db' db_without blogs].
    apply lookup_alter_ne. auto.
Qed.

Lemma deleteComment_tombstone_witness :
  let db' := (deleteComment carol 1 db_thread).2 in
  (Comment.replies <$> comments db' !! 0) = Some [1]
  ∧ (Blog.commentsCount <$> blogs db' !! 0) = Some 1%Z
  ∧ ¬ listed 1 (getComments 0 1 20 newest_first db').1.
Proof.
  destruct (deleteComment_tombstone carol 1 db_thread reply_comment
              post_with_thread eq_refl eq_refl eq_refl eq_refl)
    as (-> & _ & _ & _ & Hpost & Hreplies & Hhidden & _).
  cbn [snd]. split; [|split].
  - rewrite Hreplies. reflexivity.
  - exact (f_equal (fmap Blog.commentsCount) Hpost).
  - apply (Hhidden []).
Defined.

(** C9. [deleteComment] does not read [isDeleted]. On a comment that is
    already deleted, the author's request, and a moderator's on the admin
    route, answer 200 as on a live comment, and the post's [commentsCount]
    goes down by one again while the post's comments that are not deleted
    are the same as before. After [n] such deletions the count is [n] below
    where it was: below the number of live comments, and below zero, as soon
    as [n] is large enough. *)
Theorem deleteComment_not_idempotent now u m cid db c p :
  comments db !! cid = Some c ->
  Comment.isDeleted c = true ->
  blogs db !! Comment.blog c = Some p ->
  (Comment.user c = _id u ->
   deleteComment u cid db
   = (res 200 "Comment deleted successfully" NoPayload,
      db_without "[deleted]" cid c db))
  ∧ (role m = Admin ->
     serve now (DELETE_admin_comments (Some m) cid) db
     = (res 200 "Comment deleted successfully" NoPayload,
        db_without "[deleted by admin]" cid c db))
  ∧ (forall placeholder,
       blogs (db_without placeholder cid c db) !! Comment.blog c
       = Some (Blog.set_commentsCount (Blog.commentsCount p - 1)%Z p)
       ∧ live_comments (Comment.blog c) (db_without placeholder cid c db)
         = live_comments (Comment.blog c) db
       ∧ (Blog.commentsCount
            <$> blogs (db_without placeholder cid c db) !! Comment.blog c)
         = Some (Blog.commentsCount p - 1)%Z)
  ∧ (Comment.user c = _id u ->
     forall n,
       blogs (delete_repeatedly u cid n db) !! Comment.blog c
       = Some (Blog.set_commentsCount
                 (Blog.commentsCount p - Z.of_nat n)%Z p)
       ∧ live_comments (Comment.blog c) (delete_repeatedly u cid n db)
         = live_comments (Comment.blog c) db
       ∧ (Blog.commentsCount
            <$> blogs (delete_repeatedly u cid n db) !! Comment.blog c)
         = Some (Blog.commentsCount p - Z.of_nat n)%Z).
Proof.
  intros Hc Hd Hp. split; [|split; [|split]].
  - intros Hu. apply deleteComment_effect; assumption.
  - intros Hm. cbn [serve isAdmin].
    rewrite bool_decide_eq_false_2 by (rewrite Hm; auto).
    apply deleteCommentAdmin_effect, Hc.
  - intros placeholder. split; [|split].
    + apply db_without_post, Hp.
    + apply live_comments_db_without; assumption.
    + rewrite (db_without_post placeholder _ _ _ _ Hp). reflexivity.
  - intros Hu n.
    destruct (delete_repeatedly_effect u cid c p db n Hc Hd Hu Hp)
      as (_ & Hcount & Hlive).
    split; [exact Hcount|]. split; [exact Hlive|].
    rewrite Hcount. reflexivity.
Qed.

Lemma deleteComment_not_idempotent_witness :
  (deleteComment bob 0 db_tombstone).1
  = res 200 "Comment deleted successfully" NoPayload
  ∧ (Blog.commentsCount <$> blogs (delete_repeatedly bob 0 2 db_tombstone) !! 0)
    = Some (-2)%Z
  ∧ size (live_comments 0 (delete_repeatedly bob 0 2 db_tombstone)) = 0.
Proof.
  destruct (deleteComment_not_idempotent 50 bob moderator 0 db_tombstone
              (tombstone "[deleted]" first_comment)
              (Blog.set_publishedAt (Some 11)
                 (Blog.set_status published sample_post))
              eq_refl eq_refl eq_refl) as (Hauthor & _ & _ & Hrepeat).
  destruct (Hrepeat eq_refl 2) as (_ & Hlive & Hcount).
  split; [|split].
  - rewrite (Hauthor eq_refl). reflexivity.
  - exact Hcount.
  - etrans; [exact (f_equal size Hlive)|]. vm_compute. reflexivity.
Defined.

Lemma deleteBlog_effect now u id db b :
  blogs db !! id = Some b ->
  BlogSchema.validate b = true ->
  Blog.author b = _id u ->
  deleteBlog now u id db
  = (res 200 "Blog deleted successfully" NoPayload,
     put_blog id (Blog.set_isDeleted true b) db).
Proof.
  intros Hb Hv Ha. unfold deleteBlog. handler_steps. rewrite Hb.
  rewrite bool_decide_eq_false_2 by (intros H; apply H; exact Ha).
  rewrite save_untouched by done. reflexivity.
Qed.

Lemma deleteBlogAdmin_effect now id db b :
  blogs db !! id = Some b ->
  BlogSchema.validate b = true ->
  deleteBlogAdmin now id db
  = (res 200 "Blog deleted successfully" NoPayload, db_purged id b db).
Proof.
  intros Hb Hv. unfold deleteBlogAdmin. handler_steps. rewrite Hb.
  rewrite save_untouched by done. reflexivity.
Qed.

(** C8. On a stored post, the author's [deleteBlog] sets the post's
    [isDeleted] and leaves the comment collection as it is, so the flag of
    every comment of the post is unchanged; the moderator's
    [deleteBlogAdmin] sets the post's [isDeleted] and sets [isDeleted] on
    every comment whose [blog] is the post, leaving the other comments as
    they are. *)
Theorem post_deletion_cascade now u m id db b :
  blogs db !! id = Some b ->
  BlogSchema.validate b = true ->
  (Blog.author b = _id u ->
   let db' := put_blog id (Blog.set_isDeleted true b) db in
   deleteBlog now u id db
   = (res 200 "Blog deleted successfully" NoPayload, db')
   ∧ (Blog.isDeleted <$> blogs db' !! id) = Some true
   ∧ comments db' = comments db)
  ∧ (role m = Admin ->
     let db' := db_purged id b db in
     serve now (DELETE_admin_blogs (Some m) id) db
     = (res 200 "Blog deleted successfully" NoPayload, db')
     ∧ (Blog.isDeleted <$> blogs db' !! id) = Some true
     ∧ (forall cid c, comments db !! cid = Some c ->
        Comment.blog c = id ->
        comments db' !! cid = Some (Comment.set_isDeleted true c))
     ∧ (forall cid c, comments db !! cid = Some c ->
        Comment.blog c ≠ id ->
        comments db' !! cid = Some c)
     ∧ (forall cid c, comments db !! cid = Some c ->
        Comment.blog c = id ->
        (Comment.isDeleted <$> comments db' !! cid) = Some true)).
Proof.
  intros Hb Hv. split.
  - intros Ha db'. split; [apply deleteBlog_effect; assumption|].
    split; [|reflexivity].
    cbn [db' put_blog with_coll BlogModel blogs].
    rewrite lookup_insert_eq. reflexivity.
  - intros Hm db'. split; [|split; [|split; [|split]]].
    + cbn [serve isAdmin].
      rewrite bool_decide_eq_false_2 by (rewrite Hm; auto).
      apply deleteBlogAdmin_effect; assumption.
    + cbn [db' db_purged blogs]. rewrite lookup_insert_eq. reflexivity.
    + intros cid c Hc Hblog. cbn [db' db_purged comments].
      rewrite lookup_fmap, Hc. cbn. unfold purge.
      rewrite bool_decide_eq_true_2 by exact Hblog. reflexivity.
    + intros cid c Hc Hblog. cbn [db' db_purged comments].
      rewrite lookup_fmap, Hc. cbn. unfold purge.
      rewrite bool_decide_eq_false_2 by exact Hblog. reflexivity.
    + intros cid c Hc Hblog. cbn [db' db_purged comments].
      rewrite lookup_fmap, Hc. cbn. unfold purge.
      rewrite bool_decide_eq_true_2 by exact Hblog. reflexivity.
Qed.

Lemma post_deletion_cascade_witness :
  (Comment.isDeleted <$> comments (deleteBlog 60 alice 0 db_thread).2 !! 1)
  = Some false
  ∧ (Comment.isDeleted
       <$> comments (serve 60 (DELETE_admin_blogs (Some moderator) 0)
                       db_thread).2 !! 1)
    = Some true.
Proof.
  destruct (post_deletion_cascade 60 alice moderator 0 db_thread
              post_with_thread eq_refl eq_refl) as [Hauthor Hadmin].
  split.
  - destruct (Hauthor eq_refl) as (-> & _ & Hsame).
    cbn [snd]. rewrite Hsame. reflexivity.
  - destruct (Hadmin eq_refl) as (-> & _ & Hset & _).
    cbn [snd]. rewrite (Hset 1 reply_comment eq_refl eq_refl). reflexivity.
Defined.

(** ** The scenarios of the specification, run on the embedding *)

(** Alice creates a post, the moderator approves it, bob likes it, alice
    edits the title: the post is pending again with no publication date, and
    bob's like is still there and still counted. *)
Example scenario_edit_keeps_likes :
  let db := run (firstn 3 like_trace
                 ++ [(20, PUT_blogs_id alice 0 retitle)])
              (initial_db accounts) in
  (fun b => (Blog.status b, Blog.publishedAt b, Blog.likes b,
             Blog.likesCount b, Blog.slug b)) <$> blogs db !! 0
  = Some (pending, None, [2], 1, "harbour-notes-revised-20").
Proof. vm_compute. reflexivity. Qed.

(** Bob comments on the published post, carol replies, bob deletes his
    comment: the counter goes 1, 2, 1, the tombstone keeps carol's reply in
    its list, and the page of comments is empty. *)
Example scenario_thread :
  let db1 := (createComment 13 bob [] 0 " Lovely. " None db_published).2 in
  let db2 := (createComment 14 carol [] 0 "Indeed" (Some 0) db1).2 in
  let db3 := (deleteComment bob 0 db2).2 in
  db1 = db_commented
  ∧ db2 = db_thread
  ∧ (Blog.commentsCount <$> blogs db3 !! 0) = Some 1%Z
  ∧ comments db3 !! 0
    = Some (Comment.mk 0 2 "[deleted]" None [1] [] 0 false true 13)
  ∧ comments db3 !! 1 = Some reply_comment
  ∧ (getComments 0 1 20 newest_first db3).1 = res 200 "" (CommentPage 0 []).
Proof. vm_compute. repeat split; reflexivity. Qed.

(** The derived fields of the first hook on the sample post. *)
Example sample_post_derived :
  (createBlog 10 alice []
     (BlogBody.mk (Some "  Harbour notes ") (Some sample_content) None None
        (Some "Travel") None)
     (initial_db accounts)).1
  = res 201 "Blog created successfully and sent for approval"
        (BlogDoc 0 sample_post).
Proof. vm_compute. reflexivity. Qed.


(** * Further properties *)

(** ** Moderation: rejection *)

(** The test of [updateComment] and [rejectBlog] on a text that is given
    and not blank. *)
Lemma content_given text :
  String.length (Js.trim text) ≠ 0 ->
  negb (Js.truthy (Some text))
  || (String.length (Js.trim (default "" (Some text))) =? 0) = false.
Proof.
  intros Hlen. change (default "" (Some text)) with text.
  destruct text as [|c s]; [cbn in Hlen; congruence|].
  cbn [Js.truthy negb orb]. apply Nat.eqb_neq, Hlen.
Qed.

Lemma content_missing text :
  Js.truthy text = false ∨ String.length (Js.trim (default "" text)) = 0 ->
  negb (Js.truthy text)
  || (String.length (Js.trim (default "" text)) =? 0) = true.
Proof. intros [-> | ->]; [reflexivity|apply orb_true_r]. Qed.

(** X1 -- [rejectBlog] asks for a reason first: without one, or with white space
    only, it answers 400 before it looks the post up, and the store is
    unchanged. With a reason, a stored post of any status becomes rejected,
    with the reason as given and no publication date; nothing else changes.
    An id that names no post gives 404. *)
Theorem rejectBlog_effect now id db :
  (forall reason,
     Js.truthy reason = false
     ∨ String.length (Js.trim (default "" reason)) = 0 ->
     rejectBlog now id reason db
     = (res 400 "Rejection reason is required" NoPayload, db))
  ∧ (forall reason b,
       String.length (Js.trim reason) ≠ 0 ->
       blogs db !! id = Some b ->
       BlogSchema.validate b = true ->
       let b' := Blog.set_publishedAt None
                   (Blog.set_rejectionReason reason
                      (Blog.set_status rejected b)) in
       rejectBlog now id (Some reason) db
       = (res 200 "Blog rejected successfully" (BlogDoc id b'),
          put_blog id b' db)
       ∧ Blog.status b' = rejected
       ∧ Blog.rejectionReason b' = reason
       ∧ Blog.publishedAt b' = None
       ∧ Blog.set_publishedAt (Blog.publishedAt b)
           (Blog.set_rejectionReason (Blog.rejectionReason b)
              (Blog.set_status (Blog.status b) b')) = b)
  ∧ (forall reason,
       String.length (Js.trim reason) ≠ 0 ->
       blogs db !! id = None ->
       rejectBlog now id (Some reason) db = (PostNotFound, db)).
Proof.
  split; [|split].
  - intros reason Hbad. unfold rejectBlog. handler_steps.
    rewrite (content_missing reason Hbad). reflexivity.
  - intros reason b Hlen Hb Hv b'.
    split; [|subst b'; destruct b; repeat split].
    unfold rejectBlog. handler_steps.
    rewrite (content_given reason Hlen), Hb.
    change (default "" (Some reason)) with reason.
    fold b'. rewrite save_untouched by done. reflexivity.
  - intros reason Hlen Hb. unfold rejectBlog. handler_steps.
    rewrite (content_given reason Hlen), Hb. reflexivity.
Qed.

Lemma rejectBlog_effect_witness :
  rejectBlog 30 0 (Some "   ") db_published
  = (res 400 "Rejection reason is required" NoPayload, db_published)
  ∧ (Blog.status <$> blogs (rejectBlog 30 0 (Some "Off topic") db_published).2
                       !! 0) = Some rejected
  ∧ (Blog.rejectionReason
       <$> blogs (rejectBlog 30 0 (Some "Off topic") db_published).2 !! 0)
    = Some "Off topic"
  ∧ (Blog.publishedAt
       <$> blogs (rejectBlog 30 0 (Some "Off topic") db_published).2 !! 0)
    = Some None
  ∧ rejectBlog 30 5 (Some "Off topic") db_published
    = (PostNotFound, db_published).
Proof.
  destruct (rejectBlog_effect 30 0 db_published) as (Hbad & Hgo & _).
  destruct (rejectBlog_effect 30 5 db_published) as (_ & _ & Hnone).
  destruct (Hgo "Off topic" _ ltac:(discriminate) eq_refl eq_refl)
    as (Hrun & Hstatus & Hreason & Hdate & _).
  split; [|split; [|split; [|split]]].
  - apply Hbad. right. reflexivity.
  - rewrite Hrun. cbn [snd put_blog with_coll BlogModel blogs].
    rewrite lookup_insert_eq. cbn [fmap option_fmap option_map].
    rewrite Hstatus. reflexivity.
  - rewrite Hrun. cbn [snd put_blog with_coll BlogModel blogs].
    rewrite lookup_insert_eq. cbn [fmap option_fmap option_map].
    rewrite Hreason. reflexivity.
  - rewrite Hrun. cbn [snd put_blog with_coll BlogModel blogs].
    rewrite lookup_insert_eq. cbn [fmap option_fmap option_map].
    rewrite Hdate. reflexivity.
  - apply Hnone; [discriminate|reflexivity].
Defined.

(** ** Who may write *)

(** X2 -- The author-only routes compare the requester's id with the document's
    author and with nothing else: anyone else, a moderator included, gets
    403 from [updateBlog], [deleteBlog], [updateComment] and [deleteComment],
    and the store is unchanged. *)
Theorem author_only_routes now u db :
  (forall id b body,
     blogs db !! id = Some b -> Blog.author b ≠ _id u ->
     updateBlog now u id body db
     = (res 403 "You are not authorized to update this blog" NoPayload, db)
     ∧ deleteBlog now u id db
       = (res 403 "You are not authorized to delete this blog" NoPayload, db))
  ∧ (forall id c content,
       comments db !! id = Some c -> Comment.user c ≠ _id u ->
       String.length (Js.trim content) ≠ 0 ->
       updateComment u id (Some content) db
       = (res 403 "You are not authorized to update this comment" NoPayload,
          db)
       ∧ deleteComment u id db
         = (res 403 "You are not authorized to delete this comment" NoPayload,
            db)).
Proof.
  split.
  - intros id b body Hb Hne. split.
    + unfold updateBlog. handler_steps.
      rewrite Hb, bool_decide_eq_true_2 by exact Hne. reflexivity.
    + unfold deleteBlog. handler_steps.
      rewrite Hb, bool_decide_eq_true_2 by exact Hne. reflexivity.
  - intros id c content Hc Hne Hlen. split.
    + unfold updateComment. handler_steps.
      rewrite (content_given content Hlen).
      rewrite Hc, bool_decide_eq_true_2 by exact Hne. reflexivity.
    + unfold deleteComment. handler_steps.
      rewrite Hc, bool_decide_eq_true_2 by exact Hne. reflexivity.
Qed.

Lemma author_only_routes_witness :
  deleteBlog 70 moderator 0 db_thread
  = (res 403 "You are not authorized to delete this blog" NoPayload, db_thread)
  ∧ deleteComment moderator 1 db_thread
    = (res 403 "You are not authorized to delete this comment" NoPayload,
       db_thread).
Proof.
  destruct (author_only_routes 70 moderator db_thread) as [Hpost Hcomment].
  split.
  - apply (Hpost 0 post_with_thread retag eq_refl). discriminate.
  - apply (Hcomment 1 reply_comment "x" eq_refl); discriminate.
Defined.

(** X3 -- Every admin route runs [isAdmin] first: without an account the answer
    is 401, with an account that is not an admin's it is 403, and in both
    cases the handler is not run and the store is unchanged. *)
Theorem admin_routes_guarded now req_user id reason db r :
  r ∈ admin_requests req_user id reason ->
  match req_user with
  | Some u => role u ≠ Admin
  | None => True
  end ->
  serve now r db = (admin_refusal req_user, db).
Proof.
  intros Hr Hrole. unfold admin_requests in Hr.
  repeat (apply elem_of_cons in Hr as [-> | Hr]);
    [..|apply elem_of_nil in Hr; contradiction];
    destruct req_user as [u|]; cbn [serve isAdmin admin_refusal];
    try reflexivity;
    rewrite bool_decide_eq_true_2 by exact Hrole; reflexivity.
Qed.

Lemma admin_routes_guarded_witness :
  serve 70 (DELETE_admin_blogs (Some bob) 0) db_thread
  = (res 403 "Access denied. Admin privileges required." NoPayload, db_thread).
Proof.
  apply (admin_routes_guarded 70 (Some bob) 0 None db_thread).
  - unfold admin_requests. set_solver.
  - discriminate.
Defined.

(** ** Editing a comment *)

(** X4 -- [updateComment] refuses a missing or blank content with 400 before any
    lookup, and an unknown id with 404. For the author it stores the
    trimmed content and sets [isEdited]; the thread links, the likes and the
    deletion flag are as before. In particular a deleted comment can still be
    edited: the placeholder is replaced and the comment stays deleted. *)
Theorem updateComment_effect u id db :
  (forall content,
     Js.truthy content = false
     ∨ String.length (Js.trim (default "" content)) = 0 ->
     updateComment u id content db
     = (res 400 "Comment content is required" NoPayload, db))
  ∧ (forall content,
       String.length (Js.trim content) ≠ 0 ->
       comments db !! id = None ->
       updateComment u id (Some content) db
       = (res 404 "Comment not found" NoPayload, db))
  ∧ (forall content c,
       1 <= String.length (Js.trim content) <= 1000 ->
       comments db !! id = Some c ->
       Comment.user c = _id u ->
       let c' := Comment.set_isEdited true
                   (Comment.set_content (Js.trim content) c) in
       updateComment u id (Some content) db
       = (res 200 "Comment updated successfully" (CommentDoc id c'),
          put_comment id c' db)
       ∧ Comment.isDeleted c' = Comment.isDeleted c
       ∧ Comment.replies c' = Comment.replies c
       ∧ Comment.parentComment c' = Comment.parentComment c
       ∧ Comment.likes c' = Comment.likes c
       ∧ Comment.likesCount c' = Comment.likesCount c
       ∧ Comment.isEdited c' = true
       ∧ Comment.content c' = Js.trim content).
Proof.
  split; [|split].
  - intros content Hbad. unfold updateComment. handler_steps.
    rewrite (content_missing content Hbad). reflexivity.
  - intros content Hlen Hc. unfold updateComment. handler_steps.
    rewrite (content_given content Hlen), Hc. reflexivity.
  - intros content c Hlen Hc Hu c'. split; [|repeat split].
    unfold updateComment. handler_steps.
    rewrite (content_given content) by lia. rewrite Hc.
    rewrite bool_decide_eq_false_2 by (intros H; apply H; exact Hu).
    change (default "" (Some content)) with content. fold c'.
    rewrite comment_save_valid.
    + rewrite comment_pre_save_kept by reflexivity. reflexivity.
    + unfold CommentSchema.validate.
      change (Comment.content c') with (Js.trim content).
      apply andb_true_iff. split; apply Nat.leb_le; lia.
Qed.

Lemma updateComment_effect_witness :
  (Comment.content <$> comments (updateComment bob 0 (Some " Back. ")
                                   db_tombstone).2 !! 0) = Some "Back."
  ∧ (Comment.isDeleted <$> comments (updateComment bob 0 (Some " Back. ")
                                       db_tombstone).2 !! 0) = Some true
  ∧ (Comment.isEdited <$> comments db_tombstone !! 0) = Some false
  ∧ (Comment.isEdited <$> comments (updateComment bob 0 (Some " Back. ")
                                      db_tombstone).2 !! 0) = Some true.
Proof.
  destruct (updateComment_effect bob 0 db_tombstone) as (_ & _ & Hedit).
  destruct (Hedit " Back. " (tombstone "[deleted]" first_comment)
              ltac:(vm_compute; lia) eq_refl eq_refl)
    as (-> & _ & _ & _ & _ & _ & Hedited & Hcontent).
  cbn [snd put_comment with_coll CommentModel comments].
  rewrite lookup_insert_eq. cbn [fmap option_fmap option_map].
  rewrite Hedited, Hcontent. repeat split.
Defined.

(** ** Likes as a set *)

Lemma indexOf_elem_of x l : is_Some (indexOf x l) <-> x ∈ l.
Proof.
  split.
  - intros [i Hi]. apply indexOf_Some in Hi.
    eapply list_elem_of_lookup_2, Hi.
  - intros Hin. destruct (indexOf x l) eqn:Hi; [eauto|].
    apply indexOf_None in Hi. contradiction.
Qed.

Lemma elem_of_delete_NoDup (l : list nat) i x v :
  NoDup l -> l !! i = Some x -> v ∈ delete i l <-> v ∈ l ∧ v ≠ x.
Proof.
  intros Hnd Hi.
  rewrite <- (take_drop_middle l i x Hi) in Hnd.
  rewrite <- (take_drop_middle l i x Hi) at 2.
  rewrite delete_take_drop.
  apply NoDup_app in Hnd as (_ & Hdisj & Hnd).
  apply NoDup_cons in Hnd as [Hx _].
  rewrite !elem_of_app, elem_of_cons. split.
  - intros [Hv | Hv]; (split; [auto|]); intros ->.
    + apply (Hdisj x Hv). apply elem_of_cons. auto.
    + contradiction.
  - intros [[Hv | [-> | Hv]] Hne]; auto. contradiction.
Qed.

(** The toggle flips the membership of its id and of no other. *)
Lemma toggle_elem_of u v l :
  NoDup l ->
  v ∈ toggle u l <-> (if decide (v = u) then u ∉ l else v ∈ l).
Proof.
  intros Hnd. unfold toggle. destruct (indexOf u l) as [i|] eqn:Hi.
  - apply indexOf_Some in Hi as Hlook.
    rewrite (elem_of_delete_NoDup l i u v Hnd Hlook).
    destruct (decide (v = u)) as [->|Hne].
    + split; [intros [_ []]; reflexivity|].
      intros Hout. exfalso. apply Hout. eapply list_elem_of_lookup_2, Hlook.
    + tauto.
  - apply indexOf_None in Hi. rewrite elem_of_app, list_elem_of_singleton.
    destruct (decide (v = u)) as [->|Hne]; tauto.
Qed.

Lemma toggle_twice u l : NoDup l -> toggle u (toggle u l) ≡ₚ l.
Proof.
  intros Hnd. apply NoDup_Permutation; [|exact Hnd|].
  - apply toggle_NoDup, toggle_NoDup, Hnd.
  - intros v. rewrite toggle_elem_of by apply toggle_NoDup, Hnd.
    destruct (decide (v = u)) as [->|Hne].
    + rewrite toggle_elem_of by exact Hnd.
      rewrite decide_True by reflexivity.
      destruct (decide (u ∈ l)); tauto.
    + rewrite toggle_elem_of by exact Hnd.
      rewrite decide_False by exact Hne. reflexivity.
Qed.

Lemma toggle_count u l :
  length (toggle u l)
  = if bool_decide (indexOf u l = None) then S (length l) else length l - 1.
Proof.
  unfold toggle. destruct (indexOf u l) as [i|] eqn:Hi.
  - rewrite bool_decide_eq_false_2 by discriminate.
    apply length_delete. apply indexOf_Some in Hi. eauto.
  - rewrite bool_decide_eq_true_2 by reflexivity.
    rewrite length_app. cbn. lia.
Qed.

Lemma put_blog_twice id b b' db :
  put_blog id b' (put_blog id b db) = put_blog id b' db.
Proof.
  unfold put_blog. cbn. rewrite insert_insert_eq. reflexivity.
Qed.

Lemma put_comment_twice id c c' db :
  put_comment id c' (put_comment id c db) = put_comment id c' db.
Proof.
  unfold put_comment. cbn. rewrite insert_insert_eq. reflexivity.
Qed.

Lemma liked_iff u l :
  bool_decide (indexOf u l = None) = bool_decide (u ∉ l).
Proof.
  apply bool_decide_ext. rewrite <- indexOf_elem_of.
  destruct (indexOf u l); split; intros H; try discriminate; auto.
  - exfalso. apply H. eauto.
Qed.

(** X5 -- A like request on a published post flips the caller's own
    membership in the post's likes and nobody else's: the answer tells
    whether the caller likes the post now and how many likes it has, the
    stored counter is that number, one more or one less than before, and
    all other fields of the post stay as they were. *)
Theorem toggleLike_membership now u id db b :
  blogs db !! id = Some b ->
  Blog.status b = published ->
  BlogSchema.validate b = true ->
  likes_ok (Blog.likes b) (Blog.likesCount b) ->
  ∃ message b',
    toggleLike now u id db
    = (res 200 message
         (LikeState (Blog.likesCount b') (bool_decide (_id u ∈ Blog.likes b'))),
       put_blog id b' db)
    ∧ (_id u ∈ Blog.likes b' <-> _id u ∉ Blog.likes b)
    ∧ (forall v, v ≠ _id u -> v ∈ Blog.likes b' <-> v ∈ Blog.likes b)
    ∧ Blog.likesCount b'
      = (if bool_decide (_id u ∈ Blog.likes b) then Blog.likesCount b - 1
         else S (Blog.likesCount b))
    ∧ likes_ok (Blog.likes b') (Blog.likesCount b')
    ∧ b' = Blog.set_likesCount (Blog.likesCount b')
             (Blog.set_likes (Blog.likes b') b).
Proof.
  intros Hb Hs Hv [Hnd Hcount].
  assert (Hown : _id u ∈ toggle (_id u) (Blog.likes b)
                 <-> _id u ∉ Blog.likes b).
  { rewrite toggle_elem_of by exact Hnd.
    rewrite decide_True by reflexivity. reflexivity. }
  eexists _, (toggled u b). split; [|split; [|split; [|split; [|split]]]].
  - rewrite (toggleLike_published now u id db b Hb Hs Hv).
    rewrite liked_iff. do 3 f_equal.
    apply bool_decide_ext. cbn. symmetry. exact Hown.
  - exact Hown.
  - intros v Hne. cbn. rewrite toggle_elem_of by exact Hnd.
    rewrite decide_False by exact Hne. reflexivity.
  - cbn. rewrite toggle_count, liked_iff, Hcount.
    do 2 case_bool_decide; tauto.
  - split; [apply toggle_NoDup, Hnd|reflexivity].
  - reflexivity.
Qed.

Lemma toggleLike_membership_witness :
  ∃ message b',
    toggleLike 12 bob 0 db_published
    = (res 200 message
         (LikeState (Blog.likesCount b') (bool_decide (2 ∈ Blog.likes b'))),
       put_blog 0 b' db_published)
    ∧ (2 ∈ Blog.likes b' <-> 2 ∉ @nil nat)
    ∧ (forall v, v ≠ 2 -> v ∈ Blog.likes b' <-> v ∈ @nil nat)
    ∧ Blog.likesCount b' = 1
    ∧ likes_ok (Blog.likes b') (Blog.likesCount b')
    ∧ b' = Blog.set_likesCount (Blog.likesCount b')
             (Blog.set_likes (Blog.likes b')
                (Blog.set_publishedAt (Some 11)
                   (Blog.set_status published sample_post))).
Proof.
  apply (toggleLike_membership 12 bob 0 db_published _ eq_refl eq_refl eq_refl).
  split; [apply NoDup_nil_2|reflexivity].
Defined.

(** X6 -- Two like requests of the same user on a published post undo
    each other: the post ends with the same likers (in some order), the
    same counter and all other fields as before, and the two answers
    report opposite states. *)
Theorem toggleLike_twice now now' u id db b :
  blogs db !! id = Some b ->
  Blog.status b = published ->
  BlogSchema.validate b = true ->
  likes_ok (Blog.likes b) (Blog.likesCount b) ->
  ∃ m1 m2 n1 liked b'',
    (toggleLike now u id db).1 = res 200 m1 (LikeState n1 liked)
    ∧ toggleLike now' u id (toggleLike now u id db).2
      = (res 200 m2 (LikeState (Blog.likesCount b) (negb liked)),
         put_blog id b'' db)
    ∧ Blog.likes b'' ≡ₚ Blog.likes b
    ∧ b'' = Blog.set_likes (Blog.likes b'') b.
Proof.
  intros Hb Hs Hv [Hnd Hcount].
  rewrite (toggleLike_published now u id db b Hb Hs Hv). cbn [fst snd].
  assert (Hb' : blogs (put_blog id (toggled u b) db) !! id
                = Some (toggled u b)) by apply lookup_insert_eq.
  rewrite (toggleLike_published now' u id _ _ Hb' Hs Hv).
  rewrite put_blog_twice.
  pose proof (toggle_twice (_id u) (Blog.likes b) Hnd) as Hperm.
  eexists _, _, _, _, (toggled u (toggled u b)).
  split; [reflexivity|]. split; [|split].
  - f_equal. f_equal. f_equal.
    + cbn. rewrite Hperm. symmetry. exact Hcount.
    + rewrite !liked_iff. cbn.
      assert (Hown : _id u ∈ toggle (_id u) (Blog.likes b)
                     <-> _id u ∉ Blog.likes b).
      { rewrite toggle_elem_of by exact Hnd.
        rewrite decide_True by reflexivity. reflexivity. }
      do 2 case_bool_decide; cbn; tauto.
  - exact Hperm.
  - apply Permutation_length in Hperm.
    transitivity (Blog.set_likesCount (Blog.likesCount b)
                    (Blog.set_likes (toggle (_id u) (toggle (_id u)
                                                       (Blog.likes b))) b)).
    + rewrite Hcount, <- Hperm. destruct b; reflexivity.
    + destruct b; reflexivity.
Qed.

Lemma toggleLike_twice_witness :
  ∃ m1 m2 n1 liked b'',
    (toggleLike 12 bob 0 db_published).1 = res 200 m1 (LikeState n1 liked)
    ∧ toggleLike 14 bob 0 (toggleLike 12 bob 0 db_published).2
      = (res 200 m2 (LikeState 0 (negb liked)), put_blog 0 b'' db_published)
    ∧ Blog.likes b'' ≡ₚ []
    ∧ b'' = Blog.set_likes (Blog.likes b'')
              (Blog.set_publishedAt (Some 11)
                 (Blog.set_status published sample_post)).
Proof.
  apply (toggleLike_twice 12 14 bob 0 db_published _ eq_refl eq_refl eq_refl).
  split; [apply NoDup_nil_2|reflexivity].
Defined.

(** X7 -- A like request on a stored comment flips the caller's own
    membership in the comment's likes and nobody else's, and keeps the
    counter equal to the number of likers. Neither the comment's deletion
    flag nor the state of its post is looked at: a deleted comment takes
    likes as a live one does, and stays deleted. *)
Theorem toggleCommentLike_membership u cid db c :
  comments db !! cid = Some c ->
  CommentSchema.validate c = true ->
  likes_ok (Comment.likes c) (Comment.likesCount c) ->
  ∃ message c',
    toggleCommentLike u cid db
    = (res 200 message
         (LikeState (Comment.likesCount c')
            (bool_decide (_id u ∈ Comment.likes c'))),
       put_comment cid c' db)
    ∧ (_id u ∈ Comment.likes c' <-> _id u ∉ Comment.likes c)
    ∧ (forall v, v ≠ _id u -> v ∈ Comment.likes c' <-> v ∈ Comment.likes c)
    ∧ Comment.likesCount c'
      = (if bool_decide (_id u ∈ Comment.likes c)
         then Comment.likesCount c - 1 else S (Comment.likesCount c))
    ∧ likes_ok (Comment.likes c') (Comment.likesCount c')
    ∧ c' = Comment.set_likesCount (Comment.likesCount c')
             (Comment.set_likes (Comment.likes c') c).
Proof.
  intros Hc Hv [Hnd Hcount].
  assert (Hown : _id u ∈ toggle (_id u) (Comment.likes c)
                 <-> _id u ∉ Comment.likes c).
  { rewrite toggle_elem_of by exact Hnd.
    rewrite decide_True by reflexivity. reflexivity. }
  eexists _, (toggled_comment u c).
  split; [|split; [|split; [|split; [|split]]]].
  - rewrite (toggleCommentLike_effect u cid db c Hc Hv).
    rewrite liked_iff. do 3 f_equal.
    apply bool_decide_ext. cbn. symmetry. exact Hown.
  - exact Hown.
  - intros v Hne. cbn. rewrite toggle_elem_of by exact Hnd.
    rewrite decide_False by exact Hne. reflexivity.
  - cbn. rewrite toggle_count, liked_iff, Hcount.
    do 2 case_bool_decide; tauto.
  - split; [apply toggle_NoDup, Hnd|reflexivity].
  - reflexivity.
Qed.

Lemma toggleCommentLike_membership_witness :
  ∃ message c',
    toggleCommentLike carol 0 db_tombstone
    = (res 200 message
         (LikeState (Comment.likesCount c')
            (bool_decide (3 ∈ Comment.likes c'))),
       put_comment 0 c' db_tombstone)
    ∧ (3 ∈ Comment.likes c' <-> 3 ∉ @nil nat)
    ∧ (forall v, v ≠ 3 -> v ∈ Comment.likes c' <-> v ∈ @nil nat)
    ∧ Comment.likesCount c' = 1
    ∧ likes_ok (Comment.likes c') (Comment.likesCount c')
    ∧ c' = Comment.set_likesCount (Comment.likesCount c')
             (Comment.set_likes (Comment.likes c')
                (tombstone "[deleted]" first_comment)).
Proof.
  apply (toggleCommentLike_membership carol 0 db_tombstone _ eq_refl eq_refl).
  split; [apply NoDup_nil_2|reflexivity].
Defined.

(** ** Deactivating an account *)

(** X8 -- [deleteUser] refuses the caller's own id with 400 and an
    unknown id with 404, writing nothing. Otherwise it answers 200,
    deactivates the account, whose role stays and beside which no account
    changes, and flags every post and every comment of that
    user as deleted; posts and comments of other users are not written,
    and on no post is the comment counter adjusted, nor is the text of a
    flagged comment replaced. *)
Theorem deleteUser_effect u id db :
  (id = _id u ->
   deleteUser u id db
   = (res 400 "You cannot delete your own account" NoPayload, db))
  ∧ (id ≠ _id u -> users db !! id = None ->
     deleteUser u id db = (res 404 "User not found" NoPayload, db))
  ∧ (forall a, id ≠ _id u -> users db !! id = Some a ->
     deleteUser u id db
     = (res 200 "User deactivated successfully" NoPayload,
        db_without_user id a db)
     ∧ (forall k b, blogs db !! k = Some b ->
          ∃ b', blogs (db_without_user id a db) !! k = Some b'
                ∧ Blog.isDeleted b'
                  = bool_decide (Blog.author b = id) || Blog.isDeleted b
                ∧ b' = Blog.set_isDeleted (Blog.isDeleted b') b)
     ∧ (forall k c, comments db !! k = Some c ->
          ∃ c', comments (db_without_user id a db) !! k = Some c'
                ∧ Comment.isDeleted c'
                  = bool_decide (Comment.user c = id) || Comment.isDeleted c
                ∧ c' = Comment.set_isDeleted (Comment.isDeleted c') c)
     ∧ (∃ a', users (db_without_user id a db) !! id = Some a'
              ∧ User.isActive a' = false
              ∧ User.role a' = User.role a)
     ∧ (forall k, k ≠ id ->
          users (db_without_user id a db) !! k = users db !! k)).
Proof.
  split; [|split].
  - intros ->. unfold deleteUser. handler_steps.
    rewrite bool_decide_eq_true_2 by reflexivity. reflexivity.
  - intros Hne Hnone. unfold deleteUser. handler_steps.
    rewrite bool_decide_eq_false_2 by exact Hne. cbn. rewrite Hnone.
    reflexivity.
  - intros a Hne Ha. split; [|split; [|split; [|split]]];
      [| | |eexists; split; [apply lookup_insert_eq|split; reflexivity]
       |intros k Hk; apply lookup_insert_ne; auto].
    + unfold deleteUser. handler_steps.
      rewrite bool_decide_eq_false_2 by exact Hne. cbn. rewrite Ha.
      reflexivity.
    + intros k b Hb. eexists. split.
      * cbn. rewrite lookup_fmap, Hb. reflexivity.
      * case_bool_decide; destruct b; split; reflexivity.
    + intros k c Hc. eexists. split.
      * cbn. rewrite lookup_fmap, Hc. reflexivity.
      * case_bool_decide; destruct c; split; reflexivity.
Qed.

Lemma deleteUser_effect_witness :
  deleteUser moderator 9 db_thread
  = (res 400 "You cannot delete your own account" NoPayload, db_thread)
  ∧ deleteUser moderator 7 db_thread
    = (res 404 "User not found" NoPayload, db_thread)
  ∧ deleteUser moderator 3 db_thread
    = (res 200 "User deactivated successfully" NoPayload,
       db_without_user 3 (User.mk User true) db_thread)
  ∧ (User.isActive <$> users db_thread !! 3) = Some true
  ∧ (User.isActive <$> users (deleteUser moderator 3 db_thread).2 !! 3)
    = Some false.
Proof.
  destruct (deleteUser_effect moderator 9 db_thread) as (Hself & _ & _).
  destruct (deleteUser_effect moderator 7 db_thread) as (_ & Hnone & _).
  destruct (deleteUser_effect moderator 3 db_thread) as (_ & _ & Hgo).
  destruct (Hgo (User.mk User true) ltac:(discriminate) eq_refl)
    as (Hrun & _ & _ & (a' & Ha' & Hactive & _) & _).
  split; [|split; [|split; [|split]]].
  - apply Hself. reflexivity.
  - apply Hnone; [discriminate|reflexivity].
  - exact Hrun.
  - reflexivity.
  - rewrite Hrun. cbn [snd]. rewrite Ha'. cbn [fmap option_fmap option_map].
    rewrite Hactive. reflexivity.
Defined.

(** ** Pages of comments *)

Section Found.
Context {A : Type} (f : nat -> A -> bool) (m : gmap nat A).

Let found := List.filter (fun p : nat * A => f p.1 p.2) (map_to_list m).

Lemma found_elem_of k a : (k, a) ∈ found <-> m !! k = Some a ∧ f k a = true.
Proof.
  unfold found. rewrite list_elem_of_In, filter_In, <- list_elem_of_In.
  rewrite elem_of_map_to_list. reflexivity.
Qed.

Lemma found_sublist : found `sublist_of` map_to_list m.
Proof.
  unfold found. induction (map_to_list m) as [|p l IH]; cbn.
  - constructor.
  - destruct (f p.1 p.2); constructor; exact IH.
Qed.

Lemma found_NoDup : NoDup found.*1.
Proof.
  apply (sublist_NoDup _ (map_to_list m).*1).
  - apply NoDup_fst_map_to_list.
  - apply fmap_sublist, found_sublist.
Qed.

Lemma found_length :
  length found = size (filter (fun p : nat * A => f p.1 p.2 = true) m).
Proof.
  rewrite <- length_map_to_list. apply Permutation_length.
  apply NoDup_Permutation.
  - eapply NoDup_fmap_1, found_NoDup.
  - apply NoDup_map_to_list.
  - intros [k a]. rewrite found_elem_of, elem_of_map_to_list.
    rewrite map_lookup_filter_Some. reflexivity.
Qed.

End Found.

(** The part of a sorted result that [skip] and [limit] keep. *)
Lemma window_sublist {A} (l : list A) skip limit :
  (if limit =? 0 then drop skip l else take limit (drop skip l))
    `sublist_of` l.
Proof.
  destruct (limit =? 0); [apply sublist_drop|].
  etrans; [apply sublist_take|apply sublist_drop].
Qed.

Lemma getComments_run blogId page limit sort db post :
  blogs db !! blogId = Some post ->
  (page =? 0) && (0 <? limit) = false ->
  getComments blogId page limit sort db
  = (res 200 ""
       (CommentPage
          (size (top_level_comments blogId db))
          ((fun p => thread_of db p.1 p.2)
             <$> (let skipped :=
                    drop ((page - 1) * limit)
                      (sort_by sort
                         (List.filter (fun p => top_level_of blogId p.2)
                            (map_to_list (comments db)))) in
                  if limit =? 0 then skipped else take limit skipped))),
     db).
Proof.
  intros Hpost Hpage. unfold getComments. handler_steps.
  rewrite Hpost, Hpage.
  rewrite (found_length (fun _ c => top_level_of blogId c) (comments db)).
  reflexivity.
Qed.

(** X9 -- For a stored post and a page the database accepts,
    [getComments] answers 200 and writes nothing. Its total is the number
    of live top-level comments of the post, whatever the page. The page
    holds no more entries than the limit (when there is one) and no
    comment twice; every entry is a stored, live, top-level comment of
    that post under its own id, with its live replies. Neither the status
    nor the deletion flag of the post is looked at. *)
Theorem getComments_page blogId page limit sort db post :
  blogs db !! blogId = Some post ->
  page ≠ 0 ∨ limit = 0 ->
  ∃ threads,
    getComments blogId page limit sort db
    = (res 200 "" (CommentPage (size (top_level_comments blogId db)) threads),
       db)
    ∧ (limit ≠ 0 -> length threads <= limit)
    ∧ length threads <= size (top_level_comments blogId db)
    ∧ NoDup (thread_id <$> threads)
    ∧ (forall t, t ∈ threads ->
         top_level_comments blogId db !! thread_id t
         = Some (thread_comment t)
         ∧ t = thread_of db (thread_id t) (thread_comment t)).
Proof.
  intros Hpost Hpage.
  assert (Hok : (page =? 0) && (0 <? limit) = false).
  { destruct Hpage as [Hp | ->].
    - apply Nat.eqb_neq in Hp. rewrite Hp. reflexivity.
    - apply andb_false_r. }
  rewrite (getComments_run blogId page limit sort db post Hpost Hok).
  set (found := List.filter (fun p => top_level_of blogId p.2)
                            (map_to_list (comments db))).
  set (docs := let skipped := drop ((page - 1) * limit) (sort_by sort found) in
               if limit =? 0 then skipped else take limit skipped).
  assert (Hsub : docs `sublist_of` sort_by sort found)
    by apply window_sublist.
  assert (Hperm : sort_by sort found ≡ₚ found)
    by apply merge_sort_Permutation.
  eexists. split; [reflexivity|]. split; [|split; [|split]].
  - intros Hlimit. rewrite length_fmap. unfold docs. cbn zeta.
    apply Nat.eqb_neq in Hlimit. rewrite Hlimit, length_take. lia.
  - rewrite length_fmap. unfold top_level_comments.
    rewrite <- (found_length (fun _ c => top_level_of blogId c) (comments db)).
    fold found. rewrite <- (Permutation_length Hperm).
    apply sublist_length, Hsub.
  - rewrite <- list_fmap_compose.
    change (NoDup docs.*1).
    eapply sublist_NoDup; [|apply fmap_sublist, Hsub].
    rewrite Hperm.
    apply (found_NoDup (fun _ c => top_level_of blogId c) (comments db)).
  - intros t ([cid c] & -> & Hin)%list_elem_of_fmap.
    split; [|reflexivity]. cbn.
    apply (sublist_subseteq _ _ Hsub) in Hin. rewrite Hperm in Hin.
    apply (found_elem_of (fun _ c => top_level_of blogId c)) in Hin.
    apply map_lookup_filter_Some. exact Hin.
Qed.

Lemma getComments_page_witness :
  ∃ threads,
    getComments 0 1 20 newest_first db_thread
    = (res 200 "" (CommentPage (size (top_level_comments 0 db_thread)) threads),
       db_thread)
    ∧ (20 ≠ 0 -> length threads <= 20)
    ∧ length threads <= size (top_level_comments 0 db_thread)
    ∧ NoDup (thread_id <$> threads)
    ∧ (forall t, t ∈ threads ->
         top_level_comments 0 db_thread !! thread_id t
         = Some (thread_comment t)
         ∧ t = thread_of db_thread (thread_id t) (thread_comment t)).
Proof.
  apply (getComments_page 0 1 20 newest_first db_thread _ eq_refl).
  left. discriminate.
Defined.

Lemma StronglySorted_sublist {A} (R : relation A) l1 l2 :
  l1 `sublist_of` l2 -> StronglySorted R l2 -> StronglySorted R l1.
Proof.
  induction 1 as [|x l1 l2 Hsub IH|x l1 l2 Hsub IH]; intros Hs.
  - constructor.
  - apply StronglySorted_inv in Hs as [Hs Hall]. constructor; [auto|].
    rewrite Forall_forall in *. intros y Hy. apply Hall.
    apply (sublist_subseteq _ _ Hsub), Hy.
  - apply StronglySorted_inv in Hs as [Hs _]. auto.
Qed.

(** X10 -- Under a sort that compares any two comments and is
    transitive, the entries of a page of [getComments] are in the order of
    the sort: every entry comes before all the entries after it. *)
Theorem getComments_sorted blogId page limit sort db :
  (forall c1 c2, sort c1 c2 = true ∨ sort c2 c1 = true) ->
  (forall c1 c2 c3, sort c1 c2 = true -> sort c2 c3 = true ->
                    sort c1 c3 = true) ->
  match payload (getComments blogId page limit sort db).1 with
  | CommentPage _ threads => StronglySorted (thread_before sort) threads
  | _ => True
  end.
Proof.
  intros Htotal Htrans. unfold getComments. handler_steps.
  destruct (blogs db !! blogId) as [post|]; [|exact I].
  destruct ((page =? 0) && (0 <? limit)); [exact I|].
  cbn [fst payload].
  apply (StronglySorted_fmap _ (fun p q => Is_true (sort p.2 q.2))).
  { intros p q Hpq. apply Is_true_true. exact Hpq. }
  eapply StronglySorted_sublist; [apply window_sublist|].
  unfold sort_by. apply StronglySorted_merge_sort.
  - intros p q r Hpq Hqr. apply Is_true_true.
    apply Is_true_true in Hpq, Hqr. eauto.
  - intros p q. rewrite !Is_true_true. apply Htotal.
Qed.

Lemma newest_first_total c1 c2 :
  newest_first c1 c2 = true ∨ newest_first c2 c1 = true.
Proof. unfold newest_first. rewrite !Nat.leb_le. lia. Qed.

Lemma newest_first_trans c1 c2 c3 :
  newest_first c1 c2 = true -> newest_first c2 c3 = true ->
  newest_first c1 c3 = true.
Proof. unfold newest_first. rewrite !Nat.leb_le. lia. Qed.

Lemma getComments_sorted_witness :
  match payload (getComments 0 1 20 newest_first db_thread).1 with
  | CommentPage _ threads => StronglySorted (thread_before newest_first) threads
  | _ => True
  end.
Proof.
  apply (getComments_sorted 0 1 20 newest_first db_thread).
  - exact newest_first_total.
  - exact newest_first_trans.
Defined.



(** ** Creating a post and reading it back *)

(** What a 201 of [createBlog] tells. *)
Lemma createBlog_created now u errors body db m id b db' :
  createBlog now u errors body db = (res 201 m (BlogDoc id b), db') ->
  errors = []
  ∧ blogs db !! id = None
  ∧ b = BlogSchema.pre_save now None (new_blog now u body)
  ∧ BlogSchema.validate b = true
  ∧ BlogSchema.slug_taken db id (Blog.slug b) = false
  ∧ db' = put_blog id b db.
Proof.
  unfold createBlog. handler_steps.
  destruct (decide (errors = [])) as [->|Hne].
  - rewrite bool_decide_eq_true_2 by reflexivity. cbn [negb].
    destruct (blog_save_cases now (fresh (dom (blogs db))) None
                (new_blog now u body) db) as [-> | [Hok ->]];
      [discriminate|].
    intros [= <- <- <- <-].
    apply save_accepts_inv in Hok as [Hv Hfree].
    split; [reflexivity|]. split; [apply not_elem_of_dom, is_fresh|].
    split; [reflexivity|]. split; [apply pre_save_valid, Hv|].
    split; [apply Hfree; reflexivity|reflexivity].
  - rewrite bool_decide_eq_false_2 by exact Hne. discriminate.
Qed.

(** The read of a stored live post by its slug, which no other post has. *)
Lemma getBlogBySlug_live now viewer id db b :
  blogs db !! id = Some b ->
  canonical b ->
  Blog.isDeleted b = false ->
  BlogSchema.validate b = true ->
  (forall id' b', blogs db !! id' = Some b' ->
     Blog.slug b' = Blog.slug b -> Blog.isDeleted b' = false -> id' = id) ->
  getBlogBySlug now viewer (Blog.slug b) db
  = match viewer, users db !! Blog.author b with
    | Some v, None => (res 500 "Server error while fetching blog" NoPayload, db)
    | Some v, Some _ =>
        if bool_decide (_id v = Blog.author b)
        then (res 200 "" (BlogDoc id b), db)
        else (res 200 "" (BlogDoc id (Blog.set_views (Blog.views b + 1) b)),
              put_blog id (Blog.set_views (Blog.views b + 1) b) db)
    | None, _ =>
        (res 200 "" (BlogDoc id (Blog.set_views (Blog.views b + 1) b)),
         put_blog id (Blog.set_views (Blog.views b + 1) b) db)
    end.
Proof.
  intros Hb Hslug Hlive Hv Huniq.
  unfold getBlogBySlug. handler_steps.
  rewrite (findOne_by_slug (Blog.slug b) id db b Hb Hslug Hlive Huniq).
  cbv beta iota zeta. cbn [fst snd].
  destruct viewer as [v|], (users db !! Blog.author b) as [account|];
    try reflexivity.
  - destruct (decide (_id v = Blog.author b)) as [Heq|Hne].
    + rewrite (bool_decide_eq_true_2 _ Heq).
      rewrite bool_decide_eq_false_2 by auto. reflexivity.
    + rewrite (bool_decide_eq_false_2 _ Hne).
      rewrite bool_decide_eq_true_2 by exact Hne.
      rewrite save_untouched by done. reflexivity.
  - rewrite save_untouched by done. reflexivity.
  - rewrite save_untouched by done. reflexivity.
Qed.

(** X12 -- A post that [createBlog] answers with 201 can be read back
    at once under the slug of the answer, although it is pending: an
    anonymous read returns that very document with one view, saved, and
    the author's own read returns it as created and writes nothing. The
    new post belongs to the caller, is pending and has no views, and its
    slug is in the form that the setters of the slug path leave alone. *)
Theorem createBlog_read_back now now' u errors body db m id b db' :
  createBlog now u errors body db = (res 201 m (BlogDoc id b), db') ->
  is_Some (users db !! _id u) ->
  Blog.author b = _id u
  ∧ Blog.status b = pending
  ∧ Blog.views b = 0
  ∧ getBlogBySlug now' None (Blog.slug b) db'
    = (res 200 "" (BlogDoc id (Blog.set_views 1 b)),
       put_blog id (Blog.set_views 1 b) db)
  ∧ getBlogBySlug now' (Some u) (Blog.slug b) db'
    = (res 200 "" (BlogDoc id b), db')
  ∧ Blog.views (Blog.set_views 1 b) = 1
  ∧ BlogSchema.slug_setters (Blog.slug b) = Blog.slug b.
Proof.
  intros Hcreated [account Haccount].
  apply createBlog_created in Hcreated
    as (_ & Hnew & Hb & Hv & Hfree & ->).
  pose proof (pre_save_unhooked now None (new_blog now u body)) as Hsame.
  rewrite <- Hb in Hsame.
  assert (Hauthor : Blog.author b = _id u) by apply (same_author _ _ Hsame).
  assert (Hviews : Blog.views b = 0) by apply (same_views _ _ Hsame).
  assert (Hlive : Blog.isDeleted b = false)
    by apply (same_isDeleted _ _ Hsame).
  assert (Hstored : blogs (put_blog id b db) !! id = Some b)
    by apply lookup_insert_eq.
  assert (Huniq : forall id' b', blogs (put_blog id b db) !! id' = Some b' ->
            Blog.slug b' = Blog.slug b -> Blog.isDeleted b' = false ->
            id' = id).
  { intros id' b' Hb' Hslug _. destruct (decide (id' = id)) as [|Hne]; [done|].
    cbn in Hb'. rewrite lookup_insert_ne in Hb' by auto.
    destruct (slug_taken_false db id _ id' b' Hfree Hb' Hne Hslug). }
  assert (Hcanon : canonical b).
  { unfold canonical. rewrite Hb, pre_save_slug. cbn [BlogSchema.isModified].
    apply slug_setters_fixed, slugify_units. }
  split; [exact Hauthor|]. split; [apply (same_status _ _ Hsame)|].
  split; [exact Hviews|]. split; [|split; [|split; [reflexivity|exact Hcanon]]].
  - rewrite (getBlogBySlug_live now' None id _ b Hstored Hcanon Hlive Hv Huniq).
    rewrite Hviews, put_blog_twice. reflexivity.
  - rewrite (getBlogBySlug_live now' (Some u) id _ b
               Hstored Hcanon Hlive Hv Huniq).
    rewrite Hauthor. cbn [users put_blog with_coll BlogModel].
    rewrite Haccount, bool_decide_eq_true_2 by reflexivity. reflexivity.
Qed.

Lemma createBlog_read_back_witness :
  getBlogBySlug 40 None "harbour-notes-10" db_pending
  = (res 200 "" (BlogDoc 0 (Blog.set_views 1 sample_post)),
     put_blog 0 (Blog.set_views 1 sample_post) (initial_db accounts))
  ∧ getBlogBySlug 40 (Some alice) "harbour-notes-10" db_pending
    = (res 200 "" (BlogDoc 0 sample_post), db_pending)
  ∧ Blog.views (Blog.set_views 1 sample_post) = 1
  ∧ BlogSchema.slug_setters "harbour-notes-10" = "harbour-notes-10".
Proof.
  refine (proj2 (proj2 (proj2
    (createBlog_read_back 10 40 alice []
       (BlogBody.mk (Some "Harbour notes") (Some sample_content)
          None None (Some "Travel") None)
       (initial_db accounts)
       "Blog created successfully and sent for approval"
       0 sample_post db_pending _ _)))).
  - vm_compute. reflexivity.
  - eexists. reflexivity.
Defined.

(** ** The frame of the requests *)

Lemma blog_frame_refl b : blog_frame b b.
Proof. split; auto. Qed.

Lemma blog_frame_trans a b c :
  blog_frame a b -> blog_frame b c -> blog_frame a c.
Proof.
  intros [Ha Hc Hv Hl] [Ha' Hc' Hv' Hl'].
  split; [congruence|congruence|lia|auto].
Qed.

Lemma blog_frame_ok a b : blog_frame a b -> lifecycle_ok a -> lifecycle_ok b.
Proof. intros [_ _ _ Hl]. exact Hl. Qed.

Lemma comment_frame_refl c : comment_frame c c.
Proof. split; auto. Qed.

Lemma comment_frame_trans a b c :
  comment_frame a b -> comment_frame b c -> comment_frame a c.
Proof.
  intros [Hb Hu Hp Hc Hr] [Hb' Hu' Hp' Hc' Hr'].
  split; [congruence..|]. etrans; eassumption.
Qed.

Lemma history_refl db : history db db.
Proof.
  split; apply map_evolves_refl; auto using blog_frame_refl, comment_frame_refl.
Qed.

Lemma history_trans db1 db2 db3 :
  history db1 db2 -> history db2 db3 -> history db1 db3.
Proof.
  intros [Hb Hc] [Hb' Hc']. split.
  - eapply map_evolves_trans; eauto using blog_frame_trans, blog_frame_ok.
  - eapply map_evolves_trans; eauto using comment_frame_trans.
Qed.

(** The hooks write none of the framed fields. *)
Lemma blog_frame_save now loaded b d :
  blog_frame b d -> blog_frame b (BlogSchema.pre_save now loaded d).
Proof.
  intros [Ha Hc Hv Hl].
  destruct (pre_save_unhooked now loaded d)
    as [_ _ _ Ha' _ _ Hs' Hp' Hv' _ _ _ Hr' Hc'].
  split; [congruence|congruence|lia|].
  unfold lifecycle_ok in *. rewrite Hs', Hp', Hr'. exact Hl.
Qed.

Lemma lifecycle_ok_save now loaded d :
  lifecycle_ok d -> lifecycle_ok (BlogSchema.pre_save now loaded d).
Proof.
  intros Hl. apply (blog_frame_save now loaded d d); [|exact Hl].
  apply blog_frame_refl.
Qed.

Lemma comment_frame_save loaded c d :
  comment_frame c d -> comment_frame c (CommentSchema.pre_save loaded d).
Proof.
  unfold CommentSchema.pre_save.
  destruct (match loaded with None => _ | Some _ => _ end); [|auto].
  intros [Hb Hu Hp Hc Hr]. split; assumption.
Qed.

(** The edits of [updateBlog]. *)
Lemma blog_frame_edit body b :
  blog_frame b (demote_if_edited body (assign_fields body b)).
Proof.
  assert (Hassign : forall body b,
    Blog.author (assign_fields body b) = Blog.author b
    ∧ Blog.createdAt (assign_fields body b) = Blog.createdAt b
    ∧ Blog.views (assign_fields body b) = Blog.views b
    ∧ Blog.status (assign_fields body b) = Blog.status b
    ∧ Blog.publishedAt (assign_fields body b) = Blog.publishedAt b
    ∧ Blog.rejectionReason (assign_fields body b) = Blog.rejectionReason b).
  { clear. intros body b.
    destruct body as [[[|? ?]|] [[|? ?]|] [?|] [?|] [[|? ?]|] [?|]];
      repeat split; reflexivity. }
  destruct (Hassign body b) as (Ha & Hc & Hv & Hs & Hp & Hr).
  unfold demote_if_edited.
  destruct (bool_decide (Blog.status (assign_fields body b) = published)
            && _) eqn:Hdemote.
  - apply andb_true_iff in Hdemote as [Hpub%bool_decide_eq_true_1 _].
    split; cbn; [congruence|congruence|lia|].
    unfold lifecycle_ok. cbn. rewrite Hr. rewrite Hs in Hpub.
    intros [_ Hrej]. split; [split; [discriminate|congruence]|].
    rewrite <- Hrej, Hpub. split; discriminate.
  - split; [congruence|congruence|lia|].
    unfold lifecycle_ok. rewrite Hs, Hp, Hr. auto.
Qed.

Lemma reason_given reason :
  negb (Js.truthy reason)
  || (String.length (Js.trim (default "" reason)) =? 0) = false ->
  default "" reason ≠ "".
Proof.
  intros Hcheck Hempty. rewrite Hempty in Hcheck.
  rewrite orb_true_r in Hcheck. discriminate.
Qed.

(** The framed fields of the documents handed to a save or an update. *)
Ltac frame_doc :=
  first
    [ apply blog_frame_edit
    | split; cbn; try reflexivity; try lia;
      first
        [ done
        | apply prefix_app_r; reflexivity
        | unfold lifecycle_ok; cbn;
          repeat match goal with
                 | H : _ || _ = false |- _ => apply reason_given in H
                 end;
          intros [[? ?] [? ?]];
          repeat split; intros; try discriminate; try congruence; auto ] ].

Ltac frame_parts :=
  cbn [snd]; split;
  cbn [blogs comments users put_blog put_comment with_coll coll
       BlogModel CommentModel UserModel];
  try (apply map_evolves_refl;
       auto using blog_frame_refl, comment_frame_refl).

Lemma posts_history_save now m id b d :
  m !! id = Some b -> blog_frame b d ->
  map_evolves blog_frame lifecycle_ok m
    (<[id := BlogSchema.pre_save now (Some b) d]> m).
Proof.
  intros Hb Hd. eapply map_evolves_insert;
    eauto using blog_frame_refl, blog_frame_save.
Qed.

Lemma posts_history_create now m id d :
  m !! id = None -> lifecycle_ok d ->
  map_evolves blog_frame lifecycle_ok m
    (<[id := BlogSchema.pre_save now None d]> m).
Proof.
  intros Hnone Hd. eapply map_evolves_insert_new;
    eauto using blog_frame_refl, lifecycle_ok_save.
Qed.

Lemma posts_history_alter m id f :
  (forall b, blog_frame b (f b)) ->
  map_evolves blog_frame lifecycle_ok m (alter f id m).
Proof. intros. apply map_evolves_alter; auto using blog_frame_refl. Qed.

Lemma comments_history_save m id loaded c d :
  m !! id = Some c -> comment_frame c d ->
  map_evolves comment_frame (fun _ => True) m
    (<[id := CommentSchema.pre_save loaded d]> m).
Proof.
  intros Hc Hd. eapply map_evolves_insert;
    eauto using comment_frame_refl, comment_frame_save.
Qed.

Lemma comments_history_create m id d :
  m !! id = None ->
  map_evolves comment_frame (fun _ : Comment.t => True) m (<[id := d]> m).
Proof.
  intros Hnone. eapply map_evolves_insert_new;
    eauto using comment_frame_refl.
Qed.

Lemma comments_history_alter m id f :
  (forall c, comment_frame c (f c)) ->
  map_evolves comment_frame (fun _ => True) m (alter f id m).
Proof. intros. apply map_evolves_alter; auto using comment_frame_refl. Qed.

Lemma comments_history_trans m1 m2 m3 :
  map_evolves comment_frame (fun _ => True) m1 m2 ->
  map_evolves comment_frame (fun _ => True) m2 m3 ->
  map_evolves comment_frame (fun _ => True) m1 m3.
Proof. apply map_evolves_trans; eauto using comment_frame_trans. Qed.

Ltac frame_write :=
  lazymatch goal with
  | |- map_evolves blog_frame _ _ (<[_ := BlogSchema.pre_save _ (Some _) _]> _) =>
      eapply posts_history_save; [eassumption|frame_doc]
  | |- map_evolves blog_frame _ _ (<[_ := BlogSchema.pre_save _ None _]> _) =>
      eapply posts_history_create;
        [apply not_elem_of_dom, is_fresh
        |split; cbn; split; intros; congruence]
  | |- map_evolves comment_frame _ _
         (<[_ := CommentSchema.pre_save (Some _) _]> _) =>
      eapply comments_history_save; [eassumption|frame_doc]
  | |- map_evolves comment_frame _ _
         (<[_ := CommentSchema.pre_save None _]> _) =>
      apply comments_history_create; apply not_elem_of_dom, is_fresh
  | |- map_evolves comment_frame _ _ (alter _ _ (<[_ := _]> _)) =>
      eapply comments_history_trans;
        [apply comments_history_create; apply not_elem_of_dom, is_fresh
        |apply comments_history_alter; intros; frame_doc]
  | |- map_evolves blog_frame _ _ (alter _ _ _) =>
      apply posts_history_alter; intros; frame_doc
  | |- map_evolves _ _ _ (_ <$> _) =>
      apply map_evolves_fmap; intros;
        match goal with
        | |- context [if ?c then _ else _] => destruct c
        end; frame_doc
  end.

Ltac handler_history h :=
  unfold h; handler_steps; handler_cases; frame_parts; frame_write.

Lemma createBlog_history now u errors body db :
  history db (createBlog now u errors body db).2.
Proof. handler_history createBlog. Qed.

Lemma getBlogBySlug_history now viewer slug db :
  history db (getBlogBySlug now viewer slug db).2.
Proof.
  unfold getBlogBySlug. handler_steps.
  destruct (head _) as [[id b]|] eqn:Hfound; cbv beta iota zeta;
    [|apply history_refl].
  apply findOne_found in Hfound as [Hb _]. cbn [fst snd] in *.
  destruct viewer as [v|]; handler_cases; frame_parts; frame_write.
Qed.

Lemma updateBlog_history now u id body db :
  history db (updateBlog now u id body db).2.
Proof. handler_history updateBlog. Qed.

Lemma deleteBlog_history now u id db :
  history db (deleteBlog now u id db).2.
Proof. handler_history deleteBlog. Qed.

Lemma toggleLike_history now u id db :
  history db (toggleLike now u id db).2.
Proof. handler_history toggleLike. Qed.

Lemma createComment_history now u errors blogId content parent db :
  history db (createComment now u errors blogId content parent db).2.
Proof.
  unfold createComment. handler_steps.
  destruct parent as [p|]; handler_cases; frame_parts; frame_write.
Qed.

Lemma getComments_history blogId page limit sort db :
  history db (getComments blogId page limit sort db).2.
Proof. handler_history getComments. Qed.

Lemma updateComment_history u id content db :
  history db (updateComment u id content db).2.
Proof. handler_history updateComment. Qed.

Lemma deleteComment_history u id db :
  history db (deleteComment u id db).2.
Proof. handler_history deleteComment. Qed.

Lemma toggleCommentLike_history u id db :
  history db (toggleCommentLike u id db).2.
Proof. handler_history toggleCommentLike. Qed.

Lemma approveBlog_history now id db : history db (approveBlog now id db).2.
Proof. handler_history approveBlog. Qed.

Lemma rejectBlog_history now id reason db :
  history db (rejectBlog now id reason db).2.
Proof. handler_history rejectBlog. Qed.

Lemma deleteBlogAdmin_history now id db :
  history db (deleteBlogAdmin now id db).2.
Proof. handler_history deleteBlogAdmin. Qed.

Lemma deleteUser_history u id db : history db (deleteUser u id db).2.
Proof. handler_history deleteUser. Qed.

Lemma deleteCommentAdmin_history id db :
  history db (deleteCommentAdmin id db).2.
Proof. handler_history deleteCommentAdmin. Qed.

Lemma isAdmin_history req_user next db :
  (forall u, history db (next u db).2) ->
  history db (isAdmin req_user next db).2.
Proof.
  intros Hnext. unfold isAdmin. destruct req_user as [u|];
    [destruct (bool_decide _)|]; auto using history_refl.
Qed.

Lemma serve_history now r db : history db (serve now r db).2.
Proof.
  destruct r; cbn [serve]; try apply isAdmin_history; intros;
    auto using createBlog_history, getBlogBySlug_history, updateBlog_history,
      deleteBlog_history, toggleLike_history, createComment_history,
      getComments_history, updateComment_history, deleteComment_history,
      toggleCommentLike_history, approveBlog_history, rejectBlog_history,
      deleteBlogAdmin_history, deleteUser_history, deleteCommentAdmin_history.
Qed.

Lemma run_history trace db : history db (run trace db).
Proof.
  revert db. induction trace as [|[now r] trace IH]; intros db; cbn [run].
  - apply history_refl.
  - eapply history_trans; [apply serve_history|apply IH].
Qed.

(** X13 -- In every store that the requests reach from one without
    posts, the moderation state of every post is coherent: a post carries
    a publication date exactly when it is published, and a rejection
    reason exactly when it is rejected. *)
Theorem reachable_lifecycle accounts trace id b :
  blogs (run trace (initial_db accounts)) !! id = Some b ->
  lifecycle_ok b.
Proof.
  intros Hb. destruct (run_history trace (initial_db accounts)) as [[_ Hnew] _].
  apply (Hnew id b (lookup_empty id) Hb).
Qed.

Lemma reachable_lifecycle_witness :
  lifecycle_ok
    (Blog.set_likesCount 1
       (Blog.set_likes [3]
          (Blog.set_publishedAt (Some 11)
             (Blog.set_status published sample_post)))).
Proof.
  apply (reachable_lifecycle accounts like_trace 0).
  vm_compute. reflexivity.
Defined.

(** X14 -- No sequence of requests removes a stored post, gives it to
    another author, changes its creation date, lowers its views or clears
    its deletion flag. *)
Theorem post_frame trace db id b :
  blogs db !! id = Some b ->
  ∃ b', blogs (run trace db) !! id = Some b'
        ∧ Blog.author b' = Blog.author b
        ∧ Blog.createdAt b' = Blog.createdAt b
        ∧ Blog.views b <= Blog.views b'
        ∧ (Blog.isDeleted b = true -> Blog.isDeleted b' = true).
Proof.
  intros Hb.
  destruct (run_history trace db) as [[Hframe _] _].
  destruct (run_evolves trace db) as ([Hkept _] & _ & _).
  destruct (Hframe id b Hb) as (b' & Hb' & [Ha Hc Hv _]).
  destruct (Hkept id b Hb) as (b'' & Hb'' & [_ _ Hd]).
  assert (b'' = b') as -> by congruence.
  exists b'. auto.
Qed.

Lemma post_frame_witness :
  ∃ b', blogs (run like_trace db_pending) !! 0 = Some b'
        ∧ Blog.author b' = 1
        ∧ Blog.createdAt b' = 10
        ∧ 0 <= Blog.views b'
        ∧ (false = true -> Blog.isDeleted b' = true).
Proof. exact (post_frame like_trace db_pending 0 sample_post eq_refl). Defined.

(** X15 -- No sequence of requests removes a stored comment, moves it
    to another post, author or parent, changes its creation date or clears
    its deletion flag; its list of replies is only added to, at the
    end. *)
Theorem comment_frame_kept trace db cid c :
  comments db !! cid = Some c ->
  ∃ c', comments (run trace db) !! cid = Some c'
        ∧ Comment.blog c' = Comment.blog c
        ∧ Comment.user c' = Comment.user c
        ∧ Comment.parentComment c' = Comment.parentComment c
        ∧ Comment.createdAt c' = Comment.createdAt c
        ∧ Comment.replies c `prefix_of` Comment.replies c'
        ∧ (Comment.isDeleted c = true -> Comment.isDeleted c' = true).
Proof.
  intros Hc.
  destruct (run_history trace db) as [_ [Hframe _]].
  destruct (run_evolves trace db) as (_ & [Hkept _] & _).
  destruct (Hframe cid c Hc) as (c' & Hc' & [Hb Hu Hp Ht Hr]).
  destruct (Hkept cid c Hc) as (c'' & Hc'' & [_ Hd]).
  assert (c'' = c') as -> by congruence.
  exists c'. auto 10.
Qed.

Lemma comment_frame_kept_witness :
  ∃ c', comments (run [(20, DELETE_comments_id bob 0)] db_thread) !! 0
        = Some c'
        ∧ Comment.blog c' = 0
        ∧ Comment.user c' = 2
        ∧ Comment.parentComment c' = None
        ∧ Comment.createdAt c' = 13
        ∧ [1] `prefix_of` Comment.replies c'
        ∧ (false = true -> Comment.isDeleted c' = true).
Proof.
  exact (comment_frame_kept [(20, DELETE_comments_id bob 0)] db_thread 0
           (Comment.set_replies [1] first_comment) eq_refl).
Defined.

(** ** A new comment in the pages *)

Lemma top_level_lookup blogId db cid c :
  top_level_comments blogId db !! cid = Some c
  <-> comments db !! cid = Some c ∧ top_level_of blogId c = true.
Proof. apply map_lookup_filter_Some. Qed.

(** Page 1 without a limit holds every live top-level comment. *)
Lemma getComments_all blogId sort db post :
  blogs db !! blogId = Some post ->
  ∃ threads,
    getComments blogId 1 0 sort db
    = (res 200 "" (CommentPage (size (top_level_comments blogId db)) threads),
       db)
    ∧ forall t, t ∈ threads
        <-> ∃ cid c, top_level_comments blogId db !! cid = Some c
                     ∧ t = thread_of db cid c.
Proof.
  intros Hpost.
  rewrite (getComments_run blogId 1 0 sort db post Hpost eq_refl).
  eexists. split; [reflexivity|]. cbn [Nat.eqb Nat.sub Nat.mul drop].
  intros t. rewrite list_elem_of_fmap. split.
  - intros ([cid c] & -> & Hin). exists cid, c. split; [|reflexivity].
    unfold sort_by in Hin. rewrite merge_sort_Permutation in Hin.
    apply (found_elem_of (fun _ c => top_level_of blogId c)) in Hin.
    apply top_level_lookup, Hin.
  - intros (cid & c & Hc & ->). exists (cid, c). split; [reflexivity|].
    unfold sort_by. rewrite merge_sort_Permutation.
    apply (found_elem_of (fun _ c => top_level_of blogId c)).
    apply top_level_lookup, Hc.
Qed.

Lemma reply_not_top_level blogId c p :
  Comment.parentComment c = Some p -> top_level_of blogId c = false.
Proof.
  intros Hp. unfold top_level_of. rewrite Hp.
  rewrite (bool_decide_eq_false_2 (Some p = None)) by discriminate.
  rewrite andb_false_r. reflexivity.
Qed.

(** X16 -- A comment that [createComment] has just stored shows in the
    unlimited first page of its post. Without a parent it is an entry of
    its own, without replies, and the total is one more than before. As
    an answer to a live top-level comment of the post it is no entry and
    the total stays: it is the last reply of its parent's entry. *)
Theorem createComment_listed now u blogId content parent sort db b :
  blogs db !! blogId = Some b ->
  Blog.status b = published ->
  BlogSchema.validate b = true ->
  1 <= String.length (Js.trim content) <= 1000 ->
  match parent with
  | Some p => is_Some (top_level_comments blogId db !! p)
  | None => True
  end ->
  let id := fresh (dom (comments db)) in
  let c := Comment.mk blogId (_id u) (Js.trim content) parent
             [] [] 0 false false now in
  let db' := (createComment now u [] blogId content parent db).2 in
  ∃ threads,
    getComments blogId 1 0 sort db'
    = (res 200 ""
         (CommentPage
            (size (top_level_comments blogId db)
             + match parent with Some _ => 0 | None => 1 end)
            threads),
       db')
    ∧ match parent with
      | None =>
          {| thread_id := id; thread_comment := c; thread_replies := [] |}
          ∈ threads
      | Some p =>
          (forall t, t ∈ threads -> thread_id t ≠ id)
          ∧ ∃ t, t ∈ threads ∧ thread_id t = p
                 ∧ last (thread_replies t) = Some (id, c)
      end.
Proof.
  intros Hb Hs Hv Hlen Hparent id c db'.
  assert (Hstored : match parent with
                    | Some p => is_Some (comments db !! p)
                    | None => True
                    end).
  { destruct parent as [p|]; [|exact I].
    destruct Hparent as [pc Hpc]. apply top_level_lookup in Hpc as [Hpc _].
    eauto. }
  subst db'.
  rewrite (createComment_published now u blogId content parent db b
             Hb Hs Hv Hlen Hstored).
  cbn [snd]. fold id c.
  set (db' := db_with_comment blogId b id c db).
  assert (Hfresh : comments db !! id = None)
    by apply not_elem_of_dom, is_fresh.
  assert (Hpost : blogs db' !! blogId
                  = Some (Blog.set_commentsCount
                            (Blog.commentsCount b + 1)%Z b))
    by apply lookup_insert_eq.
  destruct (getComments_all blogId sort db' _ Hpost)
    as (threads & -> & Hthreads).
  exists threads. destruct parent as [p|].
  - destruct Hparent as [pc Hpc].
    apply top_level_lookup in Hpc as [Hpc Htop].
    assert (Hne : p ≠ id) by congruence.
    set (pc' := Comment.set_replies (Comment.replies pc ++ [id]) pc).
    assert (Hid : comments db' !! id = Some c).
    { cbn. rewrite lookup_alter_ne by exact Hne. apply lookup_insert_eq. }
    assert (Hp : comments db' !! p = Some pc').
    { cbn. rewrite lookup_alter_eq, lookup_insert_ne by auto.
      rewrite Hpc. reflexivity. }
    assert (Hother : forall k, k ≠ id -> k ≠ p ->
              comments db' !! k = comments db !! k).
    { intros k Hk1 Hk2. cbn.
      rewrite lookup_alter_ne, lookup_insert_ne by auto. reflexivity. }
    assert (Hsize : size (top_level_comments blogId db')
                    = size (top_level_comments blogId db) + 0).
    { rewrite Nat.add_0_r, <- !size_dom. f_equal. apply set_eq. intros k.
      rewrite !elem_of_dom. unfold is_Some.
      setoid_rewrite top_level_lookup.
      destruct (decide (k = id)) as [->|Hk1];
        [|destruct (decide (k = p)) as [->|Hk2]].
      - rewrite Hid, Hfresh. split.
        + intros (x & [= <-] & Hx).
          rewrite (reply_not_top_level blogId c p eq_refl) in Hx.
          discriminate.
        + intros (x & [=] & _).
      - rewrite Hp, Hpc. split.
        + intros (x & [= <-] & Hx). eauto.
        + intros (x & [= <-] & Hx). eauto.
      - rewrite (Hother k Hk1 Hk2). reflexivity. }
    rewrite Hsize. split; [reflexivity|]. split.
    + intros t (cid & c0 & Hc0 & ->)%Hthreads. cbn. intros ->.
      apply top_level_lookup in Hc0 as [Hc0 Htop0].
      rewrite Hid in Hc0. injection Hc0 as <-.
      rewrite (reply_not_top_level blogId c p eq_refl) in Htop0.
      discriminate.
    + exists (thread_of db' p pc'). split; [|split; [reflexivity|]].
      * apply Hthreads. exists p, pc'. split; [|reflexivity].
        apply top_level_lookup. split; [exact Hp|exact Htop].
      * cbn [thread_of thread_replies pc' Comment.set_replies
             Comment.replies].
        unfold populate_replies. rewrite omap_app. cbn [omap list_omap].
        rewrite Hid. cbn. apply last_snoc.
  - assert (Htop : top_level_of blogId c = true).
    { unfold top_level_of. subst c. cbn [Comment.blog].
      rewrite (bool_decide_eq_true_2 (blogId = blogId)) by reflexivity.
      reflexivity. }
    assert (Hsize : size (top_level_comments blogId db')
                    = size (top_level_comments blogId db) + 1).
    { unfold top_level_comments. cbn [db' db_with_comment comments push_reply
                                        Comment.parentComment c].
      rewrite map_filter_insert_True by exact Htop.
      rewrite map_size_insert_None; [lia|].
      apply map_lookup_filter_None. left. exact Hfresh. }
    rewrite Hsize. split; [reflexivity|].
    apply Hthreads. exists id, c. split; [|reflexivity].
    apply top_level_lookup. split; [apply lookup_insert_eq|exact Htop].
Qed.

Lemma createComment_listed_witness :
  ∃ threads,
    getComments 0 1 0 newest_first
      (createComment 15 alice [] 0 "Thanks" (Some 0) db_thread).2
    = (res 200 "" (CommentPage (size (top_level_comments 0 db_thread) + 0)
                     threads),
       (createComment 15 alice [] 0 "Thanks" (Some 0) db_thread).2)
    ∧ (forall t, t ∈ threads -> thread_id t ≠ 2)
      ∧ ∃ t, t ∈ threads ∧ thread_id t = 0
             ∧ last (thread_replies t)
               = Some (2, Comment.mk 0 1 "Thanks" (Some 0) [] [] 0
                            false false 15).
Proof.
  refine (createComment_listed 15 alice 0 "Thanks" (Some 0) newest_first
            db_thread post_with_thread eq_refl eq_refl eq_refl _ _).
  - vm_compute. lia.
  - eexists. vm_compute. reflexivity.
Defined.

(** * Properties of the list, statistics and account routes *)

(** ** Query chains *)

Ltac answer_steps :=
  cbv [answer find_page find_top check_search bind or_reply reply_if findById
       find countDocuments store reply ret throw coll with_coll
       BlogModel CommentModel UserModel].

Lemma StronglySorted_weaken {A} (R1 R2 : relation A) l :
  (forall x y, R1 x y -> R2 x y) ->
  StronglySorted R1 l -> StronglySorted R2 l.
Proof.
  intros Himpl. induction 1 as [|x l Hs IH Hall]; constructor; [exact IH|].
  eapply Forall_impl; [exact Hall|]. intros y. apply Himpl.
Qed.

Section Chains.
Context {A : Type} (Mo : Model A) (test : nat -> A -> bool)
        (before : A -> A -> bool).

Let found (db : Db) : list (nat * A) :=
  List.filter (fun p => test p.1 p.2) (map_to_list (coll Mo db)).

Lemma find_page_run page limit db :
  find_page Mo test before page limit db
  = if (page =? 0) && (0 <? limit) then (inl Thrown, db)
    else (inr (limit_to limit
                 (drop ((page - 1) * limit) (order_by before (found db)))),
          db).
Proof.
  unfold find_page, find, bind, ret, throw.
  destruct ((page =? 0) && (0 <? limit)); reflexivity.
Qed.

Lemma find_top_run limit db :
  find_top Mo test before limit db
  = (inr (limit_to limit (order_by before (found db))), db).
Proof. reflexivity. Qed.

Lemma countDocuments_run db :
  countDocuments Mo test db = (inr (size (matching test (coll Mo db))), db).
Proof.
  unfold countDocuments, find, bind, ret.
  rewrite (found_length test (coll Mo db)). reflexivity.
Qed.

Lemma order_by_found db p :
  p ∈ order_by before (found db)
  <-> matching test (coll Mo db) !! p.1 = Some p.2.
Proof.
  unfold order_by. rewrite merge_sort_Permutation. destruct p as [id a].
  unfold found. rewrite (found_elem_of test (coll Mo db)).
  unfold matching. rewrite map_lookup_filter_Some. reflexivity.
Qed.

Lemma chain_sublist skip limit db :
  limit_to limit (drop skip (order_by before (found db)))
    `sublist_of` order_by before (found db).
Proof.
  unfold limit_to. destruct (limit =? 0); [apply sublist_drop|].
  etrans; [apply sublist_take|apply sublist_drop].
Qed.

Lemma chain_drawn skip limit db :
  drawn_from (matching test (coll Mo db)) limit
    (limit_to limit (drop skip (order_by before (found db)))).
Proof.
  pose proof (chain_sublist skip limit db) as Hsub.
  assert (Hperm : order_by before (found db) ≡ₚ found db)
    by apply merge_sort_Permutation.
  split; [|split; [|split]].
  - eapply sublist_NoDup; [|apply fmap_sublist, Hsub].
    rewrite Hperm. apply (found_NoDup test (coll Mo db)).
  - intros Hlimit. unfold limit_to. apply Nat.eqb_neq in Hlimit.
    rewrite Hlimit, length_take. lia.
  - unfold matching. rewrite <- (found_length test (coll Mo db)).
    fold (found db). rewrite <- (Permutation_length Hperm).
    apply sublist_length, Hsub.
  - intros id a Hin. apply (sublist_subseteq _ _ Hsub) in Hin.
    apply order_by_found in Hin. exact Hin.
Qed.

Lemma chain_all db id a :
  (id, a) ∈ limit_to 0 (drop ((1 - 1) * 0) (order_by before (found db)))
  <-> matching test (coll Mo db) !! id = Some a.
Proof. cbn [limit_to Nat.eqb Nat.sub Nat.mul drop]. apply order_by_found. Qed.

Lemma chain_in_order skip limit db :
  total_order before ->
  in_order before (limit_to limit (drop skip (order_by before (found db)))).
Proof.
  intros [Htotal Htrans].
  eapply StronglySorted_sublist; [apply chain_sublist|].
  unfold order_by.
  eapply (StronglySorted_weaken (fun p q => Is_true (before p.2 q.2))).
  { intros p q Hpq. apply Is_true_true. exact Hpq. }
  apply StronglySorted_merge_sort.
  - intros p q r Hpq Hqr. apply Is_true_true.
    apply Is_true_true in Hpq, Hqr. eauto.
  - intros p q. rewrite !Is_true_true. apply Htotal.
Qed.

(** Without a skip, the entries come before every match left out. *)
Lemma chain_top limit db p q :
  total_order before ->
  p ∈ limit_to limit (order_by before (found db)) ->
  matching test (coll Mo db) !! q.1 = Some q.2 ->
  q ∉ limit_to limit (order_by before (found db)) ->
  before p.2 q.2 = true.
Proof.
  intros Horder Hp Hq Hout.
  pose proof (chain_in_order 0 0 db Horder) as Hsorted.
  cbn [limit_to Nat.eqb drop] in Hsorted.
  apply order_by_found in Hq. unfold limit_to in Hp, Hout.
  destruct (limit =? 0); [contradiction|].
  rewrite <- (take_drop limit (order_by before (found db))) in Hsorted, Hq.
  apply elem_of_app in Hq as [Hq|Hq]; [contradiction|].
  apply (StronglySorted_app_1_elem_of _ _ _ p q Hsorted Hp Hq).
Qed.

End Chains.

(** ** The public list *)

Lemma date_le_total a b : date_le a b = true ∨ date_le b a = true.
Proof.
  destruct a as [x|], b as [y|]; cbn; auto.
  rewrite !Nat.leb_le. lia.
Qed.

Lemma date_le_trans a b c :
  date_le a b = true -> date_le b c = true -> date_le a c = true.
Proof.
  destruct a as [x|], b as [y|], c as [z|]; cbn; auto; try discriminate.
  rewrite !Nat.leb_le. lia.
Qed.

Lemma sortOption_total_order sort : total_order (sortOption sort).
Proof.
  unfold sortOption.
  repeat match goal with
         | |- context [if ?c then _ else _] => destruct c
         end;
    (split; [intros a b|intros a b c]);
    rewrite ?Nat.leb_le, ?Z.leb_le;
    eauto using date_le_total, date_le_trans; lia.
Qed.

(** What the query of the public list asks of a post. *)
Lemma public_query_true category author search b :
  public_query category author search b = true ->
  Blog.status b = published
  ∧ Blog.isDeleted b = false
  ∧ (forall c, category = Some c -> c ≠ "" -> c ≠ "All" -> Blog.category b = c)
  ∧ (forall a, author = Some a -> Blog.author b = a).
Proof.
  unfold public_query.
  intros [Htest _]%andb_true_iff.
  apply andb_true_iff in Htest as [Htest Ha].
  apply andb_true_iff in Htest as [Htest Hc].
  apply andb_true_iff in Htest as [Hs Hd].
  apply bool_decide_eq_true_1 in Hs. apply negb_true_iff in Hd.
  split; [exact Hs|]. split; [exact Hd|]. split.
  - intros c -> Hne Hall. destruct c as [|x c]; [congruence|].
    cbn [Js.truthy andb] in Hc.
    rewrite bool_decide_eq_false_2 in Hc by congruence. cbn [negb] in Hc.
    apply bool_decide_eq_true_1 in Hc. congruence.
  - intros a ->. apply bool_decide_eq_true_1 in Ha. exact Ha.
Qed.

(** X17 -- [getAllBlogs] writes nothing and lists published posts that
    are not deleted, and no others: every entry is such a stored post
    under its own id, of the category asked for (unless it is empty or
    "All") and of the author asked for; the total counts all posts that
    pass the query, whatever the page; the page has no post twice, at most
    [limit] entries, and is in the order of the sort. The only failures
    are the 500 of a search text that is no regular expression and of
    page 0 with a limit. *)
Theorem getAllBlogs_listing category search sort page limit author db :
  let test := fun (_ : nat) b => public_query category author search b in
  match getAllBlogs category search sort page limit author db with
  | (inr (WithoutContent pg), db') =>
      db' = db
      ∧ page_total pg = size (matching test (blogs db))
      ∧ drawn_from (matching test (blogs db)) limit (page_docs pg)
      ∧ in_order (sortOption (default "-publishedAt" sort)) (page_docs pg)
      ∧ (forall id b, (id, b) ∈ page_docs pg ->
           Blog.status b = published
           ∧ Blog.isDeleted b = false
           ∧ (forall c, category = Some c -> c ≠ "" -> c ≠ "All" ->
                        Blog.category b = c)
           ∧ (forall a, author = Some a -> Blog.author b = a))
  | (inr (Whole _), _) => False
  | (inl r, db') =>
      db' = db
      ∧ r = res 500 "Server error while fetching blogs" NoPayload
      ∧ (search = BadPattern ∨ (page = 0 ∧ limit ≠ 0))
  end.
Proof.
  intros test. unfold getAllBlogs, answer, bind.
  assert (Hbad : (page =? 0) && (0 <? limit) = true -> page = 0 ∧ limit ≠ 0).
  { intros [Hp%Nat.eqb_eq Hl%Nat.ltb_lt]%andb_true_iff. lia. }
  destruct search as [|hit|]; cbn [check_search ret throw];
    [| |auto];
    rewrite (find_page_run BlogModel); fold test;
    (destruct ((page =? 0) && (0 <? limit)) eqn:Hpage; [auto|]);
    rewrite (countDocuments_run BlogModel); cbn [ret page_total page_docs];
    (split; [reflexivity|]); (split; [reflexivity|]);
    (split; [apply (chain_drawn BlogModel)|]);
    (split; [apply (chain_in_order BlogModel test), sortOption_total_order|]);
    intros id b Hin;
    apply (chain_drawn BlogModel test) in Hin;
    apply map_lookup_filter_Some in Hin as [_ Htest];
    apply public_query_true in Htest; exact Htest.
Qed.

(** ** Moderation and the lists *)

Lemma approveBlog_run now id db b :
  blogs db !! id = Some b ->
  BlogSchema.validate b = true ->
  Blog.status b ≠ published ->
  let b' := Blog.set_rejectionReason ""
              (Blog.set_publishedAt (Some now)
                 (Blog.set_status published b)) in
  approveBlog now id db
  = (res 200 "Blog approved and published successfully" (BlogDoc id b'),
     put_blog id b' db).
Proof.
  intros Hb Hv Hs b'. unfold approveBlog. handler_steps. rewrite Hb.
  rewrite bool_decide_eq_false_2 by exact Hs. fold b'.
  rewrite save_untouched by done. reflexivity.
Qed.

Lemma rejectBlog_run now id reason db b :
  String.length (Js.trim reason) ≠ 0 ->
  blogs db !! id = Some b ->
  BlogSchema.validate b = true ->
  let b' := Blog.set_publishedAt None
              (Blog.set_rejectionReason reason
                 (Blog.set_status rejected b)) in
  rejectBlog now id (Some reason) db
  = (res 200 "Blog rejected successfully" (BlogDoc id b'), put_blog id b' db).
Proof.
  intros Hlen Hb Hv b'. unfold rejectBlog. handler_steps.
  rewrite (content_given reason Hlen), Hb.
  change (default "" (Some reason)) with reason. fold b'.
  rewrite save_untouched by done. reflexivity.
Qed.

(** The public list holds exactly the published posts that are not
    deleted. *)
Lemma publicly_listed_iff id db :
  publicly_listed id db
  <-> ∃ b, blogs db !! id = Some b
           ∧ Blog.status b = published ∧ Blog.isDeleted b = false.
Proof.
  unfold publicly_listed, getAllBlogs, answer, bind.
  cbn [check_search ret]. rewrite (find_page_run BlogModel).
  cbn [Nat.eqb andb]. rewrite (countDocuments_run BlogModel).
  cbn [ret fst page_docs]. rewrite list_elem_of_fmap. split.
  - intros ([id' b] & -> & Hin). exists b.
    apply (chain_all BlogModel
             (fun _ b => public_query None None NoSearch b)) in Hin.
    apply map_lookup_filter_Some in Hin as [Hb Htest].
    apply public_query_true in Htest as (Hs & Hd & _). auto.
  - intros (b & Hb & Hs & Hd). exists (id, b). split; [reflexivity|].
    apply (chain_all BlogModel
             (fun _ b => public_query None None NoSearch b)).
    apply map_lookup_filter_Some.
    split; [exact Hb|]. unfold public_query. cbn.
    rewrite Hs, Hd. reflexivity.
Qed.

Lemma pending_all db id b :
  (id, b) ∈ limit_to 0
              (drop ((1 - 1) * 0)
                 (order_by (fun a b => Blog.createdAt b <=? Blog.createdAt a)
                    (List.filter
                       (fun p => bool_decide (Blog.status p.2 = pending)
                                 && negb (Blog.isDeleted p.2))
                       (map_to_list (blogs db)))))
  <-> matching (fun _ b => bool_decide (Blog.status b = pending)
                           && negb (Blog.isDeleted b))
        (blogs db) !! id = Some b.
Proof.
  exact (chain_all BlogModel
           (fun _ b => bool_decide (Blog.status b = pending)
                       && negb (Blog.isDeleted b))
           (fun a b => Blog.createdAt b <=? Blog.createdAt a) db id b).
Qed.

(** The moderation queue holds exactly the pending posts that are not
    deleted. *)
Lemma queued_iff id db :
  queued id db
  <-> ∃ b, blogs db !! id = Some b
           ∧ Blog.status b = pending ∧ Blog.isDeleted b = false.
Proof.
  unfold queued, getPendingBlogs, answer, bind.
  rewrite (find_page_run BlogModel).
  cbn [Nat.eqb andb]. rewrite (countDocuments_run BlogModel).
  cbn [ret fst page_docs]. rewrite list_elem_of_fmap. split.
  - intros ([id' b] & -> & Hin). exists b.
    apply (proj1 (pending_all db id' b)) in Hin.
    apply map_lookup_filter_Some in Hin as [Hb Htest]. cbn in Htest.
    apply andb_true_iff in Htest as [Hs%bool_decide_eq_true_1 Hd%negb_true_iff].
    auto.
  - intros (b & Hb & Hs & Hd). exists (id, b). split; [reflexivity|].
    apply (proj2 (pending_all db id b)). apply map_lookup_filter_Some.
    split; [exact Hb|]. cbn. rewrite Hs, Hd. reflexivity.
Qed.

(** X18 -- Moderation decides what the public list shows. A stored post
    is in the public list exactly when it is published and not deleted.
    Approving a post that is not deleted puts it there and takes it out of
    the moderation queue; approving a deleted post does not list it.
    Rejecting a post, and deleting it (by its author or by a moderator),
    takes it out of the public list. *)
Theorem moderation_visibility now u id reason db b :
  blogs db !! id = Some b ->
  BlogSchema.validate b = true ->
  String.length (Js.trim reason) ≠ 0 ->
  Blog.author b = _id u ->
  (publicly_listed id db
   <-> Blog.status b = published ∧ Blog.isDeleted b = false)
  ∧ (Blog.status b ≠ published ->
     (publicly_listed id (approveBlog now id db).2
      <-> Blog.isDeleted b = false)
     ∧ ¬ queued id (approveBlog now id db).2)
  ∧ ¬ publicly_listed id (rejectBlog now id (Some reason) db).2
  ∧ ¬ publicly_listed id (deleteBlog now u id db).2
  ∧ ¬ publicly_listed id (deleteBlogAdmin now id db).2.
Proof.
  intros Hb Hv Hlen Ha.
  assert (Hput : forall b', blogs (put_blog id b' db) !! id = Some b')
    by (intros; apply lookup_insert_eq).
  split; [|split; [|split; [|split]]].
  - rewrite publicly_listed_iff. split.
    + intros (b0 & Hb0 & Hs & Hd). assert (b0 = b) as -> by congruence. auto.
    + intros [Hs Hd]. eauto.
  - intros Hs. rewrite (approveBlog_run now id db b Hb Hv Hs). cbn [snd].
    rewrite publicly_listed_iff, queued_iff. split.
    + split.
      * intros (b0 & Hb0 & _ & Hd). rewrite Hput in Hb0.
        injection Hb0 as <-. exact Hd.
      * intros Hd. eexists. split; [apply Hput|]. split; [reflexivity|exact Hd].
    + intros (b0 & Hb0 & Hs0 & _). rewrite Hput in Hb0.
      injection Hb0 as <-. discriminate Hs0.
  - rewrite (rejectBlog_run now id reason db b Hlen Hb Hv). cbn [snd].
    rewrite publicly_listed_iff. intros (b0 & Hb0 & Hs0 & _).
    rewrite Hput in Hb0. injection Hb0 as <-. discriminate Hs0.
  - rewrite (deleteBlog_effect now u id db b Hb Hv Ha). cbn [snd].
    rewrite publicly_listed_iff. intros (b0 & Hb0 & _ & Hd).
    rewrite Hput in Hb0. injection Hb0 as <-. discriminate Hd.
  - rewrite (deleteBlogAdmin_effect now id db b Hb Hv). cbn [snd].
    rewrite publicly_listed_iff. intros (b0 & Hb0 & _ & Hd).
    cbn in Hb0. rewrite lookup_insert_eq in Hb0.
    injection Hb0 as <-. discriminate Hd.
Qed.

Lemma moderation_visibility_witness :
  (publicly_listed 0 db_pending
   <-> pending = published ∧ false = false)
  ∧ (pending ≠ published ->
     (publicly_listed 0 (approveBlog 11 0 db_pending).2 <-> false = false)
     ∧ ¬ queued 0 (approveBlog 11 0 db_pending).2)
  ∧ ¬ publicly_listed 0 (rejectBlog 11 0 (Some "Off topic") db_pending).2
  ∧ ¬ publicly_listed 0 (deleteBlog 11 alice 0 db_pending).2
  ∧ ¬ publicly_listed 0 (deleteBlogAdmin 11 0 db_pending).2.
Proof.
  apply (moderation_visibility 11 alice 0 "Off topic" db_pending sample_post
           eq_refl eq_refl);
    [vm_compute; discriminate|reflexivity].
Defined.

Lemma bad_page page limit :
  (page =? 0) && (0 <? limit) = true -> page = 0 ∧ limit ≠ 0.
Proof. intros [Hp%Nat.eqb_eq Hl%Nat.ltb_lt]%andb_true_iff. lia. Qed.

Lemma newest_post_first : total_order
  (fun a b : Blog.t => Blog.createdAt b <=? Blog.createdAt a).
Proof.
  split; [intros a b|intros a b c]; rewrite !Nat.leb_le; lia.
Qed.

(** X19 -- [getPendingBlogs] writes nothing and lists pending posts
    that are not deleted, and no others, newest first: every entry is such
    a stored post under its own id; the total counts all of them, whatever
    the page; the page has no post twice and at most [limit] entries. Its
    only failure is the 500 of page 0 with a limit. *)
Theorem getPendingBlogs_listing page limit db :
  let test := fun (_ : nat) b =>
    bool_decide (Blog.status b = pending) && negb (Blog.isDeleted b) in
  match getPendingBlogs page limit db with
  | (inr pg, db') =>
      db' = db
      ∧ page_total pg = size (matching test (blogs db))
      ∧ drawn_from (matching test (blogs db)) limit (page_docs pg)
      ∧ in_order (fun a b => Blog.createdAt b <=? Blog.createdAt a)
          (page_docs pg)
      ∧ (forall id b, (id, b) ∈ page_docs pg ->
           blogs db !! id = Some b
           ∧ Blog.status b = pending ∧ Blog.isDeleted b = false)
  | (inl r, db') =>
      db' = db
      ∧ r = res 500 "Server error while fetching pending blogs" NoPayload
      ∧ page = 0 ∧ limit ≠ 0
  end.
Proof.
  intros test. unfold getPendingBlogs, answer, bind.
  rewrite (find_page_run BlogModel). fold test.
  destruct ((page =? 0) && (0 <? limit)) eqn:Hpage.
  { apply bad_page in Hpage. auto. }
  rewrite (countDocuments_run BlogModel). cbn [ret page_total page_docs].
  split; [reflexivity|]. split; [reflexivity|].
  split; [apply (chain_drawn BlogModel test)|].
  split; [apply (chain_in_order BlogModel test), newest_post_first|].
  intros id b Hin. apply (chain_drawn BlogModel test) in Hin.
  apply map_lookup_filter_Some in Hin as [Hb Htest]. cbn in Htest.
  apply andb_true_iff in Htest as [Hs%bool_decide_eq_true_1 Hd%negb_true_iff].
  auto.
Qed.

(** X20 -- A post that [createBlog] answers with 201 is in the
    moderation queue at once and not in the public list. *)
Theorem created_post_queued now u errors body db m id b db' :
  createBlog now u errors body db = (res 201 m (BlogDoc id b), db') ->
  queued id db' ∧ ¬ publicly_listed id db'.
Proof.
  intros Hcreated.
  apply createBlog_created in Hcreated as (_ & _ & Hb & _ & _ & ->).
  pose proof (pre_save_unhooked now None (new_blog now u body)) as Hsame.
  rewrite <- Hb in Hsame.
  assert (Hs : Blog.status b = pending) by apply (same_status _ _ Hsame).
  assert (Hd : Blog.isDeleted b = false) by apply (same_isDeleted _ _ Hsame).
  assert (Hput : blogs (put_blog id b db) !! id = Some b)
    by apply lookup_insert_eq.
  rewrite queued_iff, publicly_listed_iff. split; [eauto|].
  intros (b0 & Hb0 & Hs0 & _). rewrite Hput in Hb0. injection Hb0 as <-.
  congruence.
Qed.

Lemma created_post_queued_witness :
  queued 0 db_pending ∧ ¬ publicly_listed 0 db_pending.
Proof.
  refine (created_post_queued 10 alice []
            (BlogBody.mk (Some "Harbour notes") (Some sample_content)
               None None (Some "Travel") None)
            (initial_db accounts)
            "Blog created successfully and sent for approval"
            0 sample_post db_pending _).
  vm_compute. reflexivity.
Defined.

(** ** Trending and related posts *)

Lemma most_viewed_order : total_order most_viewed.
Proof.
  unfold most_viewed.
  split; [intros a b|intros a b c];
    rewrite !orb_true_iff, !andb_true_iff, !Nat.ltb_lt, !Nat.eqb_eq,
      !Nat.leb_le; lia.
Qed.

(** X21 -- [getTrendingBlogs] always answers 200 and writes nothing.
    Its entries are stored posts that are published, not deleted and
    published within the seven days (604800000 ms) before the clock
    reading; no post comes twice and at most [limit] come. They are the
    most viewed of those posts, likes breaking ties: the list is in that
    order and every such post left out comes after every entry. *)
Theorem getTrendingBlogs_listing now limit db :
  let test := fun (_ : nat) b =>
    bool_decide (Blog.status b = published) && negb (Blog.isDeleted b)
    && in_last_week now b in
  ∃ docs,
    getTrendingBlogs now limit db = (inr (WithoutContent docs), db)
    ∧ drawn_from (matching test (blogs db)) limit docs
    ∧ in_order most_viewed docs
    ∧ (forall id b, (id, b) ∈ docs ->
         blogs db !! id = Some b
         ∧ Blog.status b = published
         ∧ Blog.isDeleted b = false
         ∧ ∃ t, Blog.publishedAt b = Some t
                ∧ (Z.of_nat now - 604800000 <= Z.of_nat t)%Z)
    ∧ (forall id b id' b', (id, b) ∈ docs ->
         matching test (blogs db) !! id' = Some b' -> (id', b') ∉ docs ->
         most_viewed b b' = true).
Proof.
  intros test. unfold getTrendingBlogs, answer, bind.
  rewrite (find_top_run BlogModel). fold test. cbn [ret].
  eexists. split; [reflexivity|].
  split; [apply (chain_drawn BlogModel test most_viewed 0)|].
  split; [apply (chain_in_order BlogModel test most_viewed 0),
            most_viewed_order|].
  split.
  - intros id b Hin.
    apply (chain_drawn BlogModel test most_viewed 0) in Hin.
    apply map_lookup_filter_Some in Hin as [Hb Htest]. cbn in Htest.
    apply andb_true_iff in Htest as [Htest Hweek].
    apply andb_true_iff in Htest
      as [Hs%bool_decide_eq_true_1 Hd%negb_true_iff].
    split; [exact Hb|]. split; [exact Hs|]. split; [exact Hd|].
    unfold in_last_week in Hweek.
    destruct (Blog.publishedAt b) as [t|]; [|discriminate].
    exists t. split; [reflexivity|]. apply Z.leb_le, Hweek.
  - intros id b id' b' Hin Hmatch Hout.
    apply (chain_top BlogModel test most_viewed limit db (id, b) (id', b')
             most_viewed_order Hin Hmatch Hout).
Qed.

Lemma newest_published_first : total_order
  (fun a b : Blog.t => date_le (Blog.publishedAt b) (Blog.publishedAt a)).
Proof.
  split; [intros a b|intros a b c];
    eauto using date_le_total, date_le_trans.
Qed.

(** X22 -- [getRelatedBlogs] answers 404 for an id that names no post
    and writes nothing. For a stored post, whatever its status and
    deletion flag, it lists stored posts of the same category that are
    published and not deleted, most recently published first, at most
    [limit] of them and none twice; the post asked about is never among
    them. *)
Theorem getRelatedBlogs_listing id limit db :
  match blogs db !! id with
  | None =>
      getRelatedBlogs id limit db
      = (inl (res 404 "Blog not found" NoPayload), db)
  | Some b =>
      let test := fun id' b' =>
        bool_decide (id' ≠ id)
        && bool_decide (Blog.category b' = Blog.category b)
        && bool_decide (Blog.status b' = published)
        && negb (Blog.isDeleted b') in
      ∃ docs,
        getRelatedBlogs id limit db = (inr (WithoutContent docs), db)
        ∧ drawn_from (matching test (blogs db)) limit docs
        ∧ in_order (fun a b => date_le (Blog.publishedAt b)
                                       (Blog.publishedAt a)) docs
        ∧ (forall id' b', (id', b') ∈ docs ->
             id' ≠ id
             ∧ blogs db !! id' = Some b'
             ∧ Blog.category b' = Blog.category b
             ∧ Blog.status b' = published
             ∧ Blog.isDeleted b' = false)
  end.
Proof.
  unfold getRelatedBlogs, answer, bind, or_reply, findById, bind, ret, reply.
  cbn [coll BlogModel].
  destruct (blogs db !! id) as [b|] eqn:Hb; [|reflexivity].
  set (test := fun id' b' =>
         bool_decide (id' ≠ id)
         && bool_decide (Blog.category b' = Blog.category b)
         && bool_decide (Blog.status b' = published)
         && negb (Blog.isDeleted b')).
  rewrite (find_top_run BlogModel test).
  eexists. split; [reflexivity|].
  split; [apply (chain_drawn BlogModel test _ 0)|].
  split; [apply (chain_in_order BlogModel test _ 0), newest_published_first|].
  intros id' b' Hin.
  apply (chain_drawn BlogModel test _ 0) in Hin.
  apply map_lookup_filter_Some in Hin as [Hb' Htest]. cbn in Htest.
  apply andb_true_iff in Htest as [Htest Hd%negb_true_iff].
  apply andb_true_iff in Htest as [Htest Hs%bool_decide_eq_true_1].
  apply andb_true_iff in Htest
    as [Hne%bool_decide_eq_true_1 Hc%bool_decide_eq_true_1].
  auto.
Qed.

(** ** The author's own list *)

(** X23 -- [getMyBlogs] always answers 200 and writes nothing. The
    list it returns does not depend on the status, the page or the limit
    of the request: it holds every post of the caller that is not deleted,
    each once. Only the total follows the status: it counts the caller's
    posts of that status, so it is at most the length of the list, and
    equal to it when no status is given. *)
Theorem getMyBlogs_listing u status page limit db :
  ∃ docs total,
    getMyBlogs u status page limit db
    = (inr {| page_total := total; page_docs := docs |}, db)
    ∧ NoDup docs.*1
    ∧ (forall id b, (id, b) ∈ docs
         <-> blogs db !! id = Some b
             ∧ Blog.author b = _id u ∧ Blog.isDeleted b = false)
    ∧ total
      = size (matching (fun _ b =>
                bool_decide (Blog.author b = _id u)
                && negb (Blog.isDeleted b) && status_is status b)
                (blogs db))
    ∧ total <= length docs
    ∧ (Js.truthy status = false -> total = length docs).
Proof.
  unfold getMyBlogs, answer, bind.
  unfold find at 1. cbv beta iota.
  rewrite (countDocuments_run BlogModel).
  unfold ret. cbn [coll BlogModel].
  set (mine := fun (_ : nat) b =>
         bool_decide (Blog.author b = _id u) && negb (Blog.isDeleted b)).
  set (counted := fun (_ : nat) b =>
         bool_decide (Blog.author b = _id u) && negb (Blog.isDeleted b)
         && status_is status b).
  eexists _, _. split; [reflexivity|].
  split; [exact (found_NoDup mine (blogs db))|].
  split; [|split; [reflexivity|]].
  - intros id b. etrans; [exact (found_elem_of mine (blogs db) id b)|].
    unfold mine. rewrite andb_true_iff, bool_decide_eq_true, negb_true_iff.
    tauto.
  - assert (Hsize : size (matching counted (blogs db))
                    <= size (matching mine (blogs db))).
    { apply map_subseteq_size. unfold matching. apply map_subseteq_spec.
      intros id b [Hb Hc]%map_lookup_filter_Some.
      apply map_lookup_filter_Some. split; [exact Hb|].
      cbn in Hc |- *. apply andb_true_iff in Hc as [Hc _]. exact Hc. }
    pose proof (found_length mine (blogs db)) as Hlen. unfold mine in Hlen.
    rewrite Hlen. fold mine. split; [exact Hsize|].
    intros Hnone. f_equal. unfold matching. apply map_filter_ext.
    intros id b _. unfold counted, mine, status_is. cbn [fst snd].
    rewrite Hnone, andb_true_r. reflexivity.
Qed.

(** ** Statistics of a post *)

(** X24 -- [getBlogStats] answers 404 for an id that names no post;
    for a stored post, whatever its status and deletion flag, it reports
    the stored views, like counter, comment counter and read time, and
    writes nothing. The report follows the engagement routes: after a like
    request on a published post its likes are the number of likers, and
    after a new comment its comments are one more. *)
Theorem getBlogStats_tracks id db :
  (blogs db !! id = None ->
   getBlogStats id db = (inl (res 404 "Blog not found" NoPayload), db))
  ∧ (forall b, blogs db !! id = Some b ->
     getBlogStats id db
     = (inr {| stats_views := Blog.views b;
               stats_likes := Blog.likesCount b;
               stats_comments := Blog.commentsCount b;
               stats_readTime := Blog.readTime b |}, db)
     ∧ (forall now u content,
          Blog.status b = published ->
          BlogSchema.validate b = true ->
          1 <= String.length (Js.trim content) <= 1000 ->
          (getBlogStats id (toggleLike now u id db).2).1
          = inr {| stats_views := Blog.views b;
                   stats_likes := length (toggle (_id u) (Blog.likes b));
                   stats_comments := Blog.commentsCount b;
                   stats_readTime := Blog.readTime b |}
          ∧ (getBlogStats id (createComment now u [] id content None db).2).1
            = inr {| stats_views := Blog.views b;
                     stats_likes := Blog.likesCount b;
                     stats_comments := (Blog.commentsCount b + 1)%Z;
                     stats_readTime := Blog.readTime b |})).
Proof.
  assert (Hrun : forall db' b',
    blogs db' !! id = Some b' ->
    getBlogStats id db'
    = (inr {| stats_views := Blog.views b';
              stats_likes := Blog.likesCount b';
              stats_comments := Blog.commentsCount b';
              stats_readTime := Blog.readTime b' |}, db')).
  { intros db' b' Hb'. unfold getBlogStats. answer_steps. rewrite Hb'.
    reflexivity. }
  split; [|intros b Hb; split].
  - intros Hnone. unfold getBlogStats. answer_steps. rewrite Hnone.
    reflexivity.
  - apply Hrun, Hb.
  - intros now u content Hs Hv Hlen. split.
    + rewrite (toggleLike_published now u id db b Hb Hs Hv). cbn [snd].
      rewrite (Hrun _ (toggled u b)) by apply lookup_insert_eq. reflexivity.
    + rewrite (createComment_published now u id content None db b
                 Hb Hs Hv Hlen I).
      cbn [snd].
      rewrite (Hrun _ (Blog.set_commentsCount (Blog.commentsCount b + 1)%Z b))
        by apply lookup_insert_eq.
      reflexivity.
Qed.

Lemma getBlogStats_tracks_witness :
  getBlogStats 5 db_published
  = (inl (res 404 "Blog not found" NoPayload), db_published)
  ∧ (getBlogStats 0 (toggleLike 12 bob 0 db_published).2).1
    = inr {| stats_views := 0; stats_likes := 1; stats_comments := 0%Z;
             stats_readTime := 1 |}
  ∧ (getBlogStats 0 (createComment 12 bob [] 0 "Lovely." None
                       db_published).2).1
    = inr {| stats_views := 0; stats_likes := 0; stats_comments := 1%Z;
             stats_readTime := 1 |}.
Proof.
  destruct (getBlogStats_tracks 5 db_published) as [Hnone _].
  destruct (getBlogStats_tracks 0 db_published) as [_ Hstored].
  destruct (Hstored _ eq_refl) as [_ Htrack].
  destruct (Htrack 12 bob "Lovely." eq_refl eq_refl) as [Hlike Hcomment];
    [vm_compute; lia|].
  split; [apply Hnone; reflexivity|]. split.
  - exact Hlike.
  - exact (Hcomment).
Defined.

(** ** The admin's lists *)

Lemma status_is_true status b :
  status_is status b = true ->
  forall s, status = Some s -> s ≠ "" -> status_name (Blog.status b) = s.
Proof.
  unfold status_is. intros Htest s -> Hne.
  destruct s as [|c s]; [congruence|]. cbn [Js.truthy] in Htest.
  apply bool_decide_eq_true_1 in Htest. congruence.
Qed.

(** X25 -- [getAllBlogsAdmin] writes nothing and lists posts of every
    status but never a deleted one: every entry is a stored post under its
    own id, not deleted and of the status asked for, if one is; the total
    counts all posts that pass the query, whatever the page; the page has
    no post twice and at most [limit] entries, and under a sort that is a
    total order it is in that order. A status that names none of the three
    states matches nothing. The only failures are the 500 of a search text
    that is no regular expression and of page 0 with a limit. *)
Theorem getAllBlogsAdmin_listing status search page limit sortBy db :
  let test := fun (_ : nat) b =>
    negb (Blog.isDeleted b) && status_is status b
    && search_hits search (fun b => [Blog.title b; Blog.content b]) b in
  match getAllBlogsAdmin status search page limit sortBy db with
  | (inr (WithoutContent pg), db') =>
      db' = db
      ∧ page_total pg = size (matching test (blogs db))
      ∧ drawn_from (matching test (blogs db)) limit (page_docs pg)
      ∧ (total_order sortBy -> in_order sortBy (page_docs pg))
      ∧ (forall id b, (id, b) ∈ page_docs pg ->
           blogs db !! id = Some b
           ∧ Blog.isDeleted b = false
           ∧ (forall s, status = Some s -> s ≠ "" ->
                status_name (Blog.status b) = s))
      ∧ (forall s, status = Some s -> s ≠ "" ->
           (forall st, status_name st ≠ s) -> page_total pg = 0)
  | (inr (Whole _), _) => False
  | (inl r, db') =>
      db' = db
      ∧ r = res 500 "Server error while fetching blogs" NoPayload
      ∧ (search = BadPattern ∨ (page = 0 ∧ limit ≠ 0))
  end.
Proof.
  intros test. unfold getAllBlogsAdmin, answer, bind.
  destruct search as [|hit|]; cbn [check_search ret throw];
    [| |auto];
    rewrite (find_page_run BlogModel); fold test;
    (destruct ((page =? 0) && (0 <? limit)) eqn:Hpage;
     [apply bad_page in Hpage; auto|]);
    rewrite (countDocuments_run BlogModel); cbn [ret page_total page_docs];
    (split; [reflexivity|]); (split; [reflexivity|]);
    (split; [apply (chain_drawn BlogModel test)|]);
    (split; [apply (chain_in_order BlogModel test)|]);
    (split;
     [intros id b Hin;
      apply (chain_drawn BlogModel test) in Hin;
      apply map_lookup_filter_Some in Hin as [Hb Htest];
      cbn [fst snd] in Htest; unfold test in Htest;
      apply andb_true_iff in Htest as [Htest _];
      apply andb_true_iff in Htest as [Hd%negb_true_iff Hs];
      split; [exact Hb|]; split; [exact Hd|];
      apply status_is_true, Hs
     |intros s Hstatus Hne Hnone;
      apply map_size_empty_iff, map_empty; intros id;
      apply eq_None_not_Some; intros [b Hin];
      apply map_lookup_filter_Some in Hin as [Hb Htest];
      cbn [fst snd] in Htest; unfold test in Htest;
      apply andb_true_iff in Htest as [Htest _];
      apply andb_true_iff in Htest as [_ Hs];
      apply (Hnone (Blog.status b));
      apply (status_is_true status b Hs s Hstatus Hne)]).
Qed.

Lemma newest_comment_first : total_order
  (fun a b : Comment.t => Comment.createdAt b <=? Comment.createdAt a).
Proof.
  split; [intros a b|intros a b c]; rewrite !Nat.leb_le; lia.
Qed.

(** X26 -- [getAllComments] writes nothing and lists comments that are
    not deleted, replies as well as top-level ones, newest first: every
    entry is a stored comment under its own id, not deleted and of the
    post asked for, if one is; the total counts all of them, whatever the
    page; the page has no comment twice and at most [limit] entries. Its
    only failure is the 500 of page 0 with a limit. *)
Theorem getAllComments_listing page limit blogId db :
  let test := fun (_ : nat) c =>
    negb (Comment.isDeleted c)
    && match blogId with
       | Some id => bool_decide (Comment.blog c = id)
       | None => true
       end in
  match getAllComments page limit blogId db with
  | (inr pg, db') =>
      db' = db
      ∧ page_total pg = size (matching test (comments db))
      ∧ drawn_from (matching test (comments db)) limit (page_docs pg)
      ∧ in_order (fun a b => Comment.createdAt b <=? Comment.createdAt a)
          (page_docs pg)
      ∧ (forall id c, (id, c) ∈ page_docs pg ->
           comments db !! id = Some c
           ∧ Comment.isDeleted c = false
           ∧ (forall post, blogId = Some post -> Comment.blog c = post))
      ∧ (page = 1 -> limit = 0 -> forall id c,
           comments db !! id = Some c -> Comment.isDeleted c = false ->
           blogId = None -> (id, c) ∈ page_docs pg)
  | (inl r, db') =>
      db' = db
      ∧ r = res 500 "Server error while fetching comments" NoPayload
      ∧ page = 0 ∧ limit ≠ 0
  end.
Proof.
  intros test. unfold getAllComments, answer, bind.
  rewrite (find_page_run CommentModel). fold test.
  destruct ((page =? 0) && (0 <? limit)) eqn:Hpage.
  { apply bad_page in Hpage. auto. }
  rewrite (countDocuments_run CommentModel). cbn [ret page_total page_docs].
  split; [reflexivity|]. split; [reflexivity|].
  split; [apply (chain_drawn CommentModel test)|].
  split; [apply (chain_in_order CommentModel test), newest_comment_first|].
  split.
  - intros id c Hin. apply (chain_drawn CommentModel test) in Hin.
    apply map_lookup_filter_Some in Hin as [Hc Htest]. cbn in Htest.
    apply andb_true_iff in Htest as [Hd%negb_true_iff Hpost].
    split; [exact Hc|]. split; [exact Hd|].
    intros post ->. apply bool_decide_eq_true_1 in Hpost. exact Hpost.
  - intros -> -> id c Hc Hd ->.
    apply (chain_all CommentModel test). apply map_lookup_filter_Some.
    split; [exact Hc|]. unfold test. cbn [fst snd]. rewrite Hd. reflexivity.
Qed.

(** ** Accounts *)

Lemma users_put_twice id a a' db :
  users db !! id = Some a ->
  with_coll UserModel
    (<[id := a]> (users (with_coll UserModel (<[id := a']> (users db)) db)))
    (with_coll UserModel (<[id := a']> (users db)) db)
  = db.
Proof.
  intros Ha. destruct db as [bs cs us]. cbn in *. f_equal.
  rewrite insert_insert_eq. apply insert_id, Ha.
Qed.

Lemma toggleUserStatus_run u id db a :
  id ≠ _id u ->
  users db !! id = Some a ->
  toggleUserStatus u id db
  = (inr {| account_message :=
              if User.isActive a then "User deactivated successfully"
              else "User activated successfully";
            account_id := id;
            account_doc := User.set_isActive (negb (User.isActive a)) a |},
     with_coll UserModel
       (<[id := User.set_isActive (negb (User.isActive a)) a]> (users db))
       db).
Proof.
  intros Hne Ha. unfold toggleUserStatus. answer_steps.
  rewrite bool_decide_eq_false_2 by exact Hne. cbn. rewrite Ha.
  destruct a as [r []]; reflexivity.
Qed.

(** X27 -- [toggleUserStatus] refuses the caller's own id with 400 and
    an unknown id with 404, writing nothing. Otherwise it flips the
    account's active flag and nothing else: the role stays, no post and no
    comment is written, the message names the new state, and a second
    request gives back the store as it was. *)
Theorem toggleUserStatus_effect u id db :
  (id = _id u ->
   toggleUserStatus u id db
   = (inl (res 400 "You cannot deactivate your own account" NoPayload), db))
  ∧ (id ≠ _id u -> users db !! id = None ->
     toggleUserStatus u id db = (inl (res 404 "User not found" NoPayload), db))
  ∧ (forall a, id ≠ _id u -> users db !! id = Some a ->
     ∃ a',
       toggleUserStatus u id db
       = (inr {| account_message :=
                   if User.isActive a' then "User activated successfully"
                   else "User deactivated successfully";
                 account_id := id;
                 account_doc := a' |},
          with_coll UserModel (<[id := a']> (users db)) db)
       ∧ User.isActive a' = negb (User.isActive a)
       ∧ User.role a' = User.role a
       ∧ (toggleUserStatus u id (toggleUserStatus u id db).2).2 = db).
Proof.
  split; [|split].
  - intros ->. unfold toggleUserStatus. answer_steps.
    rewrite bool_decide_eq_true_2 by reflexivity. reflexivity.
  - intros Hne Hnone. unfold toggleUserStatus. answer_steps.
    rewrite bool_decide_eq_false_2 by exact Hne. cbn. rewrite Hnone.
    reflexivity.
  - intros a Hne Ha.
    exists (User.set_isActive (negb (User.isActive a)) a).
    rewrite (toggleUserStatus_run u id db a Hne Ha).
    split; [destruct a as [r []]; reflexivity|].
    split; [reflexivity|]. split; [reflexivity|]. cbn [snd].
    rewrite (toggleUserStatus_run u id _
               (User.set_isActive (negb (User.isActive a)) a) Hne)
      by apply lookup_insert_eq.
    cbn [snd]. replace (User.set_isActive _ (User.set_isActive _ a)) with a
      by (destruct a as [r []]; reflexivity).
    apply users_put_twice, Ha.
Qed.

Lemma toggleUserStatus_effect_witness :
  toggleUserStatus moderator 9 db_thread
  = (inl (res 400 "You cannot deactivate your own account" NoPayload),
     db_thread)
  ∧ toggleUserStatus moderator 7 db_thread
    = (inl (res 404 "User not found" NoPayload), db_thread)
  ∧ ∃ a',
      toggleUserStatus moderator 3 db_thread
      = (inr {| account_message :=
                  if User.isActive a' then "User activated successfully"
                  else "User deactivated successfully";
                account_id := 3;
                account_doc := a' |},
         with_coll UserModel (<[3 := a']> (users db_thread)) db_thread)
      ∧ User.isActive a' = negb true
      ∧ User.role a' = User
      ∧ (toggleUserStatus moderator 3
           (toggleUserStatus moderator 3 db_thread).2).2 = db_thread.
Proof.
  destruct (toggleUserStatus_effect moderator 9 db_thread) as (Hself & _ & _).
  destruct (toggleUserStatus_effect moderator 7 db_thread) as (_ & Hnone & _).
  destruct (toggleUserStatus_effect moderator 3 db_thread) as (_ & _ & Hgo).
  split; [|split].
  - apply Hself. reflexivity.
  - apply Hnone; [discriminate|reflexivity].
  - apply (Hgo (User.mk User true)); [discriminate|reflexivity].
Defined.

(** X28 -- Activating an account again does not bring its documents
    back: after [deleteUser] has deactivated an account and
    [toggleUserStatus] has activated it, the account is as it was, and
    every post and comment of that user is still flagged as deleted; the
    second request writes no post and no comment. *)
Theorem reactivation_keeps_deletions u id db a :
  id ≠ _id u ->
  users db !! id = Some a ->
  User.isActive a = true ->
  let db1 := (deleteUser u id db).2 in
  let db2 := (toggleUserStatus u id db1).2 in
  users db2 = users db
  ∧ blogs db2 = blogs db1
  ∧ comments db2 = comments db1
  ∧ (forall k b, blogs db !! k = Some b -> Blog.author b = id ->
       ∃ b', blogs db2 !! k = Some b' ∧ Blog.isDeleted b' = true)
  ∧ (forall k c, comments db !! k = Some c -> Comment.user c = id ->
       ∃ c', comments db2 !! k = Some c' ∧ Comment.isDeleted c' = true).
Proof.
  intros Hne Ha Hactive db1 db2.
  assert (Hdb1 : db1 = db_without_user id a db).
  { unfold db1, deleteUser. handler_steps.
    rewrite bool_decide_eq_false_2 by exact Hne. cbn. rewrite Ha.
    reflexivity. }
  assert (Hdb2 : db2 = with_coll UserModel
                         (<[id := User.set_isActive
                                    (negb (User.isActive
                                             (User.set_isActive false a)))
                                    (User.set_isActive false a)]>
                            (users db1)) db1).
  { unfold db2.
    rewrite (toggleUserStatus_run u id db1 (User.set_isActive false a) Hne);
      [reflexivity|].
    rewrite Hdb1. apply lookup_insert_eq. }
  rewrite Hdb2. cbn [with_coll UserModel users blogs comments].
  split; [|split; [reflexivity|split; [reflexivity|split]]].
  - rewrite Hdb1. cbn [db_without_user users].
    rewrite insert_insert_eq. destruct a as [r active]. cbn in *.
    subst active. apply insert_id, Ha.
  - intros k b Hb Hauthor. rewrite Hdb1. cbn [db_without_user blogs].
    rewrite lookup_fmap, Hb. cbn.
    rewrite bool_decide_eq_true_2 by exact Hauthor. eauto.
  - intros k c Hc Huser. rewrite Hdb1. cbn [db_without_user comments].
    rewrite lookup_fmap, Hc. cbn.
    rewrite bool_decide_eq_true_2 by exact Huser. eauto.
Qed.

Lemma reactivation_keeps_deletions_witness :
  let db1 := (deleteUser moderator 3 db_thread).2 in
  let db2 := (toggleUserStatus moderator 3 db1).2 in
  users db2 = users db_thread
  ∧ blogs db2 = blogs db1
  ∧ comments db2 = comments db1
  ∧ (forall k b, blogs db_thread !! k = Some b -> Blog.author b = 3 ->
       ∃ b', blogs db2 !! k = Some b' ∧ Blog.isDeleted b' = true)
  ∧ (forall k c, comments db_thread !! k = Some c -> Comment.user c = 3 ->
       ∃ c', comments db2 !! k = Some c' ∧ Comment.isDeleted c' = true).
Proof.
  apply (reactivation_keeps_deletions moderator 3 db_thread
           (User.mk User true)); [discriminate|reflexivity|reflexivity].
Defined.

Lemma role_of_Some s r :
  role_of s = Some r <-> (s = "user" ∧ r = User) ∨ (s = "admin" ∧ r = Admin).
Proof.
  unfold role_of.
  destruct (String.eqb_spec s "user") as [->|Hu].
  { split; [intros [= <-]; auto|]. intros [[_ ->]|[[=] _]]. reflexivity. }
  destruct (String.eqb_spec s "admin") as [->|Ha].
  { split; [intros [= <-]; auto|]. intros [[[=] _]|[_ ->]]. reflexivity. }
  split; [discriminate|]. intros [[-> _]|[-> _]]; contradiction.
Qed.

(** X29 -- [updateUserRole] accepts the two role names and nothing
    else, letter case included: any other role, or none, gives 400 before
    anything else is looked at. With a role name it refuses the caller's
    own id with 400 and an unknown id with 404; otherwise it gives the
    account that role and leaves its active flag, and writes no post and
    no comment. Nothing is written when it refuses. *)
Theorem updateUserRole_effect u id role db :
  (forall s r, role_of s = Some r
     <-> (s = "user" ∧ r = User) ∨ (s = "admin" ∧ r = Admin))
  ∧ (role ≫= role_of = None ->
     updateUserRole u id role db = (inl (res 400 invalid_role NoPayload), db))
  ∧ (forall r, role ≫= role_of = Some r ->
     (id = _id u ->
      updateUserRole u id role db
      = (inl (res 400 "You cannot change your own role" NoPayload), db))
     ∧ (id ≠ _id u -> users db !! id = None ->
        updateUserRole u id role db
        = (inl (res 404 "User not found" NoPayload), db))
     ∧ (forall a, id ≠ _id u -> users db !! id = Some a ->
        updateUserRole u id role db
        = (inr {| account_message :=
                    "User role updated to " +:+ default "" role
                    +:+ " successfully";
                  account_id := id;
                  account_doc := User.mk r (User.isActive a) |},
           {| blogs := blogs db;
              comments := comments db;
              users := <[id := User.mk r (User.isActive a)]> (users db) |}))).
Proof.
  split; [apply role_of_Some|]. split.
  - intros Hrole. unfold updateUserRole. answer_steps. rewrite Hrole.
    reflexivity.
  - intros r Hrole. split; [|split].
    + intros ->. unfold updateUserRole. answer_steps. rewrite Hrole.
      rewrite bool_decide_eq_true_2 by reflexivity. reflexivity.
    + intros Hne Hnone. unfold updateUserRole. answer_steps. rewrite Hrole.
      rewrite bool_decide_eq_false_2 by exact Hne. cbn. rewrite Hnone.
      reflexivity.
    + intros a Hne Ha. unfold updateUserRole. answer_steps. rewrite Hrole.
      rewrite bool_decide_eq_false_2 by exact Hne. cbn. rewrite Ha.
      reflexivity.
Qed.

Lemma updateUserRole_effect_witness :
  updateUserRole moderator 3 (Some "Admin") db_thread
  = (inl (res 400 invalid_role NoPayload), db_thread)
  ∧ updateUserRole moderator 9 (Some "user") db_thread
    = (inl (res 400 "You cannot change your own role" NoPayload), db_thread)
  ∧ updateUserRole moderator 7 (Some "admin") db_thread
    = (inl (res 404 "User not found" NoPayload), db_thread)
  ∧ updateUserRole moderator 3 (Some "admin") db_thread
    = (inr {| account_message := "User role updated to admin successfully";
              account_id := 3;
              account_doc := User.mk Admin true |},
       {| blogs := blogs db_thread;
          comments := comments db_thread;
          users := <[3 := User.mk Admin true]> (users db_thread) |}).
Proof.
  destruct (updateUserRole_effect moderator 3 (Some "Admin") db_thread)
    as (_ & Hbad & _).
  destruct (updateUserRole_effect moderator 9 (Some "user") db_thread)
    as (_ & _ & Hself).
  destruct (updateUserRole_effect moderator 7 (Some "admin") db_thread)
    as (_ & _ & Hnone).
  destruct (updateUserRole_effect moderator 3 (Some "admin") db_thread)
    as (_ & _ & Hgo).
  split; [|split; [|split]].
  - apply Hbad. reflexivity.
  - apply (proj1 (Hself User eq_refl)). reflexivity.
  - apply (proj1 (proj2 (Hnone Admin eq_refl))); [discriminate|reflexivity].
  - apply (proj2 (proj2 (Hgo Admin eq_refl)) (User.mk User true));
      [discriminate|reflexivity].
Defined.

(** ** The dashboard *)

Section Groups.
Context {K : Type} `{EqDecision K}.

Lemma sum_list_with_add {B} (f g : B -> nat) l :
  sum_list_with (fun k => f k + g k) l
  = sum_list_with f l + sum_list_with g l.
Proof. induction l as [|x l IH]; cbn; [reflexivity|]. rewrite IH. lia. Qed.

Lemma sum_list_with_ext {B} (f g : B -> nat) l :
  (forall k, f k = g k) -> sum_list_with f l = sum_list_with g l.
Proof.
  intros Hfg. induction l as [|x l IH]; cbn; [reflexivity|].
  rewrite IH, Hfg. reflexivity.
Qed.

Lemma sum_list_fmap {B} (f : B -> nat) l :
  sum_list (f <$> l) = sum_list_with f l.
Proof.
  induction l as [|x l IH]; cbn; [reflexivity|]. rewrite IH. reflexivity.
Qed.

Lemma sum_indicator (x : K) ks :
  NoDup ks -> x ∈ ks ->
  sum_list_with (fun k => if decide (k = x) then 1 else 0) ks = 1.
Proof.
  induction 1 as [|k ks Hout Hnd IH]; intros Hin.
  - apply elem_of_nil in Hin. contradiction.
  - cbn. destruct (decide (k = x)) as [->|Hne].
    + assert (Hzero : sum_list_with
                        (fun k => if decide (k = x) then 1 else 0) ks = 0).
      { clear IH Hin Hnd. induction ks as [|k ks IH]; [reflexivity|].
        cbn. apply not_elem_of_cons in Hout as [Hne Hout].
        rewrite decide_False by auto. apply IH, Hout. }
      rewrite Hzero. reflexivity.
    + apply elem_of_cons in Hin as [->|Hin]; [contradiction|].
      rewrite IH by exact Hin. reflexivity.
Qed.

(** Over keys that cover a list, each once, the numbers of occurrences add
    up to the length of the list. *)
Lemma count_sum (ks keys : list K) :
  NoDup ks -> (forall x, x ∈ keys -> x ∈ ks) ->
  sum_list_with (fun k => length (filter (k =.) keys)) ks = length keys.
Proof.
  intros Hnd. induction keys as [|x keys IH]; intros Hcover.
  - cbn. induction ks as [|k ks IHks]; [reflexivity|]. cbn.
    apply NoDup_cons in Hnd as [_ Hnd]. apply IHks; [exact Hnd|].
    intros x Hx. apply elem_of_nil in Hx. contradiction.
  - rewrite (sum_list_with_ext _
               (fun k => (if decide (k = x) then 1 else 0)
                         + length (filter (k =.) keys))).
    + rewrite sum_list_with_add, sum_indicator, IH; cbn; auto.
      * intros y Hy. apply Hcover. right. exact Hy.
      * apply Hcover. left.
    + intros k. rewrite filter_cons.
      destruct (decide (k = x)); reflexivity.
Qed.

Context {A : Type} (key : A -> K).

Lemma group_count_keys (docs : list (nat * A)) :
  (group_count key docs).*1 = remove_dups ((fun p => key p.2) <$> docs).
Proof.
  unfold group_count. rewrite <- list_fmap_compose. apply list_fmap_id.
Qed.

Lemma group_count_sum (docs : list (nat * A)) :
  sum_list (group_count key docs).*2 = length docs.
Proof.
  unfold group_count. rewrite <- list_fmap_compose, sum_list_fmap.
  rewrite (sum_list_with_ext _
             (fun k => length (filter (k =.) ((fun p => key p.2) <$> docs))))
    by reflexivity.
  rewrite (count_sum _ ((fun p => key p.2) <$> docs)).
  - apply length_fmap.
  - apply NoDup_remove_dups.
  - intros x Hx. apply elem_of_remove_dups, Hx.
Qed.

Lemma group_count_elem (docs : list (nat * A)) k n :
  (k, n) ∈ group_count key docs ->
  n = length (List.filter (fun p => bool_decide (key p.2 = k)) docs)
  ∧ 1 <= n <= length docs.
Proof.
  unfold group_count. intros (k' & [= <- ->] & Hk)%list_elem_of_fmap.
  rewrite elem_of_remove_dups in Hk.
  assert (Hcount : forall l : list (nat * A),
    length (filter (k =.) ((fun p => key p.2) <$> l))
    = length (List.filter (fun p => bool_decide (key p.2 = k)) l)).
  { induction l as [|p l IH]; [reflexivity|].
    rewrite fmap_cons, filter_cons. cbn [List.filter].
    destruct (decide (k = key p.2)) as [Heq|Hne].
    - rewrite bool_decide_eq_true_2 by auto. cbn. rewrite IH. reflexivity.
    - rewrite bool_decide_eq_false_2 by auto. exact IH. }
  split; [apply Hcount|]. split.
  - apply list_elem_of_fmap in Hk as (p & -> & Hp).
    destruct (filter (eq (key p.2)) ((fun p => key p.2) <$> docs))
      as [|y ys] eqn:Hf; [|cbn; lia].
    assert (Hin : key p.2 ∈ filter (eq (key p.2))
                                   ((fun p => key p.2) <$> docs)).
    { apply list_elem_of_filter. split; [reflexivity|].
      apply list_elem_of_fmap. eauto. }
    rewrite Hf in Hin. apply elem_of_nil in Hin. contradiction.
  - etrans; [apply length_filter|]. rewrite length_fmap. reflexivity.
Qed.

End Groups.

Lemma sort_count_Permutation {K} (groups : list (K * nat)) :
  sort_count groups ≡ₚ groups.
Proof. apply merge_sort_Permutation. Qed.

Lemma status_partition (l : list (nat * Blog.t)) :
  length (List.filter (fun p => negb (Blog.isDeleted p.2)) l)
  = length (List.filter
              (fun p => bool_decide (Blog.status p.2 = published)
                        && negb (Blog.isDeleted p.2)) l)
    + length (List.filter
                (fun p => bool_decide (Blog.status p.2 = pending)
                          && negb (Blog.isDeleted p.2)) l)
    + length (List.filter
                (fun p => bool_decide (Blog.status p.2 = rejected)
                          && negb (Blog.isDeleted p.2)) l).
Proof.
  induction l as [|[id b] l IH]; [reflexivity|]. cbn [List.filter fst snd].
  destruct (Blog.status b), (Blog.isDeleted b);
    repeat first [rewrite bool_decide_eq_true_2 by reflexivity
                 |rewrite bool_decide_eq_false_2 by discriminate];
    cbn [andb negb length]; lia.
Qed.

Lemma filter_filter_length {B} (f g : B -> bool) l :
  length (List.filter f (List.filter g l))
  = length (List.filter (fun x => g x && f x) l).
Proof.
  induction l as [|x l IH]; [reflexivity|]. cbn.
  destruct (g x); cbn; [destruct (f x); cbn; rewrite IH|]; auto.
Qed.

(** X30 -- [getDashboardStats] always answers 200 and writes nothing,
    and its numbers agree with each other and with the store. The total
    of posts is the sum of the published, pending and rejected ones. The
    category statistics list every category once, with the number of
    published posts in it that are not deleted, never zero, and these
    numbers add up to the published count. At most five top authors and
    five recent posts are given; a top author has an account and between
    one and all of the published posts. The views and likes of a post that
    is not deleted are within the totals. *)
Theorem getDashboardStats_consistent db :
  ∃ d,
    getDashboardStats db = (inr d, db)
    ∧ blogs_total d = blogs_published d + blogs_pending d + blogs_rejected d
    ∧ blogs_published d
      = size (matching (fun _ b => bool_decide (Blog.status b = published)
                                   && negb (Blog.isDeleted b)) (blogs db))
    ∧ sum_list (categoryStats d).*2 = blogs_published d
    ∧ NoDup (categoryStats d).*1
    ∧ (forall c n, (c, n) ∈ categoryStats d ->
         1 <= n
         ∧ n = size (matching
                       (fun _ b => bool_decide (Blog.status b = published)
                                   && negb (Blog.isDeleted b)
                                   && bool_decide (Blog.category b = c))
                       (blogs db)))
    ∧ length (topAuthors d) <= 5
    ∧ (forall a n, (a, n) ∈ topAuthors d ->
         is_Some (users db !! a) ∧ 1 <= n <= blogs_published d)
    ∧ length (recentBlogs d) <= 5
    ∧ (forall id b, blogs db !! id = Some b -> Blog.isDeleted b = false ->
         Blog.views b <= totalViews d
         ∧ Blog.likesCount b <= totalLikes d).
Proof.
  unfold getDashboardStats. answer_steps.
  set (l := map_to_list (blogs db)).
  set (shown := List.filter
                  (fun p : nat * Blog.t =>
                     bool_decide (Blog.status p.2 = published)
                     && negb (Blog.isDeleted p.2)) l).
  set (live := List.filter
                 (fun p : nat * Blog.t => negb (Blog.isDeleted p.2)) l).
  eexists. split; [reflexivity|].
  cbn [blogs_total blogs_published blogs_pending blogs_rejected categoryStats
       topAuthors recentBlogs totalViews totalLikes].
  split; [apply status_partition|].
  pose (is_shown := fun (_ : nat) (b : Blog.t) =>
          bool_decide (Blog.status b = published)
          && negb (Blog.isDeleted b)).
  split; [exact (found_length is_shown (blogs db))|].
  split.
  { rewrite sort_count_Permutation. apply group_count_sum. }
  split.
  { rewrite sort_count_Permutation, group_count_keys.
    apply NoDup_remove_dups. }
  split.
  { intros c n Hin. rewrite sort_count_Permutation in Hin.
    apply group_count_elem in Hin as [-> [Hpos _]]. split; [exact Hpos|].
    unfold shown. rewrite filter_filter_length.
    pose (in_category := fun (_ : nat) (b : Blog.t) =>
            bool_decide (Blog.status b = published)
            && negb (Blog.isDeleted b)
            && bool_decide (Blog.category b = c)).
    exact (found_length in_category (blogs db)). }
  assert (Htop : List.filter
                   (fun g : nat * nat => bool_decide (is_Some (users db !! g.1)))
                   (take 5 (sort_count (group_count Blog.author shown)))
                 ⊆ group_count Blog.author shown
                 ∧ length (List.filter
                   (fun g : nat * nat => bool_decide (is_Some (users db !! g.1)))
                   (take 5 (sort_count (group_count Blog.author shown)))) <= 5).
  { split.
    - intros g Hg. apply list_elem_of_In, filter_In in Hg as [Hg _].
      apply list_elem_of_In in Hg. apply (subseteq_take 5) in Hg.
      rewrite sort_count_Permutation in Hg. exact Hg.
    - etrans; [apply List.filter_length_le|]. rewrite length_take. lia. }
  destruct Htop as [Hsub Hfive].
  split; [exact Hfive|]. split.
  { intros a n Hin. split.
    - apply list_elem_of_In, filter_In in Hin as [_ Hacc].
      apply bool_decide_eq_true_1 in Hacc. exact Hacc.
    - apply Hsub, group_count_elem in Hin as [_ Hn]. exact Hn. }
  split.
  { rewrite length_fmap. unfold limit_to. cbn [Nat.eqb].
    rewrite length_take. lia. }
  intros id b Hb Hd.
  assert (Hin : (id, b) ∈ live).
  { apply list_elem_of_In, filter_In. split.
    - apply list_elem_of_In, elem_of_map_to_list, Hb.
    - cbn. rewrite Hd. reflexivity. }
  unfold group_sum. destruct live as [|p live']; [inversion Hin|].
  cbn [head default]. rewrite !sum_list_fmap.
  split.
  - apply (sum_list_with_in (id, b) (fun p => Blog.views p.2)), Hin.
  - apply (sum_list_with_in (id, b) (fun p => Blog.likesCount p.2)), Hin.
Qed.
